(** * Multi-provider dispatch and verdict extraction

    A shallow embedding of the two Python sources

    - [OWASP/llm_api_handler.py]: the model registry, parameter
      validation, token accounting, cost estimation and provider routing;
    - [OpenVuln/generate_prompts_with_openrouter.py]: the call to the
      OpenRouter chat endpoint and the cascade that recovers a verdict
      from the text the model returned,

    followed by the properties stated about them. *)

From Stdlib Require Import ZArith QArith Qcanon Floats Uint63 Ascii String.
From stdpp Require Import gmap strings list.

Set Default Proof Using "Type".

(** ** Python preliminaries *)

(** A [dict] literal [{k1: v1, k2: v2, ...}] is built left to right, so a
    key written twice keeps its last value. *)
Definition dict_literal `{Countable K} {V} (items : list (K * V)) : gmap K V :=
  foldl (λ d kv, <[kv.1 := kv.2]> d) ∅ items.

(** Text is a sequence of Unicode code points. *)
Abbreviation pystr := (list N).

Definition ord (a : ascii) : N := N_of_ascii a.
Arguments ord a%_char.

Definition str (s : string) : pystr := ord <$> list_ascii_of_string s.
Arguments str s%_string.

(** The double quote, and a text between double quotes. *)
Definition QUOTE : N := 34.
Definition quoted (s : pystr) : pystr := QUOTE :: s ++ [QUOTE].

(** [text] reads a literal in which an apostrophe stands for a double
    quote: [text "{'a': 1}"] is the text [{"a": 1}]. *)
Definition text (s : string) : pystr :=
  (λ c, if (c =? ord "'")%N then QUOTE else c) <$> str s.
Arguments text s%_string.

(** The values passed as keyword arguments: numbers (a Python [int] or
    [float], by its binary64 value), strings and [None]. *)
Inductive value :=
| VNum (x : float)
| VStr (s : string)
| VNone.

(** Exceptions.  The handler raises [ValueError] in two places, told
    apart by their message; the two are kept as separate constructors
    under the names the specification gives them.  [TypeError] comes from
    an operand of the wrong type, [KeyError] and [IndexError] from a
    subscript that is not there, [AttributeError] from calling a method
    the object does not have, [JSONDecodeError] from [json.loads],
    [RecursionError] and [ValueError] from the limits of the interpreter
    (the depth of recursion, the digits of an integer literal),
    [RequestException] from the HTTP client, and [LibraryError] stands
    for whatever else a library raises. *)
Inductive exn :=
| UnknownModel (model : string)
    (* ValueError: Model '{model}' is not supported. ... *)
| InvalidParameter (model : string) (max_temp : float) (temp : value)
    (* ValueError: Temperature must be between 0 and {max_temp} ... *)
| TypeError
| KeyError (key : string)
| IndexError
| AttributeError
| JSONDecodeError
| RecursionError
| ValueError
    (* ValueError: Exceeds the limit ... for integer string conversion *)
| RequestException
| LibraryError (what : string).

(** Messages written to standard output by [print]. *)
Inductive message :=
| WarnUnsupportedParameter (param model : string) (supported : list string)
| WarnTokenizerFallback (model : string) (e : exn)
| ErrorGpt4Tokenizer (fallback_error : exn)
| RoughEstimation (estimated_tokens : Z)
| WarnNoPricing (model : string).

(** A computation either returns or raises, and leaves behind the lines
    it printed. *)
Inductive result (A : Type) :=
| Return (a : A)
| Raise (e : exn).
Arguments Return {A} a.
Arguments Raise {A} e.

#[global] Instance result_ret : MRet result := λ A a, Return a.

#[global] Instance result_bind : MBind result := λ A B k m,
  match m with
  | Return a => k a
  | Raise e => Raise e
  end.

Record py (A : Type) := Py { outcome : result A; printed : list message }.
Arguments Py {A} outcome printed.
Arguments outcome {A} p.
Arguments printed {A} p.

Definition raise {A} (e : exn) : py A := Py (Raise e) [].
Definition print (m : message) : py unit := Py (Return tt) [m].

#[global] Instance py_ret : MRet py := λ A a, Py (Return a) [].

#[global] Instance py_bind : MBind py := λ A B k m,
  match outcome m with
  | Return a => let r := k a in Py (outcome r) (printed m ++ printed r)
  | Raise e => Py (Raise e) (printed m)
  end.

(** [try: body except Exception as e: handler e]. *)
Definition try_except {A} (body : py A) (handler : exn → py A) : py A :=
  match outcome body with
  | Return a => body
  | Raise e => let r := handler e in Py (outcome r) (printed body ++ printed r)
  end.

(** [try: body except (E1, E2, ...) as e: handler e], where [catches]
    tells the listed exception classes. *)
Definition try_except_on {A} (catches : exn → bool) (body : py A)
    (handler : exn → py A) : py A :=
  match outcome body with
  | Return a => body
  | Raise e =>
      if catches e then
        let r := handler e in Py (outcome r) (printed body ++ printed r)
      else body
  end.

(** [a <= b] on values: defined on numbers, [TypeError] otherwise. *)
Definition value_le (a b : value) : py bool :=
  match a, b with
  | VNum x, VNum y => mret (x <=? y)%float
  | _, _ => raise TypeError
  end.

(** The chained comparison [a <= b <= c], which is [a <= b and b <= c]. *)
Definition value_between (a b c : value) : py bool :=
  lo ← value_le a b;
  if lo : bool then value_le b c else mret false.

(** The arithmetic a [float] computation runs in.  [of_literal] is the
    number a decimal literal of the source denotes, [of_int] the
    conversion of an [int] operand. *)
Record arithmetic := {
  num : Type;
  of_literal : Q → num;
  of_int : Z → num;
  add : num → num → num;
  mul : num → num → num;
  div : num → num → num
}.

(** Python's own arithmetic: IEEE 754 binary64.  [of_int] is exact for
    integers of magnitude at most 2^53; a decimal literal m/10^k with m
    and 10^k in that range is their correctly rounded quotient. *)
Definition float_of_int (z : Z) : float :=
  match z with
  | Zneg p => (- PrimFloat.of_uint63 (Uint63.of_Z (Zpos p)))%float
  | _ => PrimFloat.of_uint63 (Uint63.of_Z z)
  end.

Definition binary64 : arithmetic := {|
  num := float;
  of_literal q := (float_of_int (Qnum q) / float_of_int (Zpos (Qden q)))%float;
  of_int := float_of_int;
  add := PrimFloat.add;
  mul := PrimFloat.mul;
  div := PrimFloat.div
|}.

(** Exact rational arithmetic, free of rounding. *)
Definition exact : arithmetic := {|
  num := Qc;
  of_literal := Q2Qc;
  of_int z := Q2Qc (inject_Z z);
  add := Qcplus;
  mul := Qcmult;
  div := Qcdiv
|}.

(** ** Text *)

Definition in_range (lo hi : N) : N → bool := λ c, (lo <=? c)%N && (c <=? hi)%N.

(** [str.isspace] on one character; it is also the class [\s] of [re]. *)
Definition isspace (c : N) : bool :=
  in_range 0x09 0x0d c || in_range 0x1c 0x20 c || (c =? 0x85)%N
  || (c =? 0xa0)%N || (c =? 0x1680)%N || in_range 0x2000 0x200a c
  || (c =? 0x2028)%N || (c =? 0x2029)%N || (c =? 0x202f)%N
  || (c =? 0x205f)%N || (c =? 0x3000)%N.

(** [s.strip()]. *)
Fixpoint lstrip (s : pystr) : pystr :=
  match s with
  | c :: s' => if isspace c then lstrip s' else s
  | [] => []
  end.

Definition strip (s : pystr) : pystr := reverse (lstrip (reverse (lstrip s))).

(** ** The [re] library, as far as the sources use it

    A backtracking matcher with Python's priorities: an alternative or an
    optional part is tried before it is skipped, a greedy repetition
    tries the longest run first and a lazy one the shortest, and a search
    reports the match at the leftmost position that has one. *)

Module Re.

Inductive regex :=
| Lit (s : pystr)              (* literal text *)
| Class (p : N → bool)         (* one character of a class *)
| Seq (r1 r2 : regex)
| Alt (r1 r2 : regex)          (* r1|r2 *)
| Opt (r : regex)              (* (?:r)? *)
| Star (p : N → bool)          (* c*  *)
| Plus (p : N → bool)          (* c+  *)
| LazyStar (p : N → bool)      (* c*? *)
| Group (r : regex).           (* (r), the first group of the pattern *)

(** Character classes. *)
Definition any : N → bool := λ _, true.                    (* . with DOTALL *)
Definition one_of (s : pystr) : N → bool := λ c, bool_decide (c ∈ s).
Definition none_of (s : pystr) : N → bool := λ c, bool_decide (c ∉ s).

(** [starts_with l s] is what is left of [s] after the prefix [l]. *)
Fixpoint starts_with (l s : pystr) : option pystr :=
  match l, s with
  | [], _ => Some s
  | a :: l', b :: s' => if (a =? b)%N then starts_with l' s' else None
  | _ :: _, [] => None
  end.

Section Exec.
Context {R : Type}.

Fixpoint star (p : N → bool) (s : pystr) (k : pystr → option R) : option R :=
  match s with
  | c :: s' =>
      if p c then
        match star p s' k with
        | Some r => Some r
        | None => k s
        end
      else k s
  | [] => k s
  end.

Fixpoint lazy_star (p : N → bool) (s : pystr) (k : pystr → option R)
    : option R :=
  match k s with
  | Some r => Some r
  | None =>
      match s with
      | c :: s' => if p c then lazy_star p s' k else None
      | [] => None
      end
  end.

(** [exec r s g k] matches [r] at the head of [s] and hands what is left,
    and the text of group 1 so far, to the continuation [k]; when [k]
    fails the matcher backtracks. *)
Fixpoint exec (r : regex) (s : pystr) (g : option pystr)
    (k : pystr → option pystr → option R) : option R :=
  match r with
  | Lit l =>
      match starts_with l s with
      | Some s' => k s' g
      | None => None
      end
  | Class p =>
      match s with
      | c :: s' => if p c then k s' g else None
      | [] => None
      end
  | Seq r1 r2 => exec r1 s g (λ s1 g1, exec r2 s1 g1 k)
  | Alt r1 r2 =>
      match exec r1 s g k with
      | Some x => Some x
      | None => exec r2 s g k
      end
  | Opt r =>
      match exec r s g k with
      | Some x => Some x
      | None => k s g
      end
  | Star p => star p s (λ s', k s' g)
  | Plus p =>
      match s with
      | c :: s' => if p c then star p s' (λ s'', k s'' g) else None
      | [] => None
      end
  | LazyStar p => lazy_star p s (λ s', k s' g)
  | Group r =>
      exec r s g (λ s' _, k s' (Some (take (length s - length s') s)))
  end.

End Exec.

(** A match object: the matched text, group 1 and the text after the
    match. *)
Record Match := { group0 : pystr; group1 : option pystr; after : pystr }.

(** [pattern.match(s)]: a match at the head of [s]. *)
Definition match_ (r : regex) (s : pystr) : option Match :=
  exec r s None
    (λ s' g, Some {| group0 := take (length s - length s') s;
                     group1 := g; after := s' |}).

(** [re.search(r, s)]. *)
Fixpoint search (r : regex) (s : pystr) : option Match :=
  match match_ r s with
  | Some m => Some m
  | None =>
      match s with
      | [] => None
      | _ :: s' => search r s'
      end
  end.

(** [re.findall(r, s)] for a pattern without groups: the texts of the
    successive matches, each search resuming where the last match ended
    (one character further after an empty match). *)
Fixpoint findall_from (fuel : nat) (r : regex) (s : pystr) : list pystr :=
  match fuel with
  | O => []
  | S fuel =>
      match search r s with
      | None => []
      | Some m =>
          group0 m ::
          match group0 m, after m with
          | [], [] => []
          | [], _ :: s' => findall_from fuel r s'
          | _ :: _, s' => findall_from fuel r s'
          end
      end
  end.

Definition findall (r : regex) (s : pystr) : list pystr :=
  findall_from (S (length s)) r s.

End Re.

(** ** The [json] library

    [json.loads] with its default arguments, and [json.dumps] of a flat
    object of strings.  A number is kept as the text of its literal.  An
    object is kept as its members in source order; as a [dict] it holds,
    for a name written twice, the last value. *)

Module Json.

(** The limits of the interpreter that [json.loads] can run into.

    - [nesting_limit]: how many arrays and objects, one inside the
      other, the scanner can enter below the outermost value; entering
      one more raises [RecursionError].  This is what the recursion
      limit leaves at the call of [json.loads], which the program makes
      a fixed few frames below its entry point, so the outermost value
      is always entered.
    - [int_max_str_digits]: [sys.get_int_max_str_digits()], the longest
      integer literal that [int] converts, 0 for no limit; a longer one
      raises [ValueError].  The interpreter applies the limit to
      literals of more than 640 digits only. *)
Class Interpreter := {
  nesting_limit : nat;
  int_max_str_digits : nat
}.

Unset Elimination Schemes.
Inductive json :=
| JNull
| JBool (b : bool)
| JNumber (literal : pystr)
| JString (s : pystr)
| JArray (items : list json)
| JObject (members : list (pystr * json)).
Set Elimination Schemes.

(** [WHITESPACE.match]: a run of [ \t\n\r]. *)
Definition is_ws (c : N) : bool :=
  (c =? ord " ")%N || (c =? 0x09)%N || (c =? 0x0a)%N || (c =? 0x0d)%N.

Fixpoint skip_ws (s : pystr) : pystr :=
  match s with
  | c :: s' => if is_ws c then skip_ws s' else s
  | [] => []
  end.

(** [NUMBER_RE]: an optional minus sign, then 0 or a run of digits that
    does not start with 0; then, optionally, a point and digits; then,
    optionally, e or E, an optional sign and digits. *)
Definition digit : N → bool := in_range (ord "0") (ord "9").

Definition NUMBER_RE : Re.regex :=
  Re.Seq (Re.Opt (Re.Lit (str "-")))
  (Re.Seq (Re.Alt (Re.Lit (str "0"))
                  (Re.Seq (Re.Class (in_range (ord "1") (ord "9")))
                          (Re.Star digit)))
  (Re.Seq (Re.Opt (Re.Seq (Re.Lit (str ".")) (Re.Plus digit)))
          (Re.Opt (Re.Seq (Re.Class (Re.one_of (str "eE")))
                  (Re.Seq (Re.Opt (Re.Class (Re.one_of (str "-+"))))
                          (Re.Plus digit)))))).

(** The value of a hexadecimal digit, as the scanner reads [\uXXXX]. *)
Definition hex_value (c : N) : option N :=
  if in_range (ord "0") (ord "9") c then Some (c - ord "0")%N
  else if in_range (ord "a") (ord "f") c then Some (c - ord "a" + 10)%N
  else if in_range (ord "A") (ord "F") c then Some (c - ord "A" + 10)%N
  else None.

Definition decode_uXXXX (h1 h2 h3 h4 : N) : option N :=
  d1 ← hex_value h1; d2 ← hex_value h2;
  d3 ← hex_value h3; d4 ← hex_value h4;
  Some (((d1 * 16 + d2) * 16 + d3) * 16 + d4)%N.

(** [BACKSLASH]: the one-letter escapes. *)
Definition BACKSLASH (esc : N) : option N :=
  if (esc =? QUOTE)%N then Some (QUOTE)
  else if (esc =? ord "\")%N then Some (ord "\")
  else if (esc =? ord "/")%N then Some (ord "/")
  else if (esc =? ord "b")%N then Some 0x08%N
  else if (esc =? ord "f")%N then Some 0x0c%N
  else if (esc =? ord "n")%N then Some 0x0a%N
  else if (esc =? ord "r")%N then Some 0x0d%N
  else if (esc =? ord "t")%N then Some 0x09%N
  else None.

(** [scanstring] in strict mode, from just after the opening quote:
    the decoded string and the text after the closing quote. *)
Fixpoint scanstring (s : pystr) : option (pystr * pystr) :=
  match s with
  | [] => None                       (* Unterminated string *)
  | c :: s1 =>
      if (c =? QUOTE)%N then Some ([], s1)
      else if (c =? ord "\")%N then
        match s1 with
        | [] => None                 (* Unterminated string *)
        | esc :: s2 =>
            if (esc =? ord "u")%N then
              match s2 with
              | h1 :: h2 :: h3 :: h4 :: s3 =>
                  uni ← decode_uXXXX h1 h2 h3 h4;
                  match in_range 0xd800 0xdbff uni, s3 with
                  | true, b :: u :: s4 =>
                      if (b =? ord "\")%N && (u =? ord "u")%N then
                        match s4 with
                        | g1 :: g2 :: g3 :: g4 :: s5 =>
                            uni2 ← decode_uXXXX g1 g2 g3 g4;
                            if in_range 0xdc00 0xdfff uni2 then
                              '(chunks, rest) ← scanstring s5;
                              Some ((0x10000 +
                                      N.lor (N.shiftl (uni - 0xd800) 10)
                                            (uni2 - 0xdc00))%N :: chunks,
                                    rest)
                            else
                              '(chunks, rest) ← scanstring s3;
                              Some (uni :: chunks, rest)
                        | _ => None  (* Invalid \uXXXX escape *)
                        end
                      else
                        '(chunks, rest) ← scanstring s3;
                        Some (uni :: chunks, rest)
                  | _, _ =>
                      '(chunks, rest) ← scanstring s3;
                      Some (uni :: chunks, rest)
                  end
              | _ => None            (* Invalid \uXXXX escape *)
              end
            else
              char ← BACKSLASH esc;  (* else: Invalid \escape *)
              '(chunks, rest) ← scanstring s2;
              Some (char :: chunks, rest)
        end
      else if (c <? 0x20)%N then None (* Invalid control character *)
      else
        '(chunks, rest) ← scanstring s1;
        Some (c :: chunks, rest)
  end.

(** [None] of the string scanner is [JSONDecodeError]. *)
Definition decoded {A} (x : option A) : result A :=
  match x with
  | Some a => Return a
  | None => Raise JSONDecodeError
  end.

Section Scanner.

(** [scan_once], which the object and array parsers call back for the
    values they contain. *)
Variable scan_once : pystr → result (json * pystr).

(** The loop of [JSONObject], entered after the opening quote of a
    member name. *)
Fixpoint JSONObject_loop (fuel : nat) (s : pystr)
    : result (list (pystr * json) * pystr) :=
  match fuel with
  | O => Raise JSONDecodeError
  | S fuel =>
      '(key, s) ← decoded (scanstring s);
      match skip_ws s with
      | c :: s =>
          if (c =? ord ":")%N then
            '(value, s) ← scan_once (skip_ws s);
            match skip_ws s with
            | c :: s =>
                if (c =? ord "}")%N then Return ([(key, value)], s)
                else if (c =? ord ",")%N then
                  match skip_ws s with
                  | c :: s =>
                      if (c =? QUOTE)%N then
                        '(pairs, s) ← JSONObject_loop fuel s;
                        Return ((key, value) :: pairs, s)
                      else Raise JSONDecodeError (* Expecting property name *)
                  | [] => Raise JSONDecodeError
                  end
                else Raise JSONDecodeError   (* Expecting ',' delimiter *)
            | [] => Raise JSONDecodeError
            end
          else Raise JSONDecodeError         (* Expecting ':' delimiter *)
      | [] => Raise JSONDecodeError
      end
  end.

(** [JSONObject], from just after the opening brace. *)
Definition JSONObject (s : pystr) : result (json * pystr) :=
  match skip_ws s with
  | c :: s' =>
      if (c =? ord "}")%N then Return (JObject [], s')
      else if (c =? QUOTE)%N then
        '(pairs, rest) ← JSONObject_loop (length s') s';
        Return (JObject pairs, rest)
      else Raise JSONDecodeError             (* Expecting property name *)
  | [] => Raise JSONDecodeError
  end.

(** The loop of [JSONArray], entered at the start of an item. *)
Fixpoint JSONArray_loop (fuel : nat) (s : pystr)
    : result (list json * pystr) :=
  match fuel with
  | O => Raise JSONDecodeError
  | S fuel =>
      '(value, s) ← scan_once s;
      match skip_ws s with
      | c :: s =>
          if (c =? ord "]")%N then Return ([value], s)
          else if (c =? ord ",")%N then
            '(values, s) ← JSONArray_loop fuel (skip_ws s);
            Return (value :: values, s)
          else Raise JSONDecodeError         (* Expecting ',' delimiter *)
      | [] => Raise JSONDecodeError
      end
  end.

(** [JSONArray], from just after the opening bracket. *)
Definition JSONArray (s : pystr) : result (json * pystr) :=
  match skip_ws s with
  | c :: s' =>
      if (c =? ord "]")%N then Return (JArray [], s')
      else
        '(values, rest) ← JSONArray_loop (length s) (c :: s');
        Return (JArray values, rest)
  | [] => Raise JSONDecodeError
  end.

End Scanner.

(** A constant [word] at the head of [s]. *)
Definition constant (word : string) (v : json) (s : pystr)
    : option (result (json * pystr)) :=
  rest ← Re.starts_with (str word) s; Some (Return (v, rest)).

(** The first of two attempts that finds its value. *)
Definition or_else {A} (a b : option A) : option A :=
  match a with
  | Some _ => a
  | None => b
  end.

Section Limits.

Context `{!Interpreter}.

(** [int(literal)] refuses an integer literal with too many digits. *)
Definition is_float (literal : pystr) : bool :=
  existsb (Re.one_of (str ".eE")) literal.

Definition too_long (literal : pystr) : bool :=
  let digits := length (filter (λ c, digit c = true) literal) in
  (640 <? digits) && (0 <? int_max_str_digits)
  && (int_max_str_digits <? digits).

(** A number at the head of [s]: a literal with a fraction or an
    exponent goes to [float], any other to [int]. *)
Definition number (s : pystr) : option (result (json * pystr)) :=
  m ← Re.match_ NUMBER_RE s;
  let literal := Re.group0 m in
  Some (if negb (is_float literal) && too_long literal then Raise ValueError
        else Return (JNumber literal, Re.after m)).

(** [scan_once]; [depth] is the number of arrays and objects that can
    still be entered. *)
Fixpoint scan_once (depth : nat) (s : pystr) : result (json * pystr) :=
  match s with
  | [] => Raise JSONDecodeError
  | nextchar :: s' =>
      if (nextchar =? QUOTE)%N then
        '(text, rest) ← decoded (scanstring s'); Return (JString text, rest)
      else if (nextchar =? ord "{")%N then
        match depth with
        | O => Raise RecursionError
        | S depth => JSONObject (scan_once depth) s'
        end
      else if (nextchar =? ord "[")%N then
        match depth with
        | O => Raise RecursionError
        | S depth => JSONArray (scan_once depth) s'
        end
      else
        default (Raise JSONDecodeError) $   (* Expecting value *)
        or_else (constant "null" JNull s) $
        or_else (constant "true" (JBool true) s) $
        or_else (constant "false" (JBool false) s) $
        or_else (number s) $
        or_else (constant "NaN" (JNumber (str "NaN")) s) $
        or_else (constant "Infinity" (JNumber (str "Infinity")) s) $
        constant "-Infinity" (JNumber (str "-Infinity")) s
  end.

(** [json.loads]: the value, or [JSONDecodeError], [RecursionError] or
    [ValueError]. *)
Definition loads (s : pystr) : result json :=
  '(obj, rest) ← scan_once (S nesting_limit) (skip_ws s);
  match skip_ws rest with
  | [] => Return obj
  | _ :: _ => Raise JSONDecodeError  (* Extra data *)
  end.

End Limits.

(** [json.dumps] with its default arguments, for a string and for an
    object whose values are strings. *)
Definition hex_digit (d : N) : N :=
  if (d <? 10)%N then (ord "0" + d)%N else (ord "a" + (d - 10))%N.

Definition uXXXX (n : N) : pystr :=
  str "\u" ++ [hex_digit ((n / 4096) `mod` 16); hex_digit ((n / 256) `mod` 16);
               hex_digit ((n / 16) `mod` 16); hex_digit (n `mod` 16)]%N.

Definition escape (c : N) : pystr :=
  if (c =? ord "\")%N then str "\\"
  else if (c =? QUOTE)%N then [ord "\"; QUOTE]
  else if (c =? 0x08)%N then str "\b"
  else if (c =? 0x0c)%N then str "\f"
  else if (c =? 0x0a)%N then str "\n"
  else if (c =? 0x0d)%N then str "\r"
  else if (c =? 0x09)%N then str "\t"
  else if in_range (ord " ") (ord "~") c then [c]
  else if (c <? 0x10000)%N then uXXXX c
  else
    let n := (c - 0x10000)%N in
    let s1 := N.lor 0xd800 (N.land (N.shiftr n 10) 0x3ff) in
    let s2 := N.lor 0xdc00 (N.land n 0x3ff) in
    uXXXX s1 ++ uXXXX s2.

Definition encode_basestring_ascii (s : pystr) : pystr :=
  QUOTE :: (s ≫= escape) ++ [QUOTE].

Definition dumps_member (kv : pystr * pystr) : pystr :=
  encode_basestring_ascii kv.1 ++ str ": " ++ encode_basestring_ascii kv.2.

Fixpoint join (sep : pystr) (parts : list pystr) : pystr :=
  match parts with
  | [] => []
  | [p] => p
  | p :: ps => p ++ sep ++ join sep ps
  end.

Definition dumps (members : list (pystr * pystr)) : pystr :=
  str "{" ++ join (str ", ") (dumps_member <$> members) ++ str "}".

End Json.

(** ** The handler module: [OWASP/llm_api_handler.py] *)

Module LlmApiHandler.

Record Pricing := { input : Q; output : Q }.

Record ModelConfig := {
  max_temperature : float;
  default_temperature : float;
  supported_parameters : list string;
  tokenizer : string;
  provider : option string
}.

(** What [get_model_info] returns; an absent pricing entry stands for the
    empty [dict] the source puts in its place. *)
Record ModelInfo := {
  info_model : string;
  info_config : ModelConfig;
  info_pricing : option Pricing;
  info_supported_parameters : list string;
  info_max_temperature : float;
  info_default_temperature : float;
  info_provider : string
}.

Module Registry.

Definition MODEL_PRICING_literal : list (string * Pricing) := [
  ("gpt-5", {| input := 0.00125; output := 0.01 |});
  ("gpt-4", {| input := 0.03; output := 0.06 |});
  ("gpt-4-turbo", {| input := 0.01; output := 0.03 |});
  ("gpt-4o", {| input := 0.005; output := 0.015 |});
  ("gpt-4-turbo-preview", {| input := 0.01; output := 0.03 |});
  ("gpt-3.5-turbo", {| input := 0.001; output := 0.002 |});
  ("gpt-3.5-turbo-instruct", {| input := 0.0015; output := 0.002 |});
  ("openai/gpt-5", {| input := 0.00125; output := 0.01 |});
  ("o3", {| input := 0.015; output := 0.06 |});
  ("o3-mini", {| input := 0.003; output := 0.015 |});
  ("o3-pro", {| input := 0.015; output := 0.06 |});
  ("o1", {| input := 0.015; output := 0.06 |});
  ("o1-pro", {| input := 0.015; output := 0.06 |});
  ("o1-mini", {| input := 0.003; output := 0.015 |});
  ("o4-mini", {| input := 0.003; output := 0.015 |});
  ("deepseek/deepseek-coder", {| input := 0.00014; output := 0.00028 |});
  ("deepseek/deepseek-coder-33b-instruct", {| input := 0.00014; output := 0.00028 |});
  ("deepseek/deepseek-coder-6.7b-instruct", {| input := 0.00014; output := 0.00028 |});
  ("deepseek/deepseek-llm-67b-chat", {| input := 0.00014; output := 0.00028 |});
  ("deepseek/deepseek-llm-7b-chat", {| input := 0.00014; output := 0.00028 |});
  ("deepseek/deepseek-math-7b-instruct", {| input := 0.00014; output := 0.00028 |});
  ("deepseek/deepseek-reasoner-7b-instruct", {| input := 0.00014; output := 0.00028 |});
  ("deepseek/deepseek-reasoner-34b-instruct", {| input := 0.00014; output := 0.00028 |});
  ("deepseek/deepseek-r1", {| input := 0.00014; output := 0.00028 |});
  ("google/gemini-1.5-flash", {| input := 0.000075; output := 0.0003 |});
  ("google/gemini-1.5-pro", {| input := 0.00375; output := 0.015 |});
  ("google/gemini-2.0-flash-exp", {| input := 0.000075; output := 0.0003 |});
  ("google/gemini-2.0-pro-exp", {| input := 0.00375; output := 0.015 |});
  ("meta-llama/llama-4-maverick", {| input := 0.00015; output := 0.0006 |});
  ("qwen/qwen3-235b-a22b", {| input := 0.00013; output := 0.0006 |});
  ("mistralai/mistral-small-3.2-24b-instruct:free", {| input := 0.0; output := 0.0 |});
  ("meta-llama/llama-guard-4-12b", {| input := 0.0001; output := 0.0002 |});
  ("anthropic/claude-sonnet-4", {| input := 0.003; output := 0.015 |});
  ("anthropic/claude-opus-4", {| input := 0.015; output := 0.075 |});
  ("meta-llama/llama-4-scout:free", {| input := 0.0; output := 0.0 |});
  ("google/gemini-2.5-pro", {| input := 0.00375; output := 0.015 |});
  ("google/gemini-2.0-flash-001", {| input := 0.0001; output := 0.0004 |});
  ("google/gemini-2.5-flash", {| input := 0.0001; output := 0.0004 |});
  ("x-ai/grok-4", {| input := 0.0001; output := 0.0004 |});
  ("mistralai/codestral-2508", {| input := 0.0003; output := 0.0009 |});
  ("mistralai/mixtral-8x22b-instruct", {| input := 0.0009; output := 0.0009 |});
  ("mistralai/mixtral-8x7b-instruct", {| input := 0.0009; output := 0.0009 |});
  ("qwen/qwen3-235b-a22b", {| input := 0.00013; output := 0.0006 |});
  ("qwen/qwen3-coder", {| input := 0.0002; output := 0.0008 |});
  ("qwen/qwen-2.5-coder-32b-instruct", {| input := 0.00005; output := 0.0002 |});
  ("meta-llama/llama-3.1-70b-instruct", {| input := 0.0001; output := 0.00028 |});
  ("meta-llama/llama-4-scout", {| input := 0.0001; output := 0.00028 |});
  ("openai/gpt-oss-120b", {| input := 0.0005; output := 0.0015 |});
  ("openai/gpt-oss-20b", {| input := 0.0002; output := 0.0006 |});
  ("deepseek/deepseek-r1-distill-llama-70b", {| input := 0.000026; output := 0.000104 |});
  ("deepseek/deepseek-chat-v3.1", {| input := 0.00014; output := 0.00028 |});
  ("bigcode/starcoder2-15b-instruct", {| input := 0.00014; output := 0.00028 |})
]%Q.

Definition MODEL_CONFIGS_literal : list (string * ModelConfig) := [
  ("gpt-5",
   {| max_temperature := 2.0; default_temperature := 0.0;
      supported_parameters := ["temperature"; "max_tokens"; "top_p"; "frequency_penalty"; "presence_penalty"];
      tokenizer := "gpt-4"; provider := Some "openai" |});
  ("gpt-4",
   {| max_temperature := 2.0; default_temperature := 0.0;
      supported_parameters := ["temperature"; "max_tokens"; "top_p"; "frequency_penalty"; "presence_penalty"];
      tokenizer := "gpt-4"; provider := Some "openai" |});
  ("gpt-4-turbo",
   {| max_temperature := 2.0; default_temperature := 0.0;
      supported_parameters := ["temperature"; "max_tokens"; "top_p"; "frequency_penalty"; "presence_penalty"];
      tokenizer := "gpt-4"; provider := Some "openai" |});
  ("gpt-4o",
   {| max_temperature := 2.0; default_temperature := 0.0;
      supported_parameters := ["temperature"; "max_tokens"; "top_p"; "frequency_penalty"; "presence_penalty"];
      tokenizer := "gpt-4o"; provider := Some "openai" |});
  ("gpt-4-turbo-preview",
   {| max_temperature := 2.0; default_temperature := 0.0;
      supported_parameters := ["temperature"; "max_tokens"; "top_p"; "frequency_penalty"; "presence_penalty"];
      tokenizer := "gpt-4"; provider := Some "openai" |});
  ("gpt-3.5-turbo",
   {| max_temperature := 2.0; default_temperature := 0.0;
      supported_parameters := ["temperature"; "max_tokens"; "top_p"; "frequency_penalty"; "presence_penalty"];
      tokenizer := "gpt-3.5-turbo"; provider := Some "openai" |});
  ("gpt-3.5-turbo-instruct",
   {| max_temperature := 2.0; default_temperature := 0.0;
      supported_parameters := ["temperature"; "max_tokens"; "top_p"; "frequency_penalty"; "presence_penalty"];
      tokenizer := "gpt-3.5-turbo"; provider := Some "openai" |});
  ("openai/gpt-5",
   {| max_temperature := 2.0; default_temperature := 0.0;
      supported_parameters := ["temperature"; "max_tokens"; "top_p"; "frequency_penalty"; "presence_penalty"];
      tokenizer := "gpt-4"; provider := Some "openrouter" |});
  ("o3",
   {| max_temperature := 1.0; default_temperature := 0.0;
      supported_parameters := ["max_completion_tokens"; "top_p"; "frequency_penalty"; "presence_penalty"];
      tokenizer := "gpt-4"; provider := Some "openrouter" |});
  ("o3-mini",
   {| max_temperature := 1.0; default_temperature := 0.0;
      supported_parameters := ["max_completion_tokens"; "top_p"; "frequency_penalty"; "presence_penalty"];
      tokenizer := "gpt-4"; provider := Some "openrouter" |});
  ("o3-pro",
   {| max_temperature := 1.0; default_temperature := 0.0;
      supported_parameters := ["max_completion_tokens"; "top_p"; "frequency_penalty"; "presence_penalty"; "reasoning"];
      tokenizer := "gpt-4"; provider := Some "openai" |});
  ("o1",
   {| max_temperature := 1.0; default_temperature := 0.0;
      supported_parameters := ["max_completion_tokens"; "top_p"; "frequency_penalty"; "presence_penalty"];
      tokenizer := "gpt-4"; provider := Some "openrouter" |});
  ("o1-pro",
   {| max_temperature := 1.0; default_temperature := 0.0;
      supported_parameters := ["max_completion_tokens"; "top_p"; "frequency_penalty"; "presence_penalty"];
      tokenizer := "gpt-4"; provider := Some "openrouter" |});
  ("o1-mini",
   {| max_temperature := 1.0; default_temperature := 0.0;
      supported_parameters := ["max_completion_tokens"; "top_p"; "frequency_penalty"; "presence_penalty"];
      tokenizer := "gpt-4"; provider := Some "openrouter" |});
  ("o4-mini",
   {| max_temperature := 1.0; default_temperature := 0.0;
      supported_parameters := ["max_completion_tokens"; "top_p"; "frequency_penalty"; "presence_penalty"];
      tokenizer := "gpt-4"; provider := Some "openrouter" |});
  ("deepseek/deepseek-coder",
   {| max_temperature := 2.0; default_temperature := 0.0;
      supported_parameters := ["temperature"; "max_tokens"; "top_p"; "frequency_penalty"; "presence_penalty"];
      tokenizer := "gpt-4"; provider := Some "openrouter" |});
  ("deepseek/deepseek-coder-33b-instruct",
   {| max_temperature := 2.0; default_temperature := 0.0;
      supported_parameters := ["temperature"; "max_tokens"; "top_p"; "frequency_penalty"; "presence_penalty"];
      tokenizer := "gpt-4"; provider := Some "openrouter" |});
  ("deepseek/deepseek-coder-6.7b-instruct",
   {| max_temperature := 2.0; default_temperature := 0.0;
      supported_parameters := ["temperature"; "max_tokens"; "top_p"; "frequency_penalty"; "presence_penalty"];
      tokenizer := "gpt-4"; provider := Some "openrouter" |});
  ("deepseek/deepseek-llm-67b-chat",
   {| max_temperature := 2.0; default_temperature := 0.0;
      supported_parameters := ["temperature"; "max_tokens"; "top_p"; "frequency_penalty"; "presence_penalty"];
      tokenizer := "gpt-4"; provider := Some "openrouter" |});
  ("deepseek/deepseek-llm-7b-chat",
   {| max_temperature := 2.0; default_temperature := 0.0;
      supported_parameters := ["temperature"; "max_tokens"; "top_p"; "frequency_penalty"; "presence_penalty"];
      tokenizer := "gpt-4"; provider := Some "openrouter" |});
  ("deepseek/deepseek-math-7b-instruct",
   {| max_temperature := 2.0; default_temperature := 0.0;
      supported_parameters := ["temperature"; "max_tokens"; "top_p"; "frequency_penalty"; "presence_penalty"];
      tokenizer := "gpt-4"; provider := Some "openrouter" |});
  ("deepseek/deepseek-reasoner-7b-instruct",
   {| max_temperature := 2.0; default_temperature := 0.0;
      supported_parameters := ["temperature"; "max_tokens"; "top_p"; "frequency_penalty"; "presence_penalty"];
      tokenizer := "gpt-4"; provider := Some "openrouter" |});
  ("deepseek/deepseek-reasoner-34b-instruct",
   {| max_temperature := 2.0; default_temperature := 0.0;
      supported_parameters := ["temperature"; "max_tokens"; "top_p"; "frequency_penalty"; "presence_penalty"];
      tokenizer := "gpt-4"; provider := Some "openrouter" |});
  ("deepseek/deepseek-r1",
   {| max_temperature := 2.0; default_temperature := 0.0;
      supported_parameters := ["temperature"; "max_tokens"; "top_p"; "frequency_penalty"; "presence_penalty"];
      tokenizer := "gpt-4"; provider := Some "openrouter" |});
  ("google/gemini-1.5-flash",
   {| max_temperature := 2.0; default_temperature := 0.0;
      supported_parameters := ["temperature"; "max_tokens"; "top_p"; "frequency_penalty"; "presence_penalty"];
      tokenizer := "gpt-4"; provider := Some "openrouter" |});
  ("google/gemini-1.5-pro",
   {| max_temperature := 2.0; default_temperature := 0.0;
      supported_parameters := ["temperature"; "max_tokens"; "top_p"; "frequency_penalty"; "presence_penalty"];
      tokenizer := "gpt-4"; provider := Some "openrouter" |});
  ("google/gemini-2.0-flash-exp",
   {| max_temperature := 2.0; default_temperature := 0.0;
      supported_parameters := ["temperature"; "max_tokens"; "top_p"; "frequency_penalty"; "presence_penalty"];
      tokenizer := "gpt-4"; provider := Some "openrouter" |});
  ("google/gemini-2.0-pro-exp",
   {| max_temperature := 2.0; default_temperature := 0.0;
      supported_parameters := ["temperature"; "max_tokens"; "top_p"; "frequency_penalty"; "presence_penalty"];
      tokenizer := "gpt-4"; provider := Some "openrouter" |});
  ("meta-llama/llama-4-maverick",
   {| max_temperature := 2.0; default_temperature := 0.0;
      supported_parameters := ["temperature"; "max_tokens"; "top_p"; "frequency_penalty"; "presence_penalty"];
      tokenizer := "gpt-4"; provider := Some "openrouter" |});
  ("qwen/qwen3-235b-a22b",
   {| max_temperature := 2.0; default_temperature := 0.0;
      supported_parameters := ["temperature"; "max_tokens"; "top_p"; "frequency_penalty"; "presence_penalty"];
      tokenizer := "gpt-4"; provider := Some "openrouter" |});
  ("mistralai/mistral-small-3.2-24b-instruct:free",
   {| max_temperature := 2.0; default_temperature := 0.0;
      supported_parameters := ["temperature"; "max_tokens"; "top_p"; "frequency_penalty"; "presence_penalty"];
      tokenizer := "gpt-4"; provider := Some "openrouter" |});
  ("meta-llama/llama-guard-4-12b",
   {| max_temperature := 2.0; default_temperature := 0.0;
      supported_parameters := ["temperature"; "max_tokens"; "top_p"; "frequency_penalty"; "presence_penalty"];
      tokenizer := "gpt-4"; provider := Some "openrouter" |});
  ("anthropic/claude-sonnet-4",
   {| max_temperature := 2.0; default_temperature := 0.0;
      supported_parameters := ["temperature"; "max_tokens"; "top_p"; "frequency_penalty"; "presence_penalty"];
      tokenizer := "gpt-4"; provider := Some "openrouter" |});
  ("anthropic/claude-opus-4",
   {| max_temperature := 2.0; default_temperature := 0.0;
      supported_parameters := ["temperature"; "max_tokens"; "top_p"; "frequency_penalty"; "presence_penalty"];
      tokenizer := "gpt-4"; provider := Some "openrouter" |});
  ("meta-llama/llama-4-scout:free",
   {| max_temperature := 2.0; default_temperature := 0.0;
      supported_parameters := ["temperature"; "max_tokens"; "top_p"; "frequency_penalty"; "presence_penalty"];
      tokenizer := "gpt-4"; provider := Some "openrouter" |});
  ("google/gemini-2.5-pro",
   {| max_temperature := 2.0; default_temperature := 0.0;
      supported_parameters := ["temperature"; "max_tokens"; "top_p"; "frequency_penalty"; "presence_penalty"];
      tokenizer := "gpt-4"; provider := Some "openrouter" |});
  ("google/gemini-2.0-flash-001",
   {| max_temperature := 2.0; default_temperature := 0.0;
      supported_parameters := ["temperature"; "max_tokens"; "top_p"; "frequency_penalty"; "presence_penalty"];
      tokenizer := "gpt-4"; provider := Some "openrouter" |});
  ("google/gemini-2.5-flash",
   {| max_temperature := 2.0; default_temperature := 0.0;
      supported_parameters := ["temperature"; "max_tokens"; "top_p"; "frequency_penalty"; "presence_penalty"];
      tokenizer := "gpt-4"; provider := Some "openrouter" |});
  ("x-ai/grok-4",
   {| max_temperature := 2.0; default_temperature := 0.0;
      supported_parameters := ["temperature"; "max_tokens"; "top_p"; "frequency_penalty"; "presence_penalty"];
      tokenizer := "gpt-4"; provider := Some "openrouter" |});
  ("mistralai/codestral-2508",
   {| max_temperature := 2.0; default_temperature := 0.0;
      supported_parameters := ["temperature"; "max_tokens"; "top_p"; "frequency_penalty"; "presence_penalty"];
      tokenizer := "gpt-4"; provider := Some "openrouter" |});
  ("mistralai/mixtral-8x22b-instruct",
   {| max_temperature := 2.0; default_temperature := 0.0;
      supported_parameters := ["temperature"; "max_tokens"; "top_p"; "frequency_penalty"; "presence_penalty"];
      tokenizer := "gpt-4"; provider := Some "openrouter" |});
  ("mistralai/mixtral-8x7b-instruct",
   {| max_temperature := 2.0; default_temperature := 0.0;
      supported_parameters := ["temperature"; "max_tokens"; "top_p"; "frequency_penalty"; "presence_penalty"];
      tokenizer := "gpt-4"; provider := Some "openrouter" |});
  ("qwen/qwen3-235b-a22b",
   {| max_temperature := 2.0; default_temperature := 0.0;
      supported_parameters := ["temperature"; "max_tokens"; "top_p"; "frequency_penalty"; "presence_penalty"];
      tokenizer := "gpt-4"; provider := Some "openrouter" |});
  ("qwen/qwen3-coder",
   {| max_temperature := 2.0; default_temperature := 0.0;
      supported_parameters := ["temperature"; "max_tokens"; "top_p"; "frequency_penalty"; "presence_penalty"];
      tokenizer := "gpt-4"; provider := Some "openrouter" |});
  ("qwen/qwen-2.5-coder-32b-instruct",
   {| max_temperature := 2.0; default_temperature := 0.0;
      supported_parameters := ["temperature"; "max_tokens"; "top_p"; "frequency_penalty"; "presence_penalty"];
      tokenizer := "gpt-4"; provider := Some "openrouter" |});
  ("meta-llama/llama-3.1-70b-instruct",
   {| max_temperature := 2.0; default_temperature := 0.0;
      supported_parameters := ["temperature"; "max_tokens"; "top_p"; "frequency_penalty"; "presence_penalty"];
      tokenizer := "gpt-4"; provider := Some "openrouter" |});
  ("meta-llama/llama-4-scout",
   {| max_temperature := 2.0; default_temperature := 0.0;
      supported_parameters := ["temperature"; "max_tokens"; "top_p"; "frequency_penalty"; "presence_penalty"];
      tokenizer := "gpt-4"; provider := Some "openrouter" |});
  ("deepseek/deepseek-r1-distill-llama-70b",
   {| max_temperature := 2.0; default_temperature := 0.0;
      supported_parameters := ["temperature"; "max_tokens"; "top_p"; "frequency_penalty"; "presence_penalty"];
      tokenizer := "gpt-4"; provider := Some "openrouter" |});
  ("deepseek/deepseek-chat-v3.1",
   {| max_temperature := 2.0; default_temperature := 0.0;
      supported_parameters := ["temperature"; "max_tokens"; "top_p"; "frequency_penalty"; "presence_penalty"];
      tokenizer := "gpt-4"; provider := Some "openrouter" |});
  ("bigcode/starcoder2-15b-instruct",
   {| max_temperature := 2.0; default_temperature := 0.0;
      supported_parameters := ["temperature"; "max_tokens"; "top_p"; "frequency_penalty"; "presence_penalty"];
      tokenizer := "gpt-4"; provider := Some "openrouter" |});
  ("openai/gpt-oss-120b",
   {| max_temperature := 2.0; default_temperature := 0.0;
      supported_parameters := ["temperature"; "max_tokens"; "top_p"; "frequency_penalty"; "presence_penalty"];
      tokenizer := "gpt-4"; provider := Some "openrouter" |});
  ("openai/gpt-oss-20b",
   {| max_temperature := 2.0; default_temperature := 0.0;
      supported_parameters := ["temperature"; "max_tokens"; "top_p"; "frequency_penalty"; "presence_penalty"];
      tokenizer := "gpt-4"; provider := Some "openrouter" |})
].

Definition MODEL_PRICING : gmap string Pricing := dict_literal MODEL_PRICING_literal.
Definition MODEL_CONFIGS : gmap string ModelConfig := dict_literal MODEL_CONFIGS_literal.

End Registry.

(** The functions read the two module-level tables; the tables are
    parameters here, so that a property can be stated for the tables of
    the source ([Registry.MODEL_CONFIGS], [Registry.MODEL_PRICING]) or for
    any other content. *)
Section Functions.

Variable MODEL_PRICING : gmap string Pricing.
Variable MODEL_CONFIGS : gmap string ModelConfig.

Definition get_model_config (model : string) : py ModelConfig :=
  match MODEL_CONFIGS !! model with
  | None => raise (UnknownModel model)
  | Some config => mret config
  end.

Definition is_openai_model (model : string) : py bool :=
  (* Special case: o3-pro uses OpenAI API but has special handling *)
  if bool_decide (model = "o3-pro") then mret true
  else
    config ← get_model_config model;
    mret (bool_decide (default "openai" (provider config) = "openai")).

(** The loop [for param, value in kwargs.items()] that closes
    [validate_model_parameters].  The items of a [gmap] come in an order
    of its own, so the order of the warnings is not that of Python. *)
Definition parameter_loop (model : string) (supported_params : list string)
    (validated_params : gmap string value) (kwargs : gmap string value)
    : py (gmap string value) :=
  map_fold
    (λ param value acc,
       validated_params ← acc;
       if bool_decide (param = "max_tokens")
          && bool_decide ("max_completion_tokens" ∈ supported_params)
       then mret validated_params (* already mapped *)
       else if bool_decide (param ∈ supported_params)
       then mret (<[param := value]> validated_params)
       else
         print (WarnUnsupportedParameter param model supported_params);;
         mret validated_params)
    (mret validated_params) kwargs.

Definition validate_model_parameters (model : string)
    (kwargs : gmap string value) : py (gmap string value) :=
  config ← get_model_config model;
  let validated_params : gmap string value := ∅ in
  (* Only add temperature if supported *)
  validated_params ←
    (if bool_decide ("temperature" ∈ supported_parameters config) then
       match kwargs !! "temperature" with
       | Some temp =>
           let max_temp := max_temperature config in
           in_range ← value_between (VNum 0) temp (VNum max_temp);
           if negb in_range then raise (InvalidParameter model max_temp temp)
           else mret (<["temperature" := temp]> validated_params)
       | None =>
           mret (<["temperature" := VNum (default_temperature config)]>
                   validated_params)
       end
     else mret validated_params);
  (* Map max_tokens to max_completion_tokens for models that require it *)
  let validated_params :=
    match kwargs !! "max_tokens" with
    | Some max_tokens =>
        if bool_decide ("max_completion_tokens" ∈ supported_parameters config)
        then <["max_completion_tokens" := max_tokens]> validated_params
        else <["max_tokens" := max_tokens]> validated_params
    | None => validated_params
    end in
  (* Validate other parameters *)
  let supported_params := supported_parameters config in
  parameter_loop model supported_params validated_params kwargs.

(** [tiktoken] is an external library: which encodings it knows and how
    they split a text is left open.  Both of its calls can raise. *)
Variable encoding : Type.
Variable encoding_for_model : string → py encoding.
Variable encode : encoding → pystr → py (list Z).

Definition count_tokens (text : pystr) (model : string) : py Z :=
  try_except
    (config ← get_model_config model;
     let tokenizer_name := tokenizer config in
     encoding ← encoding_for_model tokenizer_name;
     tokens ← encode encoding text;
     mret (Z.of_nat (length tokens)))
    (λ e,
       print (WarnTokenizerFallback model e);;
       try_except
         ((* Fallback to GPT-4 tokenizer *)
          encoding ← encoding_for_model "gpt-4";
          tokens ← encode encoding text;
          mret (Z.of_nat (length tokens)))
         (λ fallback_error,
            print (ErrorGpt4Tokenizer fallback_error);;
            (* Final fallback: rough estimation *)
            let estimated_tokens := (Z.of_nat (length text) `div` 4)%Z in
            print (RoughEstimation estimated_tokens);;
            mret estimated_tokens)).

Variable A : arithmetic.

(** [MODEL_PRICING[model][field]]. *)
Definition price (model : string) (field : Pricing → Q) : py (num A) :=
  match MODEL_PRICING !! model with
  | Some p => mret (of_literal A (field p))
  | None => raise (KeyError model)
  end.

Definition calculate_cost (input_tokens output_tokens : Z) (model : string)
    : py (num A) :=
  model ←
    (if bool_decide (model ∉ dom MODEL_PRICING) then
       print (WarnNoPricing model);;
       mret "gpt-4" (* Fallback to GPT-4 pricing *)
     else mret model);
  input_price ← price model input;
  let input_cost :=
    mul A (div A (of_int A input_tokens) (of_int A 1000)) input_price in
  output_price ← price model output;
  let output_cost :=
    mul A (div A (of_int A output_tokens) (of_int A 1000)) output_price in
  mret (add A input_cost output_cost).

(** The three senders perform the remote call; only the choice among
    them is of interest here. *)
Definition sender : Type :=
  pystr → string → option value → bool → gmap string value → py pystr.

Variables send_to_o3_pro send_to_openai send_to_openrouter : sender.

Definition send_to_llm : sender :=
  λ prompt model temperature enable_token_counting kwargs,
  (* Special handling for o3-pro model *)
  if bool_decide (model = "o3-pro") then
    send_to_o3_pro prompt model temperature enable_token_counting kwargs
  else
    (* Route to appropriate provider based on model *)
    openai ← is_openai_model model;
    if openai : bool then
      send_to_openai prompt model temperature enable_token_counting kwargs
    else
      send_to_openrouter prompt model temperature enable_token_counting kwargs.

Definition list_supported_models : gmap string ModelConfig := MODEL_CONFIGS.

(** The [ValueError] of [get_model_info] has the message of
    [get_model_config] without its list of supported models; it is the
    same constructor here.  The entries of the table are records, so of
    the subscripts only [config["provider"]] can fail. *)
Definition get_model_info (model : string) : py ModelInfo :=
  match MODEL_CONFIGS !! model with
  | None => raise (UnknownModel model)
  | Some config =>
      let pricing := MODEL_PRICING !! model in
      match provider config with
      | Some p =>
          mret {| info_model := model;
                  info_config := config;
                  info_pricing := pricing;
                  info_supported_parameters := supported_parameters config;
                  info_max_temperature := max_temperature config;
                  info_default_temperature := default_temperature config;
                  info_provider := p |}
      | None => raise (KeyError "provider")
      end
  end.

End Functions.

End LlmApiHandler.

(** ** The prompt generator: [OpenVuln/generate_prompts_with_openrouter.py] *)

Module OpenRouter.
Import Json.

(** The attributes of [self] that [_call_openrouter_api] reads. *)
Record OpenRouterPromptGenerator := {
  api_key : option pystr;
  model : pystr;
  base_url : pystr
}.

(** [x or y] on an optional text: [None] and the empty text are false. *)
Definition truthy (x : option pystr) : bool :=
  match x with
  | Some (_ :: _) => true
  | _ => false
  end.

Definition or_ (x : option pystr) (y : pystr) : pystr :=
  match x with
  | Some (c :: s) => c :: s
  | _ => y
  end.

(** What [requests.post] is called with, and what it answers.  The body
    of the answer is seen through [response.json()], which returns the
    parsed body or raises. *)
Record request := {
  url : pystr;
  authorization : pystr;
  data_model : pystr;
  data_prompt : pystr;
  timeout : Z
}.

Record response := { ok : bool; json_ : py json }.

(** A Python object as the function handles it: the result of
    [json.loads] is a [dict] exactly when the text was an object. *)
Abbreviation dict := (gmap pystr json).

(** [obj[key]] and [obj[0]] on a parsed value. *)
Definition getitem (obj : json) (key : string) : py json :=
  match obj with
  | JObject members =>
      match dict_literal members !! str key with
      | Some v => mret v
      | None => raise (KeyError key)
      end
  | _ => raise TypeError
  end.

Definition getitem0 (obj : json) : py json :=
  match obj with
  | JArray (v :: _) => mret v
  | JArray [] => raise IndexError
  | JString (c :: _) => mret (JString [c])
  | JString [] => raise IndexError
  | JObject _ => raise (KeyError "0")
  | _ => raise TypeError
  end.

(** [json.loads(content)] as a computation. *)
Definition json_loads `{!Interpreter} (content : pystr) : py json :=
  match loads content with
  | Return v => mret v
  | Raise e => raise e
  end.

(** [parsed_response.update({"model_used": model})]: only a [dict] has
    the method. *)
Definition update_model_used (parsed_response : json) (model : pystr)
    : py dict :=
  match parsed_response with
  | JObject members =>
      mret (<[str "model_used" := JString model]> (dict_literal members))
  | _ => raise AttributeError
  end.

Definition required_fields : list pystr :=
  [str "False Positive"; str "Sanitization Found?"; str "Attack Feasible?";
   str "Confidence"].

(** [all(field in parsed_response for field in required_fields)].  The
    operand comes from a text that starts with a brace, so it is a
    [dict]; on anything else the test is left to raise. *)
Definition has_required_fields (parsed_response : json) : py bool :=
  match parsed_response with
  | JObject members =>
      mret (forallb (λ field, bool_decide (is_Some (dict_literal members !! field)))
                    required_fields)
  | _ => raise TypeError
  end.

(** The four patterns. *)

(** Three backticks, an optional [json], white space, then in group 1 a
    brace, the shortest run of any characters and a brace, then white
    space and three backticks; with DOTALL. *)
Definition fenced_block : Re.regex :=
  Re.Seq (Re.Lit (str "```"))
  (Re.Seq (Re.Opt (Re.Lit (str "json")))
  (Re.Seq (Re.Star isspace)
  (Re.Seq (Re.Group (Re.Seq (Re.Lit (str "{"))
                    (Re.Seq (Re.LazyStar Re.any) (Re.Lit (str "}")))))
  (Re.Seq (Re.Star isspace) (Re.Lit (str "```")))))).

(** A brace, characters other than braces, the quoted name
    [False Positive], characters other than braces, a brace. *)
Definition json_pattern : Re.regex :=
  Re.Seq (Re.Lit (str "{"))
  (Re.Seq (Re.Star (Re.none_of (str "{}")))
  (Re.Seq (Re.Lit (quoted (str "False Positive")))
  (Re.Seq (Re.Star (Re.none_of (str "{}"))) (Re.Lit (str "}"))))).

(** The quoted field name, white space, a colon, white space, and in
    group 1 a non-empty quoted run of characters other than a quote. *)
Definition field_pattern (name : string) : Re.regex :=
  Re.Seq (Re.Lit (quoted (str name)))
  (Re.Seq (Re.Star isspace)
  (Re.Seq (Re.Lit (str ":"))
  (Re.Seq (Re.Star isspace)
  (Re.Seq (Re.Lit [QUOTE])
  (Re.Seq (Re.Group (Re.Plus (Re.none_of [QUOTE]))) (Re.Lit [QUOTE])))))).

(** [m.group(1)] of an optional match. *)
Definition group_1 (m : option Re.Match) : option pystr :=
  m ≫= Re.group1.

Definition is_JSONDecodeError (e : exn) : bool :=
  match e with JSONDecodeError => true | _ => false end.

Definition is_JSONDecodeError_or_AttributeError (e : exn) : bool :=
  match e with JSONDecodeError | AttributeError => true | _ => false end.

Definition is_RequestException (e : exn) : bool :=
  match e with RequestException => true | _ => false end.

(** The stages of the cascade.  Each yields [Some] verdict when the
    source returns from it and [None] when control falls through to the
    next stage. *)

(** First stage: parse the content directly. *)
Definition direct_parse `{!Interpreter} (content model : pystr) : py dict :=
  parsed_response ← json_loads content;
  update_model_used parsed_response model.

(** Second stage: JSON inside a fenced code block. *)
Definition fenced_block_parse `{!Interpreter} (content model : pystr) : py (option dict) :=
  try_except_on is_JSONDecodeError_or_AttributeError
    (let json_match := Re.search fenced_block content in
     match group_1 json_match with
     | Some json_content =>
         parsed_response ← json_loads json_content;
         parsed_response ← update_model_used parsed_response model;
         mret (Some parsed_response)
     | None => mret None
     end)
    (λ _, mret None).

(** Third stage: the loop over the brace-delimited candidates. *)
Fixpoint loose_object_loop `{!Interpreter} (json_matches : list pystr)
    (model : pystr)
    : py (option dict) :=
  match json_matches with
  | [] => mret None
  | json_str :: json_matches =>
      found ←
        try_except_on is_JSONDecodeError
          ((* Clean up the JSON string *)
           let json_str := strip json_str in
           parsed_response ← json_loads json_str;
           (* Validate that we have the required fields *)
           complete ← has_required_fields parsed_response;
           if complete : bool then
             parsed_response ← update_model_used parsed_response model;
             mret (Some parsed_response)
           else mret None)
          (λ _, mret None);
      match found with
      | Some parsed_response => mret (Some parsed_response)
      | None => loose_object_loop json_matches model
      end
  end.

Definition loose_object_scan `{!Interpreter} (content model : pystr) : py (option dict) :=
  try_except
    (let json_matches := Re.findall json_pattern content in
     loose_object_loop json_matches model)
    (λ _, mret None).

(** Fourth stage: the four fields, one pattern each. *)
Definition field_recovery (content model : pystr) : py (option dict) :=
  try_except
    (let false_positive_match := Re.search (field_pattern "False Positive") content in
     let sanitization_match := Re.search (field_pattern "Sanitization Found?") content in
     let attack_feasible_match := Re.search (field_pattern "Attack Feasible?") content in
     let confidence_match := Re.search (field_pattern "Confidence") content in
     match group_1 false_positive_match, group_1 sanitization_match,
           group_1 attack_feasible_match, group_1 confidence_match with
     | Some fp, Some sf, Some af, Some cf =>
         mret (Some (dict_literal
           [(str "False Positive", JString fp);
            (str "Sanitization Found?", JString sf);
            (str "Attack Feasible?", JString af);
            (str "Confidence", JString cf);
            (str "model_used", JString model)]))
     | _, _, _, _ => mret None
     end)
    (λ _, mret None).

(** The verdict in which every field is the sentinel. *)
Definition error_verdict (model : pystr) : dict :=
  dict_literal
    [(str "False Positive", JString (str "ERROR"));
     (str "Sanitization Found?", JString (str "ERROR"));
     (str "Attack Feasible?", JString (str "ERROR"));
     (str "Confidence", JString (str "ERROR"));
     (str "model_used", JString model)].

(** Lines 188 to 266: from the content of the answer to the verdict. *)
Definition parse_content `{!Interpreter} (content model : pystr) : py dict :=
  try_except_on is_JSONDecodeError
    ((* First, try to parse the content directly *)
     direct_parse content model)
    (λ _,
       (* If direct parsing fails, try markdown code blocks *)
       fenced ← fenced_block_parse content model;
       match fenced with
       | Some parsed_response => mret parsed_response
       | None =>
           (* Try to extract JSON even if it's not properly formatted *)
           loose ← loose_object_scan content model;
           match loose with
           | Some parsed_response => mret parsed_response
           | None =>
               (* Try to extract individual fields using regex *)
               fields ← field_recovery content model;
               match fields with
               | Some parsed_response => mret parsed_response
               | None =>
                   (* Wrap in a structured response *)
                   mret (error_verdict model)
               end
           end
       end).

Section Api.

Context `{!Interpreter}.

(** The remote endpoint. *)
Variable requests_post : request → py response.

Definition _generate_fallback_response (self : OpenRouterPromptGenerator)
    : dict :=
  error_verdict (model self).

Definition _call_openrouter_api (self : OpenRouterPromptGenerator)
    (prompt : pystr) (model : option pystr) : py dict :=
  if negb (truthy (api_key self)) then
    mret (_generate_fallback_response self)
  else
    let model := or_ model (OpenRouter.model self) in
    let data :=
      {| url := base_url self ++ str "/chat/completions";
         authorization := str "Bearer " ++ default [] (api_key self);
         data_model := model; data_prompt := prompt; timeout := 60 |} in
    try_except
      (response ← requests_post data;
       (* Check for HTTP errors *)
       if negb (ok response) then
         mret (_generate_fallback_response self)
       else
         result ← json_ response;
         choices ← getitem result "choices";
         choice ← getitem0 choices;
         message ← getitem choice "message";
         content ← getitem message "content";
         (* Try to parse as JSON *)
         match content with
         | JString content => parse_content content model
         | _ => raise TypeError
         end)
      (λ e, mret (_generate_fallback_response self)).

End Api.

(** *** The model list *)

(** [_get_default_models]: the list of popular models. *)
Definition default_model (id name prompt completion : string) : json :=
  JObject
    [(str "id", JString (str id));
     (str "name", JString (str name));
     (str "pricing",
      JObject [(str "prompt", JString (str prompt));
               (str "completion", JString (str completion))])].

Definition _get_default_models : json :=
  JArray
    [default_model "openai/gpt-4o-mini" "GPT-4o Mini" "0.00015" "0.0006";
     default_model "openai/gpt-4o" "GPT-4o" "0.005" "0.015";
     default_model "anthropic/claude-3-5-sonnet" "Claude 3.5 Sonnet"
       "0.003" "0.015";
     default_model "google/gemini-pro-1.5" "Gemini Pro 1.5" "0.00125" "0.005";
     default_model "meta-llama/llama-3.1-8b-instruct" "Llama 3.1 8B"
       "0.0002" "0.0002";
     default_model "mistralai/mistral-7b-instruct" "Mistral 7B"
       "0.0002" "0.0002"].

(** What [requests.get] is called with. *)
Record get_request := {
  get_url : pystr;
  get_authorization : pystr;
  get_timeout : Z
}.

(** [response.raise_for_status()]: [response.ok] is false exactly when
    it raises, and what it raises is a [RequestException]. *)
Definition raise_for_status (response : response) : py unit :=
  if ok response then mret tt else raise RequestException.

(** [obj.get(key, default)]: only a [dict] has the method. *)
Definition get (obj : json) (key : string) (default_ : json) : py json :=
  match obj with
  | JObject members => mret (default default_ (dict_literal members !! str key))
  | _ => raise AttributeError
  end.

Section Models.

Variable requests_get : get_request → py response.

(** Lines 67 to 91. *)
Definition _get_available_models (self : OpenRouterPromptGenerator)
    : py json :=
  if negb (truthy (api_key self)) then mret _get_default_models
  else
    try_except
      (let headers_authorization :=
         str "Bearer " ++ default [] (api_key self) in
       response ←
         requests_get {| get_url := base_url self ++ str "/models";
                         get_authorization := headers_authorization;
                         get_timeout := 10 |};
       raise_for_status response;;
       models_data ← json_ response;
       get models_data "data" (JArray []))
      (λ e, mret _get_default_models).

End Models.

(** *** Prompts *)

(** [s.replace(old, new)]: the occurrences of [old] are found from left
    to right and do not overlap; [skip] counts the characters of an
    occurrence that are still to be passed over.  An empty [old] matches
    before every character and at the end. *)
Fixpoint replace_from (skip : nat) (s old new : pystr) : pystr :=
  match s with
  | [] => []
  | c :: s' =>
      match skip with
      | S skip => replace_from skip s' old new
      | O =>
          match Re.starts_with old s with
          | Some _ => new ++ replace_from (length old - 1) s' old new
          | None => c :: replace_from 0 s' old new
          end
      end
  end.

Definition replace (s old new : pystr) : pystr :=
  match old with
  | [] => new ++ (s ≫= λ c, c :: new)
  | _ :: _ => replace_from 0 s old new
  end.

(** Line 133. *)
Definition _generate_prompt (template code_context : pystr) : pystr :=
  replace template (str "{code_context}") code_context.

(** *** The run over the projects *)

(** A row of [Projects_info.csv], by the three columns that are read. *)
Record ProjectRow := {
  project_slug : pystr;
  cve_id : pystr;
  cwe_id : pystr
}.

(** [df.head(n)]: the first [n] rows, and for a negative [n] all rows but
    the last [-n]. *)
Definition head {A} (df : list A) (n : Z) : list A :=
  if (0 <=? n)%Z then take (Z.to_nat n) df
  else take (length df - Z.to_nat (- n)) df.

(** [d.update(items)]. *)
Definition update (d : dict) (items : list (pystr * json)) : dict :=
  foldl (λ d kv, <[kv.1 := kv.2]> d) d items.

Section Projects.

Context `{!Interpreter}.

(** The endpoint, the file system and the clock.  A [Path] is known by
    its text and its stem.  The file system is read through
    [os.path.exists], [Path.exists], [Path.glob] and [open(...).read()],
    and written through [mkdir]; the clock is read once for each result,
    [timestamp n] being the reading taken when [n] results are
    collected. *)
Variable requests_post : request → py response.
Variable Path : Type.
Variable path_str : Path → pystr.
Variable stem : Path → pystr.
Variable os_path_exists : pystr → bool.
Variable open_read : pystr → py pystr.
Variable path_exists : Path → bool.
Variable glob_txt : Path → py (list Path).
Variable mkdir : Path → py unit.
Variable timestamp : nat → pystr.
Variable sleep : float → py unit.

(** The attributes of [self] that the run reads besides. *)
Variable projects_df : list ProjectRow.
Variable available_cwe_templates : gmap pystr pystr.
Variable code_contexts_path : pystr → Path.  (* code_contexts_path / slug *)
Variable output_path : Path.
Variable output_path_of : pystr → Path.      (* output_path / slug *)

(** Lines 104 to 110. *)
Definition _get_cwe_template (cwe_id : pystr) : py (option pystr) :=
  let template_path := available_cwe_templates !! cwe_id in
  if truthy template_path && os_path_exists (default [] template_path) then
    content ← open_read (default [] template_path);
    mret (Some content)
  else mret None.

(** Lines 112 to 122. *)
Definition _get_code_context_files (project_slug : pystr)
    : py (list Path) :=
  let project_dir := code_contexts_path project_slug in
  if negb (path_exists project_dir) then mret []
  else
    (* Get all .txt files in the project directory *)
    glob_txt project_dir.

(** Lines 124 to 131. *)
Definition _read_code_context (context_file : Path) : py pystr :=
  try_except (open_read (path_str context_file)) (λ e, mret []).

(** Lines 287 to 291. *)
Definition _create_project_directory (project_slug : pystr) : py Path :=
  let project_dir := output_path_of project_slug in
  mkdir project_dir;;
  mret project_dir.

(** The loop over the context files of a project, lines 347 to 380. *)
Fixpoint context_loop (self : OpenRouterPromptGenerator)
    (context_files : list Path) (template : pystr)
    (project_row : ProjectRow) (model_to_use : pystr)
    (delay_between_calls : float) (all_results : list dict)
    : py (list dict) :=
  match context_files with
  | [] => mret all_results
  | context_file :: context_files =>
      let alert_name := stem context_file in
      (* Read code context *)
      code_context ← _read_code_context context_file;
      match code_context with
      | [] =>
          context_loop self context_files template project_row model_to_use
            delay_between_calls all_results
      | _ :: _ =>
          (* Generate prompt *)
          let prompt := _generate_prompt template code_context in
          (* Get OpenRouter AI response *)
          response ←
            _call_openrouter_api requests_post self prompt (Some model_to_use);
          (* Add metadata *)
          let response :=
            update response
              [(str "project_slug", JString (project_slug project_row));
               (str "CVE", JString (cve_id project_row));
               (str "CWE", JString (cwe_id project_row));
               (str "alert_name", JString alert_name);
               (str "context_file", JString (path_str context_file));
               (str "ai_provider", JString (str "openrouter"));
               (str "timestamp", JString (timestamp (length all_results)))] in
          (* Add to results for CSV *)
          let all_results := all_results ++ [response] in
          (* Add delay to avoid rate limiting *)
          (if (0 <? delay_between_calls)%float then sleep delay_between_calls
           else mret tt);;
          context_loop self context_files template project_row model_to_use
            delay_between_calls all_results
      end
  end.

(** The loop over the projects, lines 324 to 380. *)
Fixpoint project_loop (self : OpenRouterPromptGenerator)
    (projects_to_process : list ProjectRow) (model_to_use : pystr)
    (delay_between_calls : float) (all_results : list dict)
    : py (list dict) :=
  match projects_to_process with
  | [] => mret all_results
  | project_row :: projects_to_process =>
      (* Get CWE template *)
      template ← _get_cwe_template (cwe_id project_row);
      match template with
      | None | Some [] =>
          project_loop self projects_to_process model_to_use
            delay_between_calls all_results
      | Some (c :: template') =>
          let template := c :: template' in
          (* Get code context files *)
          context_files ← _get_code_context_files (project_slug project_row);
          match context_files with
          | [] =>
              project_loop self projects_to_process model_to_use
                delay_between_calls all_results
          | _ :: _ =>
              (* Create project directory *)
              project_dir ←
                _create_project_directory (project_slug project_row);
              (* Process each context file *)
              all_results ←
                context_loop self context_files template project_row
                  model_to_use delay_between_calls all_results;
              project_loop self projects_to_process model_to_use
                delay_between_calls all_results
          end
      end
  end.

(** Lines 310 to 382. *)
Definition process_projects_with_openrouter
    (self : OpenRouterPromptGenerator) (max_projects : option Z)
    (delay_between_calls : float) (model : option pystr) : py (list dict) :=
  let all_results : list dict := [] in
  (* Create output directory *)
  mkdir output_path;;
  let projects_to_process :=
    match max_projects with
    | Some n => if (n =? 0)%Z then projects_df else head projects_df n
    | None => projects_df
    end in
  let model_to_use := or_ model (OpenRouter.model self) in
  project_loop self projects_to_process model_to_use delay_between_calls
    all_results.

End Projects.

End OpenRouter.

(** * Vocabulary of the properties *)

Module Vocabulary.
Import Json LlmApiHandler OpenRouter.

(** [0 <= t <= max_temp], as Python compares two floats. *)
Definition temperature_in_range (max_temp t : float) : Prop :=
  ((0 <=? t) && (t <=? max_temp))%float = true.

(** A parameter is copied by the loop when it is supported and is not a
    [max_tokens] that was already renamed. *)
Definition copied (supported_params : list string) (param : string) : bool :=
  negb (bool_decide (param = "max_tokens")
        && bool_decide ("max_completion_tokens" ∈ supported_params))
  && bool_decide (param ∈ supported_params).

(** A parameter is reported when it is not supported and is not a
    [max_tokens] that was already renamed. *)
Definition reported (supported_params : list string) (param : string) : bool :=
  negb (bool_decide (param = "max_tokens")
        && bool_decide ("max_completion_tokens" ∈ supported_params))
  && negb (bool_decide (param ∈ supported_params)).


(** An interpreter with its default limits: a recursion limit of 1000
    and integer literals of up to 4300 digits. *)
Definition cpython : Interpreter :=
  {| nesting_limit := 1000; int_max_str_digits := 4300 |}.

(** The body of an answer whose first choice has the given content, and
    an endpoint that gives this answer to every request. *)
Definition chat_completion (content : pystr) : json :=
  JObject
    [(str "choices",
      JArray
        [JObject
           [(str "message", JObject [(str "content", JString content)])]])].

Definition answers (body : py json) : request → py response :=
  λ _, mret {| ok := true; json_ := body |}.

(** A verdict: the four required fields and [model_used]. *)
Record Verdict := {
  false_positive : pystr;
  sanitization_found : pystr;
  attack_feasible : pystr;
  confidence : pystr;
  model_used : pystr
}.

Definition required_members (v : Verdict) : list (pystr * pystr) :=
  [(str "False Positive", false_positive v);
   (str "Sanitization Found?", sanitization_found v);
   (str "Attack Feasible?", attack_feasible v);
   (str "Confidence", confidence v)].

Definition members (v : Verdict) : list (pystr * pystr) :=
  required_members v ++ [(str "model_used", model_used v)].

(** The verdict as the [dict] the function returns. *)
Definition as_dict (v : Verdict) : dict :=
  dict_literal (prod_map id JString <$> members v).

(** The verdict with [model_used] replaced. *)
Definition overlay (v : Verdict) (model : pystr) : Verdict :=
  {| false_positive := false_positive v;
     sanitization_found := sanitization_found v;
     attack_feasible := attack_feasible v;
     confidence := confidence v;
     model_used := model |}.

(** The four ways a verdict reaches the cascade: as clean JSON text; as
    JSON in a fenced block between two pieces of prose; as JSON between
    two pieces of prose; as four lines, each a quoted name, a colon and
    the quoted value. *)
Definition clean_json (v : Verdict) : pystr := dumps (members v).

Definition fenced (pre post : pystr) (v : Verdict) : pystr :=
  pre ++ str "```json" ++ [10%N] ++ clean_json v ++ [10%N] ++ str "```"
      ++ post.

Definition embedded (pre post : pystr) (v : Verdict) : pystr :=
  pre ++ clean_json v ++ post.

Definition key_value_lines (v : Verdict) : pystr :=
  join [10%N] (dumps_member <$> required_members v).

(** Characters of well-formed text: the Unicode scalar values. *)
Definition scalar (c : N) : bool :=
  (c <? 0xd800)%N || ((0xdfff <? c)%N && (c <? 0x110000)%N).

(** Characters that JSON writes as themselves: printable ASCII other
    than the quote and the backslash. *)
Definition plain (c : N) : bool :=
  in_range 0x20 0x7e c && negb (c =? QUOTE)%N && negb (c =? ord "\")%N.

(** Every field of the verdict satisfies [P]. *)
Definition fields (P : pystr → Prop) (v : Verdict) : Prop :=
  P (false_positive v) ∧ P (sanitization_found v) ∧ P (attack_feasible v)
  ∧ P (confidence v) ∧ P (model_used v).

Definition required (P : pystr → Prop) (v : Verdict) : Prop :=
  P (false_positive v) ∧ P (sanitization_found v) ∧ P (attack_feasible v)
  ∧ P (confidence v).

(** The text holds none of the characters of [chars]. *)
Definition free_of (chars : string) (s : pystr) : Prop :=
  Forall (λ c, c ∉ text chars) s.

(** The value of a field of a returned [dict]. *)
Definition field_of (r : py dict) (name : string) : option json :=
  match outcome r with
  | Return d => d !! str name
  | Raise _ => None
  end.

(** A result of the run carries the labels of the project row and of the
    context file it was made for. *)
Definition labelled (row : ProjectRow) (alert_name context_file : pystr)
    (r : dict) : Prop :=
  r !! str "project_slug" = Some (JString (project_slug row))
  ∧ r !! str "CVE" = Some (JString (cve_id row))
  ∧ r !! str "CWE" = Some (JString (cwe_id row))
  ∧ r !! str "alert_name" = Some (JString alert_name)
  ∧ r !! str "context_file" = Some (JString context_file)
  ∧ r !! str "ai_provider" = Some (JString (str "openrouter"))
  ∧ is_Some (r !! str "timestamp").


(** What a result of the run looks like: labelled for the row and for
    some context file, with the [model_used] of a verdict. *)
Definition result_of {Path : Type} (stem path_str : Path → pystr)
    (self : OpenRouterPromptGenerator) (model_to_use : pystr)
    (row : ProjectRow) (r : dict) : Prop :=
  (∃ context_file : Path,
     labelled row (stem context_file) (path_str context_file) r)
  ∧ (r !! str "model_used" = Some (JString model_to_use)
     ∨ r !! str "model_used" = Some (JString (OpenRouter.model self))).

(** The text of a written object from just after the quote that opens
    its first name: the members, each a quoted name, a colon, a space
    and the quoted value, with a comma and a space between two members,
    and the closing brace. *)
Fixpoint members_text (k v : pystr) (members : list (pystr * pystr))
    : pystr :=
  (k ≫= escape) ++ QUOTE :: ord ":" :: ord " " :: QUOTE :: (v ≫= escape)
  ++ QUOTE ::
     match members with
     | [] => [ord "}"]
     | (k', v') :: members =>
         ord "," :: ord " " :: QUOTE :: members_text k' v' members
     end.

(** The content has, somewhere, the quoted name, white space, a colon,
    white space and the quoted value. *)
Definition written_after (content : pystr) (name : string) (value : pystr)
    : Prop :=
  ∃ before ws1 ws2 after,
    content = before ++ quoted (str name) ++ ws1 ++ ord ":" :: ws2
              ++ quoted value ++ after
    ∧ Forall (λ c, isspace c = true) ws1
    ∧ Forall (λ c, isspace c = true) ws2.

(** The field of the verdict is a piece of the content as it stands: not
    empty, without a quote, and written in the content after the name. *)
Definition raw_value (content : pystr) (d : dict) (name : string) : Prop :=
  ∃ value,
    d !! str name = Some (JString value)
    ∧ value ≠ [] ∧ (QUOTE ∉ value)
    ∧ written_after content name value.

(** What a written object is made of besides the characters of its
    names and values: the quote, the backslash with the letters of the
    escapes, the digits of the hexadecimal escapes, and the colon, the
    comma and the space between the members. *)
Definition written_with : pystr := text "'\ubfnrt0123456789abcdef:, ".

(** The characters of [chars] are brought in by no escape and no
    separator. *)
Definition never_written (chars : string) : Prop :=
  Forall (λ x, x ∉ written_with) (text chars).

(** A line with a quoted name, a colon, a space and a quoted value. *)
Definition line (name value : pystr) : pystr :=
  quoted name ++ ord ":" :: ord " " :: quoted value.

End Vocabulary.
Import Vocabulary.

(** * Properties *)

(** ** The handler module *)

(** ** The monad of computations *)

Module PyLemmas.

Lemma bind_return {A B} (a : A) (w : list message) (k : A → py B) :
  Py (Return a) w ≫= k = Py (outcome (k a)) (w ++ printed (k a)).
Proof. done. Qed.

Lemma bind_raise {A B} (e : exn) (w : list message) (k : A → py B) :
  Py (Raise e) w ≫= k = Py (Raise e) w.
Proof. done. Qed.

Lemma outcome_bind {A B} (m : py A) (k : A → py B) :
  outcome (m ≫= k) = match outcome m with
                      | Return a => outcome (k a)
                      | Raise e => Raise e
                      end.
Proof. destruct m as [[a|e] w]; done. Qed.

Lemma outcome_try_except {A} (body : py A) (handler : exn → py A) :
  outcome (try_except body handler)
  = match outcome body with
    | Return a => Return a
    | Raise e => outcome (handler e)
    end.
Proof. destruct body as [[a|e] w]; done. Qed.

Lemma outcome_try_except_on {A} catches (body : py A) (handler : exn → py A) :
  outcome (try_except_on catches body handler)
  = match outcome body with
    | Return a => Return a
    | Raise e => if catches e then outcome (handler e) else Raise e
    end.
Proof.
  destruct body as [[a|e] w]; [done|]. unfold try_except_on. cbn.
  by destruct (catches e).
Qed.

End PyLemmas.

Module LlmApiHandlerSpec.
Import LlmApiHandler PyLemmas.

Lemma parameter_loop_spec model sp v0 kwargs :
  ∃ v w,
    parameter_loop model sp v0 kwargs = Py (Return v) w
    ∧ (∀ k, v !! k =
            match kwargs !! k with
            | Some x => if copied sp k then Some x else v0 !! k
            | None => v0 !! k
            end)
    ∧ (∀ param, WarnUnsupportedParameter param model sp ∈ w
                ↔ is_Some (kwargs !! param) ∧ reported sp param = true).
Proof.
  unfold parameter_loop.
  apply (map_fold_weak_ind (λ r m, ∃ v w, r = Py (Return v) w
    ∧ (∀ k, v !! k = match m !! k with
                     | Some x => if copied sp k then Some x else v0 !! k
                     | None => v0 !! k
                     end)
    ∧ (∀ param, WarnUnsupportedParameter param model sp ∈ w
                ↔ is_Some (m !! param) ∧ reported sp param = true))).
  - exists v0, []. split; [done|]. split.
    + intros k. by rewrite lookup_empty.
    + intros param. rewrite lookup_empty. split.
      * by intros ?%elem_of_nil.
      * by intros [[? ?] _].
  - intros i x m r Hi (v & w & -> & Hv & Hw).
    unfold copied, reported in *.
    destruct (bool_decide (i = "max_tokens")
              && bool_decide ("max_completion_tokens" ∈ sp)) eqn:Hskip.
    + exists v, w. split; [by cbn; rewrite app_nil_r|]. split.
      * intros k. destruct (decide (i = k)) as [<-|Hne].
        -- rewrite lookup_insert_eq, Hskip. cbn. by rewrite Hv, Hi.
        -- rewrite lookup_insert_ne by done. apply Hv.
      * intros param. rewrite Hw. destruct (decide (i = param)) as [<-|Hne].
        -- rewrite lookup_insert_eq, Hi, Hskip. cbn.
           split; [by intros [[? ?] _]|by intros [_ ?]].
        -- by rewrite lookup_insert_ne.
    + destruct (bool_decide (i ∈ sp)) eqn:Hsup.
      * exists (<[i:=x]> v), w.
        split; [by cbn; rewrite app_nil_r|]. split.
        -- intros k. destruct (decide (i = k)) as [<-|Hne].
           ++ by rewrite !lookup_insert_eq, Hskip, Hsup.
           ++ rewrite !lookup_insert_ne by done. apply Hv.
        -- intros param. rewrite Hw. destruct (decide (i = param)) as [<-|Hne].
           ++ rewrite lookup_insert_eq, Hi, Hskip, Hsup. cbn.
              split; [by intros [[? ?] _]|by intros [_ ?]].
           ++ by rewrite lookup_insert_ne.
      * exists v, (w ++ [WarnUnsupportedParameter i model sp]).
        split; [by cbn|]. split.
        -- intros k. destruct (decide (i = k)) as [<-|Hne].
           ++ rewrite lookup_insert_eq, Hskip, Hsup. cbn. by rewrite Hv, Hi.
           ++ rewrite lookup_insert_ne by done. apply Hv.
        -- intros param. rewrite elem_of_app, Hw, list_elem_of_singleton.
           destruct (decide (i = param)) as [<-|Hne].
           ++ rewrite lookup_insert_eq, Hi, Hskip, Hsup. cbn.
              split; [eauto|]. intros _. by right.
           ++ rewrite lookup_insert_ne by done. split.
              ** intros [?|[=]]; [done|congruence].
              ** intros ?. by left.
Qed.


Lemma elem_of_true {A} `{EqDecision A} (x : A) (l : list A) :
  bool_decide (x ∈ l) = true ↔ x ∈ l.
Proof. apply bool_decide_eq_true. Qed.

(** What [validate_model_parameters] returns for a registered model whose
    temperature stage produced [v1]. *)
Lemma validate_after_temperature configs model config kwargs :
  configs !! model = Some config →
  let sp := supported_parameters config in
  let after_max_tokens (v1 : gmap string value) :=
    match kwargs !! "max_tokens" with
    | Some max_tokens =>
        if bool_decide ("max_completion_tokens" ∈ sp)
        then <["max_completion_tokens" := max_tokens]> v1
        else <["max_tokens" := max_tokens]> v1
    | None => v1
    end in
  let temperature_stage : result (gmap string value) :=
    if bool_decide ("temperature" ∈ sp) then
      match kwargs !! "temperature" with
      | Some (VNum t) =>
          if ((0 <=? t) && (t <=? max_temperature config))%float
          then Return (<["temperature" := VNum t]> ∅)
          else Raise (InvalidParameter model (max_temperature config) (VNum t))
      | Some _ => Raise TypeError
      | None => Return (<["temperature" := VNum (default_temperature config)]> ∅)
      end
    else Return ∅ in
  match temperature_stage with
  | Raise e => validate_model_parameters configs model kwargs = raise e
  | Return v1 =>
      validate_model_parameters configs model kwargs
      = parameter_loop model sp (after_max_tokens v1) kwargs
  end.
Proof.
  intros Hcfg sp after_max_tokens temperature_stage.
  unfold validate_model_parameters, get_model_config. rewrite Hcfg.
  subst temperature_stage after_max_tokens sp. cbn.
  set (sp := supported_parameters config).
  assert (Heta : ∀ A (r : py A), Py (outcome r) (printed r) = r)
    by (by intros ? []).
  destruct (bool_decide ("temperature" ∈ sp)); cbn; [|apply Heta].
  destruct (kwargs !! "temperature") as [[t| |]|]; cbn.
  - destruct (0 <=? t)%float; cbn; [|done].
    destruct (t <=? max_temperature config)%float; cbn; [apply Heta|done].
  - done.
  - done.
  - apply Heta.
Qed.

(** C2.  For a registered model that supports [temperature]: without a
    caller temperature the result carries the model's default
    temperature; with a caller temperature [t] the call returns, keeping
    [t], when [0 <= t <= max_temperature], and raises the
    invalid-parameter [ValueError] otherwise.  For a registered model
    that does not support [temperature], a temperature the caller gave is
    left out of the result and nothing is raised. *)
Theorem temperature_validation configs model config kwargs :
  configs !! model = Some config →
  let r := validate_model_parameters configs model kwargs in
  ("temperature" ∈ supported_parameters config →
     (kwargs !! "temperature" = None →
        ∃ params, outcome r = Return params
          ∧ params !! "temperature"
            = Some (VNum (default_temperature config)))
     ∧ (∀ t, kwargs !! "temperature" = Some (VNum t) →
          ((∃ params, outcome r = Return params)
             ↔ temperature_in_range (max_temperature config) t)
          ∧ (temperature_in_range (max_temperature config) t →
               ∃ params, outcome r = Return params
                 ∧ params !! "temperature" = Some (VNum t))
          ∧ (¬ temperature_in_range (max_temperature config) t →
               outcome r
               = Raise (InvalidParameter model (max_temperature config)
                          (VNum t)))))
  ∧ ("temperature" ∉ supported_parameters config →
       ∃ params, outcome r = Return params
         ∧ params !! "temperature" = None).
Proof.
  intros Hcfg r. subst r.
  pose proof (validate_after_temperature configs model config kwargs Hcfg)
    as Hv. cbn zeta in Hv.
  set (sp := supported_parameters config) in *.
  assert (Hne1 : "max_completion_tokens" ≠ "temperature") by done.
  assert (Hne2 : "max_tokens" ≠ "temperature") by done.
  split.
  - intros Hsup. apply elem_of_true in Hsup as Hsupb. rewrite Hsupb in Hv.
    assert (Hcopied : copied sp "temperature" = true)
      by (unfold copied; by rewrite Hsupb).
    split.
    + intros Hnone. rewrite Hnone in Hv. rewrite Hv.
      edestruct parameter_loop_spec as (v & w & -> & Hlook & _).
      exists v. split; [done|]. rewrite Hlook, Hnone.
      destruct (kwargs !! "max_tokens"); [case_bool_decide|];
        by simplify_map_eq.
    + intros t Ht. rewrite Ht in Hv. unfold temperature_in_range.
      destruct ((0 <=? t)%float && (t <=? max_temperature config)%float)
        eqn:Hrange.
      * rewrite Hv.
        edestruct parameter_loop_spec as (v & w & -> & Hlook & _).
        assert (v !! "temperature" = Some (VNum t))
          by (by rewrite Hlook, Ht, Hcopied).
        split; [split; [done|]; intros _; by exists v|].
        split; [intros _; by exists v|done].
      * rewrite Hv. cbn.
        split; [split; [by intros [? ?]|done]|]. by split.
  - intros Hsup. assert (Hsupb : bool_decide ("temperature" ∈ sp) = false)
      by (by apply bool_decide_eq_false).
    rewrite Hsupb in Hv. rewrite Hv.
    edestruct parameter_loop_spec as (v & w & -> & Hlook & _).
    exists v. split; [done|]. rewrite Hlook. unfold copied. rewrite Hsupb.
    rewrite andb_false_r.
    destruct (kwargs !! "temperature");
      (destruct (kwargs !! "max_tokens"); [case_bool_decide|];
         by simplify_map_eq).
Qed.


Lemma temperature_validation_witness :
  let config := {| max_temperature := 2.0; default_temperature := 0.0;
                   supported_parameters :=
                     ["temperature"; "max_tokens"; "top_p";
                      "frequency_penalty"; "presence_penalty"];
                   tokenizer := "gpt-4"; provider := Some "openai" |} in
  Registry.MODEL_CONFIGS !! "gpt-4" = Some config
  ∧ ∃ params,
      outcome (validate_model_parameters Registry.MODEL_CONFIGS "gpt-4" ∅)
      = Return params
      ∧ params !! "temperature" = Some (VNum 0.0).
Proof.
  intros config.
  assert (Hcfg : Registry.MODEL_CONFIGS !! "gpt-4" = Some config)
    by (vm_compute; reflexivity).
  split; [exact Hcfg|].
  destruct (temperature_validation Registry.MODEL_CONFIGS "gpt-4" config ∅
              Hcfg) as [Hsup _].
  assert (Hin : "temperature" ∈ supported_parameters config)
    by (apply elem_of_true; vm_compute; reflexivity).
  destruct (Hsup Hin) as [Hdefault _]. apply Hdefault. reflexivity.
Defined.

(** Every model of the source's table lists [max_completion_tokens] or
    [max_tokens], and has a provider. *)
Lemma registry_shape :
  map_Forall (λ _ config,
    (bool_decide ("max_completion_tokens" ∈ supported_parameters config)
     || bool_decide ("max_tokens" ∈ supported_parameters config)) = true
    ∧ is_Some (provider config))
    Registry.MODEL_CONFIGS.
Proof.
  eapply (bool_decide_unpack (map_Forall _ Registry.MODEL_CONFIGS)).
  vm_compute. exact I.
Qed.


(** Where a returned parameter other than [temperature] comes from: the
    caller's own value when the loop copies it, else the renamed or kept
    [max_tokens]. *)
Lemma validate_lookup configs model config kwargs params k :
  configs !! model = Some config →
  outcome (validate_model_parameters configs model kwargs) = Return params →
  k ≠ "temperature" →
  let sp := supported_parameters config in
  let mapped : option value :=
    match kwargs !! "max_tokens" with
    | Some v =>
        if bool_decide ("max_completion_tokens" ∈ sp)
        then (if bool_decide (k = "max_completion_tokens") then Some v
              else None)
        else (if bool_decide (k = "max_tokens") then Some v else None)
    | None => None
    end in
  params !! k = match kwargs !! k with
                | Some x => if copied sp k then Some x else mapped
                | None => mapped
                end.
Proof.
  intros Hcfg Hret Hk sp mapped.
  pose proof (validate_after_temperature configs model config kwargs Hcfg)
    as Hv. cbn zeta in Hv. fold sp in Hv.
  assert (Hloop : ∃ v1, v1 !! k = None
    ∧ validate_model_parameters configs model kwargs
      = parameter_loop model sp
          match kwargs !! "max_tokens" with
          | Some max_tokens =>
              if bool_decide ("max_completion_tokens" ∈ sp)
              then <["max_completion_tokens" := max_tokens]> v1
              else <["max_tokens" := max_tokens]> v1
          | None => v1
          end kwargs).
  { destruct (bool_decide ("temperature" ∈ sp)).
    - destruct (kwargs !! "temperature") as [[t| |]|].
      + destruct ((0 <=? t)%float && (t <=? max_temperature config)%float).
        * eexists. split; [|exact Hv]. by rewrite lookup_insert_ne.
        * rewrite Hv in Hret. discriminate Hret.
      + rewrite Hv in Hret. discriminate Hret.
      + rewrite Hv in Hret. discriminate Hret.
      + eexists. split; [|exact Hv]. by rewrite lookup_insert_ne.
    - exists ∅. split; [apply lookup_empty|exact Hv]. }
  destruct Hloop as (v1 & Hv1 & Heq). rewrite Heq in Hret. clear Hv Heq.
  edestruct parameter_loop_spec as (v & w & Hloop & Hlook & _).
  rewrite Hloop in Hret. injection Hret as ->. rewrite Hlook.
  assert (Hmapped : match kwargs !! "max_tokens" with
          | Some max_tokens =>
              if bool_decide ("max_completion_tokens" ∈ sp)
              then <["max_completion_tokens" := max_tokens]> v1
              else <["max_tokens" := max_tokens]> v1
          | None => v1
          end !! k = mapped).
  { subst mapped. destruct (kwargs !! "max_tokens") as [x|]; [|done].
    destruct (bool_decide ("max_completion_tokens" ∈ sp)).
    - case_bool_decide as Hkk.
      + subst k. apply lookup_insert_eq.
      + by rewrite lookup_insert_ne.
    - case_bool_decide as Hkk.
      + subst k. apply lookup_insert_eq.
      + by rewrite lookup_insert_ne. }
  by rewrite Hmapped.
Qed.

(** For any table: the result never holds both [max_tokens] and
    [max_completion_tokens], and what happens to a [max_tokens] of the
    caller. *)
Lemma max_tokens_general configs model config kwargs params :
  configs !! model = Some config →
  outcome (validate_model_parameters configs model kwargs) = Return params →
  let sp := supported_parameters config in
  ¬ (is_Some (params !! "max_tokens")
     ∧ is_Some (params !! "max_completion_tokens"))
  ∧ (is_Some (params !! "max_tokens") → "max_completion_tokens" ∉ sp)
  ∧ ∀ v, kwargs !! "max_tokens" = Some v →
      ("max_completion_tokens" ∈ sp →
         params !! "max_tokens" = None
         ∧ params !! "max_completion_tokens"
           = Some (default v (kwargs !! "max_completion_tokens")))
      ∧ ("max_completion_tokens" ∉ sp →
         params !! "max_tokens" = Some v
         ∧ params !! "max_completion_tokens" = None).
Proof.
  intros Hcfg Hret sp.
  pose proof (validate_lookup _ _ _ _ _ "max_tokens" Hcfg Hret) as Hmt.
  pose proof (validate_lookup _ _ _ _ _ "max_completion_tokens" Hcfg Hret)
    as Hmct.
  cbn zeta in Hmt, Hmct. fold sp in Hmt, Hmct. unfold copied in Hmt, Hmct.
  specialize (Hmt ltac:(discriminate)). specialize (Hmct ltac:(discriminate)).
  rewrite (bool_decide_eq_true_2 ("max_tokens" = "max_tokens")) in Hmt
    by reflexivity.
  rewrite (bool_decide_eq_false_2 ("max_tokens" = "max_completion_tokens"))
    in Hmt by discriminate.
  rewrite (bool_decide_eq_false_2 ("max_completion_tokens" = "max_tokens"))
    in Hmct by discriminate.
  rewrite (bool_decide_eq_true_2
             ("max_completion_tokens" = "max_completion_tokens"))
    in Hmct by reflexivity.
  cbn [negb andb] in Hmt, Hmct.
  destruct (bool_decide ("max_completion_tokens" ∈ sp)) eqn:Hsup.
  - apply bool_decide_eq_true in Hsup as Hin. cbn [negb andb] in Hmt, Hmct.
    assert (Hnone : params !! "max_tokens" = None).
    { rewrite Hmt. by destruct (kwargs !! "max_tokens"). }
    split; [rewrite Hnone; by intros [[? [=]] _]|].
    split; [rewrite Hnone; by intros [? [=]]|].
    intros x Hx. split; [|done]. intros _. split; [done|].
    rewrite Hmct, Hx. by destruct (kwargs !! "max_completion_tokens").
  - apply bool_decide_eq_false in Hsup as Hnin. cbn [negb andb] in Hmt, Hmct.
    assert (Hnone : params !! "max_completion_tokens" = None).
    { rewrite Hmct.
      by destruct (kwargs !! "max_completion_tokens"),
                  (kwargs !! "max_tokens"). }
    split; [rewrite Hnone; by intros [_ [? [=]]]|].
    split; [done|].
    intros x Hx. split; [done|]. intros _. split; [|done].
    rewrite Hmt, Hx. by destruct (bool_decide ("max_tokens" ∈ sp)).
Qed.

(** The call returns when the model does not list [temperature], or the
    caller gave none. *)
Lemma validate_returns configs model config kwargs :
  configs !! model = Some config →
  "temperature" ∉ supported_parameters config
  ∨ kwargs !! "temperature" = None →
  ∃ params,
    outcome (validate_model_parameters configs model kwargs) = Return params.
Proof.
  intros Hcfg Hcase.
  pose proof (validate_after_temperature configs model config kwargs Hcfg)
    as Hv. cbn zeta in Hv.
  assert (Hloop : ∃ v1, validate_model_parameters configs model kwargs
                        = parameter_loop model (supported_parameters config)
                            v1 kwargs).
  { destruct Hcase as [Hnin|Hnone].
    - rewrite bool_decide_eq_false_2 in Hv by done. eauto.
    - rewrite Hnone in Hv.
      destruct (bool_decide ("temperature" ∈ supported_parameters config));
        eauto. }
  destruct Hloop as [v1 ->].
  edestruct parameter_loop_spec as (v & w & -> & _). by exists v.
Qed.

(** C3, as the source computes it: a caller who passes both [max_tokens]
    and [max_completion_tokens] to a model that lists
    [max_completion_tokens] gets back the [max_completion_tokens] they
    passed, not the renamed [max_tokens]: the loop over the parameters
    writes over the renamed value. *)
Lemma max_tokens_rename_overwritten :
  ¬ (∀ (model : string) (config : ModelConfig) (kwargs params : gmap string value)
       (v : value),
       Registry.MODEL_CONFIGS !! model = Some config →
       outcome (validate_model_parameters Registry.MODEL_CONFIGS model kwargs)
       = Return params →
       kwargs !! "max_tokens" = Some v →
       "max_completion_tokens" ∈ supported_parameters config →
       params !! "max_completion_tokens" = Some v).
Proof.
  intros Hrenamed.
  set (kwargs := <["max_tokens" := VNum 100]>
                   ({["max_completion_tokens" := VNum 200]}
                      : gmap string value)).
  destruct (Registry.MODEL_CONFIGS !! "o3") as [config|] eqn:Hcfg;
    [|vm_compute in Hcfg; discriminate Hcfg].
  assert (Hin : "max_completion_tokens" ∈ supported_parameters config).
  { vm_compute in Hcfg. injection Hcfg as <-.
    apply elem_of_true. vm_compute. reflexivity. }
  destruct (validate_returns Registry.MODEL_CONFIGS "o3" config kwargs Hcfg)
    as [params Hret]; [right; reflexivity|].
  pose proof (Hrenamed "o3" config kwargs params (VNum 100) Hcfg Hret
                eq_refl Hin) as Hclaimed.
  destruct (max_tokens_general _ _ _ _ _ Hcfg Hret) as (_ & _ & Hcaller).
  destruct (Hcaller (VNum 100) eq_refl) as [Hrename _].
  destruct (Hrename Hin) as [_ Hcode].
  rewrite Hclaimed in Hcode.
  apply (f_equal (λ got, match got with
                         | Some (VNum x) => PrimFloat.eqb x 100
                         | _ => false
                         end)) in Hcode.
  vm_compute in Hcode. discriminate Hcode.
Qed.

(** C3, amended.  For every model of the source's table and every
    parameter bag, the result never holds both [max_tokens] and
    [max_completion_tokens].  When the model lists
    [max_completion_tokens], a [max_tokens] of the caller is absent from
    the result and [max_completion_tokens] is present: with the value of
    the caller's [max_tokens] when the caller passed no
    [max_completion_tokens], and with the caller's own
    [max_completion_tokens] when they passed one.  Otherwise the
    [max_tokens] of the caller stays under [max_tokens], which the model
    then lists.  Every model of the table lists one of the two names, so
    a [max_tokens] is never left without a supported name. *)
Theorem max_tokens_normalisation model config kwargs params :
  Registry.MODEL_CONFIGS !! model = Some config →
  outcome (validate_model_parameters Registry.MODEL_CONFIGS model kwargs)
  = Return params →
  let sp := supported_parameters config in
  ¬ (is_Some (params !! "max_tokens")
     ∧ is_Some (params !! "max_completion_tokens"))
  ∧ ("max_completion_tokens" ∈ sp ∨ "max_tokens" ∈ sp)
  ∧ (is_Some (params !! "max_tokens") → "max_tokens" ∈ sp)
  ∧ ∀ v, kwargs !! "max_tokens" = Some v →
      ("max_completion_tokens" ∈ sp →
         params !! "max_tokens" = None
         ∧ (kwargs !! "max_completion_tokens" = None →
              params !! "max_completion_tokens" = Some v)
         ∧ (∀ w, kwargs !! "max_completion_tokens" = Some w →
              params !! "max_completion_tokens" = Some w))
      ∧ ("max_completion_tokens" ∉ sp →
         "max_tokens" ∈ sp
         ∧ params !! "max_tokens" = Some v
         ∧ params !! "max_completion_tokens" = None).
Proof.
  intros Hcfg Hret sp.
  destruct (max_tokens_general _ _ _ _ _ Hcfg Hret)
    as (Hboth & Hemitted & Hcaller).
  fold sp in Hemitted, Hcaller.
  destruct (registry_shape model config Hcfg) as [Hone _]. fold sp in Hone.
  assert (Hlisted : "max_completion_tokens" ∈ sp ∨ "max_tokens" ∈ sp).
  { apply orb_true_iff in Hone as [H|H]; apply bool_decide_eq_true in H;
      auto. }
  assert (Hkept : is_Some (params !! "max_tokens") → "max_tokens" ∈ sp).
  { intros Hsome. destruct Hlisted as [Hmct|]; [|done].
    by destruct (Hemitted Hsome). }
  split; [done|]. split; [done|]. split; [done|].
  intros v Hv. destruct (Hcaller v Hv) as [Hrename Hkeep]. split.
  - intros Hin. destruct (Hrename Hin) as [Hnone Hsome].
    split; [done|]. split.
    + intros Hno. by rewrite Hsome, Hno.
    + intros w Hw. by rewrite Hsome, Hw.
  - intros Hnin. destruct (Hkeep Hnin) as [Hsome Hnone].
    split; [|split; [exact Hsome|exact Hnone]].
    destruct Hlisted as [Hmct|Hmt]; [contradiction|exact Hmt].
Qed.

Lemma max_tokens_normalisation_witness :
  let config := {| max_temperature := 1.0; default_temperature := 0.0;
                   supported_parameters :=
                     ["max_completion_tokens"; "top_p"; "frequency_penalty";
                      "presence_penalty"];
                   tokenizer := "gpt-4"; provider := Some "openrouter" |} in
  let kwargs : gmap string value :=
    <["max_tokens" := VNum 100]> {["max_completion_tokens" := VNum 200]} in
  Registry.MODEL_CONFIGS !! "o3" = Some config
  ∧ ∃ params,
      outcome (validate_model_parameters Registry.MODEL_CONFIGS "o3" kwargs)
      = Return params
      ∧ params !! "max_tokens" = None
      ∧ params !! "max_completion_tokens" = Some (VNum 200).
Proof.
  intros config kwargs.
  assert (Hcfg : Registry.MODEL_CONFIGS !! "o3" = Some config)
    by (vm_compute; reflexivity).
  split; [exact Hcfg|].
  destruct (validate_returns Registry.MODEL_CONFIGS "o3" config kwargs Hcfg)
    as [params Hret]; [right; reflexivity|].
  exists params. split; [exact Hret|].
  destruct (max_tokens_normalisation "o3" config kwargs params Hcfg Hret)
    as (_ & _ & _ & Hcaller).
  destruct (Hcaller (VNum 100) eq_refl) as [Hrename _].
  assert (Hin : "max_completion_tokens" ∈ supported_parameters config)
    by (apply elem_of_true; vm_compute; reflexivity).
  destruct (Hrename Hin) as (Hnone & _ & Hsome).
  split; [exact Hnone|]. apply Hsome. reflexivity.
Defined.

(** C4.  The identifier [o3-pro] is sent to [send_to_o3_pro] whatever the
    table says about it, and [is_openai_model] answers true for it; for
    any other registered model it answers whether the provider of its
    entry is [openai].  Every entry of the source's table has a
    provider. *)
Theorem o3_pro_routing configs (send_to_o3_pro send_to_openai
    send_to_openrouter : sender) prompt temperature enable_token_counting
    kwargs :
  send_to_llm configs send_to_o3_pro send_to_openai send_to_openrouter
    prompt "o3-pro" temperature enable_token_counting kwargs
  = send_to_o3_pro prompt "o3-pro" temperature enable_token_counting kwargs
  ∧ is_openai_model configs "o3-pro" = mret true
  ∧ (∀ model config p,
       model ≠ "o3-pro" → configs !! model = Some config →
       provider config = Some p →
       is_openai_model configs model = mret (bool_decide (p = "openai")))
  ∧ map_Forall (λ _ config, is_Some (provider config))
      Registry.MODEL_CONFIGS.
Proof.
  split; [done|]. split; [done|]. split.
  - intros model config p Hne Hcfg Hp.
    unfold is_openai_model, get_model_config.
    rewrite bool_decide_eq_false_2 by done. rewrite Hcfg. cbn.
    by rewrite Hp.
  - intros model config Hcfg. by destruct (registry_shape model config Hcfg).
Qed.

Lemma o3_pro_routing_witness :
  let config := {| max_temperature := 2.0; default_temperature := 0.0;
                   supported_parameters :=
                     ["temperature"; "max_tokens"; "top_p";
                      "frequency_penalty"; "presence_penalty"];
                   tokenizer := "gpt-4"; provider := Some "openrouter" |} in
  "openai/gpt-5" ≠ "o3-pro"
  ∧ Registry.MODEL_CONFIGS !! "openai/gpt-5" = Some config
  ∧ provider config = Some "openrouter"
  ∧ is_openai_model Registry.MODEL_CONFIGS "openai/gpt-5" = mret false.
Proof.
  intros config.
  assert (Hne : "openai/gpt-5" ≠ "o3-pro") by discriminate.
  assert (Hcfg : Registry.MODEL_CONFIGS !! "openai/gpt-5" = Some config)
    by (vm_compute; reflexivity).
  split; [exact Hne|]. split; [exact Hcfg|]. split; [reflexivity|].
  pose (s := (λ _ _ _ _ _, mret []) : sender).
  destruct (o3_pro_routing Registry.MODEL_CONFIGS s s s [] None true ∅)
    as (_ & _ & Hother & _).
  exact (Hother "openai/gpt-5" config "openrouter" Hne Hcfg eq_refl).
Defined.

(** C6.  [count_tokens] returns for every text, every model identifier
    and every behaviour of the tokenizer library, and its result is not
    negative: the count of the model's tokenizer when that works, else
    the count of the gpt-4 tokenizer when that works, else the length of
    the text divided by 4. *)
Theorem count_tokens_never_raises configs (encoding : Type)
    (encoding_for_model : string → py encoding)
    (encode : encoding → pystr → py (list Z)) text model :
  let tokenize name :=
    enc ← encoding_for_model name;
    tokens ← encode enc text;
    mret (Z.of_nat (length tokens)) in
  let tier1 := config ← get_model_config configs model;
               tokenize (tokenizer config) in
  let tier2 := tokenize "gpt-4" in
  ∃ n, outcome (count_tokens configs encoding encoding_for_model encode
                  text model) = Return n
       ∧ (0 ≤ n)%Z
       ∧ n = match outcome tier1 with
             | Return k => k
             | Raise _ =>
                 match outcome tier2 with
                 | Return k => k
                 | Raise _ => (Z.of_nat (length text) `div` 4)%Z
                 end
             end.
Proof.
  intros tokenize tier1 tier2.
  assert (Htok : ∀ name k, outcome (tokenize name) = Return k → (0 ≤ k)%Z).
  { intros name k. unfold tokenize.
    destruct (encoding_for_model name) as [[enc|e] w]; cbn; [|done].
    destruct (encode enc text) as [[tokens|e] w']; cbn; [|done].
    intros [= <-]. lia. }
  assert (Htier1 : ∀ k, outcome tier1 = Return k → (0 ≤ k)%Z).
  { intros k. unfold tier1, get_model_config.
    destruct (configs !! model) as [config|]; cbn; [|done].
    intros Hk. apply (Htok (tokenizer config)).
    by destruct (tokenize (tokenizer config)) as [[?|?] ?]. }
  unfold count_tokens. rewrite outcome_try_except.
  subst tier1 tier2 tokenize. cbv beta in *.
  destruct (outcome (get_model_config configs model ≫= _)) as [k|e] eqn:H1.
  { exists k. split; [done|]. split; [by apply Htier1|done]. }
  rewrite outcome_bind. cbn [outcome print]. rewrite outcome_try_except.
  destruct (outcome (encoding_for_model "gpt-4" ≫= _)) as [k|e'] eqn:H2.
  { exists k. split; [done|]. split; [by apply (Htok "gpt-4")|done]. }
  rewrite !outcome_bind. cbn. eexists. split; [done|]. split; [|done].
  apply Z.div_pos; lia.
Qed.

(** C9.  An identifier that is not in the table makes [get_model_config],
    and with it [validate_model_parameters], raise the unknown-model
    [ValueError]; for an identifier of the table [get_model_config]
    returns its entry. *)
Theorem unknown_model_raises configs model :
  (configs !! model = None →
     get_model_config configs model = raise (UnknownModel model)
     ∧ ∀ kwargs, validate_model_parameters configs model kwargs
                 = raise (UnknownModel model))
  ∧ (∀ config, configs !! model = Some config →
       get_model_config configs model = mret config).
Proof.
  split.
  - intros Hnone. unfold validate_model_parameters, get_model_config.
    by rewrite Hnone.
  - intros config Hcfg. unfold get_model_config. by rewrite Hcfg.
Qed.

Lemma unknown_model_raises_witness :
  Registry.MODEL_CONFIGS !! "not-a-real-model" = None
  ∧ validate_model_parameters Registry.MODEL_CONFIGS "not-a-real-model" ∅
    = raise (UnknownModel "not-a-real-model")
  ∧ is_Some (Registry.MODEL_CONFIGS !! "o3-pro")
  ∧ ∃ config, get_model_config Registry.MODEL_CONFIGS "o3-pro" = mret config.
Proof.
  assert (Hnone : Registry.MODEL_CONFIGS !! "not-a-real-model" = None)
    by (vm_compute; reflexivity).
  split; [exact Hnone|].
  destruct (unknown_model_raises Registry.MODEL_CONFIGS "not-a-real-model")
    as [Habsent _].
  split; [exact (proj2 (Habsent Hnone) ∅)|].
  destruct (Registry.MODEL_CONFIGS !! "o3-pro") as [config|] eqn:Hcfg;
    [|vm_compute in Hcfg; discriminate Hcfg].
  split; [by exists config|]. exists config.
  destruct (unknown_model_raises Registry.MODEL_CONFIGS "o3-pro")
    as [_ Hpresent].
  exact (Hpresent config Hcfg).
Defined.


(** The value [calculate_cost] returns once the pricing entry that
    applies is known: the model's own, or that of gpt-4 when the model
    has none. *)
Lemma calculate_cost_value pricing (A : arithmetic) input_tokens
    output_tokens model p :
  pricing !! (if bool_decide (model ∉ dom pricing) then "gpt-4" else model)
  = Some p →
  outcome (calculate_cost pricing A input_tokens output_tokens model)
  = Return
      (add A
         (mul A (div A (of_int A input_tokens) (of_int A 1000))
            (of_literal A (input p)))
         (mul A (div A (of_int A output_tokens) (of_int A 1000))
            (of_literal A (output p)))).
Proof.
  unfold calculate_cost, price.
  destruct (bool_decide (model ∉ dom pricing)); intros Hp; cbn;
    by rewrite Hp.
Qed.

(** Every model finds a pricing entry in the source's table. *)
Lemma pricing_applies model :
  ∃ p, Registry.MODEL_PRICING
       !! (if bool_decide (model ∉ dom Registry.MODEL_PRICING)
           then "gpt-4" else model) = Some p.
Proof.
  case_bool_decide as Hdom.
  - eexists. vm_compute. reflexivity.
  - by apply elem_of_dom in Hdom.
Qed.

Lemma Q2Qc_inject_Z_add (a b : Z) :
  Q2Qc (inject_Z (a + b)) = (Q2Qc (inject_Z a) + Q2Qc (inject_Z b))%Qc.
Proof.
  apply Qc_is_canon. unfold Qcplus, Q2Qc, this.
  rewrite !Qred_correct, inject_Z_plus. reflexivity.
Qed.

(** C7, as the source computes it: in binary64 the cost of 3 input tokens
    of gpt-4 differs from the cost of 1 token plus the cost of 2. *)
Lemma calculate_cost_not_additive :
  ¬ (∀ (model : string) (a b c d : Z) (x y z : float),
       (0 ≤ a)%Z → (0 ≤ b)%Z → (0 ≤ c)%Z → (0 ≤ d)%Z →
       outcome (calculate_cost Registry.MODEL_PRICING binary64
                  (a + b) (c + d) model) = Return x →
       outcome (calculate_cost Registry.MODEL_PRICING binary64 a c model)
       = Return y →
       outcome (calculate_cost Registry.MODEL_PRICING binary64 b d model)
       = Return z →
       x = (y + z)%float).
Proof.
  intros Hadditive.
  pose proof (λ x y z, Hadditive "gpt-4" 1%Z 2%Z 0%Z 0%Z x y z
                ltac:(lia) ltac:(lia) ltac:(lia) ltac:(lia)) as H.
  specialize (H _ _ _ ltac:(vm_compute; reflexivity)
                ltac:(vm_compute; reflexivity)
                ltac:(vm_compute; reflexivity)).
  apply (f_equal (λ v, PrimFloat.eqb v 0x1.797cc39ffd60ep-14%float)) in H.
  vm_compute in H. discriminate H.
Qed.

(** C7, amended.  Over exact rational arithmetic [calculate_cost] is
    additive in its token counts, for every model and the source's
    pricing table; and in any arithmetic, binary64 included, a model
    without a pricing entry is priced as gpt-4 and the call returns. *)
Theorem calculate_cost_additive_exact model (a b c d : Z) :
  (∃ x y z : Qc,
     outcome (calculate_cost Registry.MODEL_PRICING exact
                (a + b) (c + d) model) = Return x
     ∧ outcome (calculate_cost Registry.MODEL_PRICING exact a c model)
       = Return y
     ∧ outcome (calculate_cost Registry.MODEL_PRICING exact b d model)
       = Return z
     ∧ x = (y + z)%Qc)
  ∧ (∀ A : arithmetic,
       (∃ cost, outcome (calculate_cost Registry.MODEL_PRICING A a c model)
                = Return cost)
       ∧ (Registry.MODEL_PRICING !! model = None →
            outcome (calculate_cost Registry.MODEL_PRICING A a c model)
            = outcome (calculate_cost Registry.MODEL_PRICING A a c "gpt-4"))).
Proof.
  destruct (pricing_applies model) as [p Hp]. split.
  - do 3 eexists.
    split; [by apply calculate_cost_value|].
    split; [by apply calculate_cost_value|].
    split; [by apply calculate_cost_value|].
    cbn. rewrite !Q2Qc_inject_Z_add. unfold Qcdiv. ring.
  - intros A. split.
    + eexists. by apply calculate_cost_value.
    + intros Hnone.
      destruct (pricing_applies "gpt-4") as [p' Hp'].
      rewrite (calculate_cost_value Registry.MODEL_PRICING A a c model p Hp).
      rewrite (calculate_cost_value Registry.MODEL_PRICING A a c "gpt-4" p'
                 Hp').
      rewrite bool_decide_eq_true_2 in Hp by (by apply not_elem_of_dom).
      destruct (bool_decide ("gpt-4" ∉ dom Registry.MODEL_PRICING));
        congruence.
Qed.

End LlmApiHandlerSpec.

(** ** Further properties of the handler module *)

Module HandlerInvariants.
Import LlmApiHandler PyLemmas LlmApiHandlerSpec.

Lemma mret_bind {A B} (a : A) (k : A → py B) : mret a ≫= k = k a.
Proof. unfold mbind, py_bind, mret, py_ret. cbn. by destruct (k a). Qed.

Lemma try_except_return {A} (body : py A) (handler : exn → py A) a :
  outcome body = Return a → try_except body handler = body.
Proof. unfold try_except. by intros ->. Qed.

Lemma try_except_raise {A} (body : py A) (handler : exn → py A) e :
  outcome body = Raise e →
  try_except body handler
  = Py (outcome (handler e)) (printed body ++ printed (handler e)).
Proof. unfold try_except. by intros ->. Qed.

Lemma copied_supported sp k : copied sp k = true → k ∈ sp.
Proof.
  unfold copied. intros [_ H]%andb_true_iff. by apply elem_of_true in H.
Qed.

Lemma copied_or_reported sp k :
  copied sp k = false → reported sp k = false →
  k = "max_tokens" ∧ "max_completion_tokens" ∈ sp.
Proof.
  unfold copied, reported.
  destruct (bool_decide (k = "max_tokens")) eqn:Hk;
    destruct (bool_decide ("max_completion_tokens" ∈ sp)) eqn:Hm;
    destruct (bool_decide (k ∈ sp)); cbn; try done;
    intros _ _;
    (split; [by apply bool_decide_eq_true in Hk|by apply elem_of_true in Hm]).
Qed.

(** The [temperature] of the result. *)
Lemma validate_temperature_lookup configs model config kwargs params :
  configs !! model = Some config →
  outcome (validate_model_parameters configs model kwargs) = Return params →
  let sp := supported_parameters config in
  params !! "temperature"
  = (if bool_decide ("temperature" ∈ sp) then
       Some (default (VNum (default_temperature config))
               (kwargs !! "temperature"))
     else None)
  ∧ ("temperature" ∈ sp → ∀ x, kwargs !! "temperature" = Some x →
       ∃ t, x = VNum t ∧ temperature_in_range (max_temperature config) t).
Proof.
  intros Hcfg Hret sp.
  pose proof (validate_after_temperature configs model config kwargs Hcfg)
    as Hv. cbn zeta in Hv. fold sp in Hv.
  assert (Hcopied : copied sp "temperature"
                    = bool_decide ("temperature" ∈ sp)) by done.
  assert (Hins : ∀ v1 : gmap string value,
            match kwargs !! "max_tokens" with
            | Some max_tokens =>
                if bool_decide ("max_completion_tokens" ∈ sp)
                then <["max_completion_tokens" := max_tokens]> v1
                else <["max_tokens" := max_tokens]> v1
            | None => v1
            end !! "temperature" = v1 !! "temperature").
  { intros v1. destruct (kwargs !! "max_tokens"); [|done].
    destruct (bool_decide ("max_completion_tokens" ∈ sp));
      by rewrite lookup_insert_ne. }
  destruct (bool_decide ("temperature" ∈ sp)) eqn:Hsup.
  - destruct (kwargs !! "temperature") as [[t| |]|] eqn:Htemp.
    + destruct ((0 <=? t)%float && (t <=? max_temperature config)%float)
        eqn:Hrange.
      * rewrite Hv in Hret.
        edestruct parameter_loop_spec as (v & w & Hloop & Hlook & _).
        rewrite Hloop in Hret. injection Hret as ->.
        rewrite Hlook, Htemp, Hcopied. split; [done|].
        intros _ x [= <-]. by exists t.
      * rewrite Hv in Hret. discriminate Hret.
    + rewrite Hv in Hret. discriminate Hret.
    + rewrite Hv in Hret. discriminate Hret.
    + rewrite Hv in Hret.
      edestruct parameter_loop_spec as (v & w & Hloop & Hlook & _).
      rewrite Hloop in Hret. injection Hret as ->.
      rewrite Hlook, Htemp, Hins, lookup_insert_eq. split; [done|].
      by intros _ x.
  - rewrite Hv in Hret.
    edestruct parameter_loop_spec as (v & w & Hloop & Hlook & _).
    rewrite Hloop in Hret. injection Hret as ->.
    rewrite Hlook, Hcopied, Hins, lookup_empty. split.
    + by destruct (kwargs !! "temperature").
    + intros Hin%elem_of_true. congruence.
Qed.

(** For any table, a parameter of the result is supported by the model,
    or is a [max_tokens] of the caller kept under its own name. *)
Lemma validated_parameters_general configs model config kwargs params k :
  configs !! model = Some config →
  outcome (validate_model_parameters configs model kwargs) = Return params →
  is_Some (params !! k) →
  let sp := supported_parameters config in
  k ∈ sp ∨ (k = "max_tokens" ∧ ("max_completion_tokens" ∉ sp)
            ∧ params !! k = kwargs !! k).
Proof.
  intros Hcfg Hret Hk sp.
  destruct (decide (k = "temperature")) as [->|Hne].
  - destruct (validate_temperature_lookup _ _ _ _ _ Hcfg Hret) as [Ht _].
    fold sp in Ht. rewrite Ht in Hk. case_bool_decide; [by left|].
    by destruct Hk.
  - pose proof (validate_lookup _ _ _ _ _ k Hcfg Hret Hne) as Hlook.
    cbn zeta in Hlook. fold sp in Hlook.
    destruct (copied sp k) eqn:Hcopied.
    { left. by apply copied_supported. }
    assert (Hmapped : params !! k =
              match kwargs !! "max_tokens" with
              | Some v =>
                  if bool_decide ("max_completion_tokens" ∈ sp)
                  then (if bool_decide (k = "max_completion_tokens")
                        then Some v else None)
                  else (if bool_decide (k = "max_tokens") then Some v
                        else None)
              | None => None
              end).
    { rewrite Hlook. by destruct (kwargs !! k). }
    rewrite Hmapped in Hk. rewrite Hmapped.
    destruct (kwargs !! "max_tokens") as [v|] eqn:Hmax; [|by destruct Hk].
    destruct (bool_decide ("max_completion_tokens" ∈ sp)) eqn:Hmct.
    + case_bool_decide as Hkk; [|by destruct Hk].
      left. subst k. by apply elem_of_true.
    + case_bool_decide as Hkk; [|by destruct Hk].
      right. subst k. split; [done|]. split; [|by rewrite Hmax].
      intros Hin%elem_of_true. congruence.
Qed.

(** X1.  For every model of the source's table, every parameter that
    [validate_model_parameters] returns is one the model lists as
    supported: nothing unsupported reaches the request. *)
Theorem validated_parameters_are_supported model config kwargs params k :
  Registry.MODEL_CONFIGS !! model = Some config →
  outcome (validate_model_parameters Registry.MODEL_CONFIGS model kwargs)
  = Return params →
  is_Some (params !! k) →
  k ∈ supported_parameters config.
Proof.
  intros Hcfg Hret Hk.
  destruct (validated_parameters_general _ _ _ _ _ _ Hcfg Hret Hk)
    as [Hin|(-> & Hmct & _)]; [done|].
  pose proof registry_shape as Hshape.
  apply (map_Forall_lookup_1 _ _ _ _ Hshape) in Hcfg as [Hlisted _].
  apply orb_true_iff in Hlisted as [H|H]; apply elem_of_true in H;
    [destruct (Hmct H)|exact H].
Qed.

Lemma validated_parameters_are_supported_witness :
  let config := {| max_temperature := 2.0; default_temperature := 0.0;
                   supported_parameters :=
                     ["temperature"; "max_tokens"; "top_p";
                      "frequency_penalty"; "presence_penalty"];
                   tokenizer := "gpt-4"; provider := Some "openai" |} in
  let kwargs : gmap string value :=
    {["top_p" := VNum 1; "seed" := VNum 7]} in
  Registry.MODEL_CONFIGS !! "gpt-4" = Some config
  ∧ ∃ params,
      outcome (validate_model_parameters Registry.MODEL_CONFIGS "gpt-4" kwargs)
      = Return params
      ∧ is_Some (params !! "top_p")
      ∧ "top_p" ∈ supported_parameters config.
Proof.
  intros config kwargs.
  assert (Hcfg : Registry.MODEL_CONFIGS !! "gpt-4" = Some config)
    by (vm_compute; reflexivity).
  split; [exact Hcfg|].
  destruct (validate_returns Registry.MODEL_CONFIGS "gpt-4" config kwargs Hcfg)
    as [params Hret]; [right; reflexivity|].
  exists params. split; [exact Hret|].
  assert (Hk : is_Some (params !! "top_p")).
  { rewrite (validate_lookup _ _ _ _ _ "top_p" Hcfg Hret) by discriminate.
    vm_compute. eexists. reflexivity. }
  split; [exact Hk|].
  exact (validated_parameters_are_supported "gpt-4" config kwargs params
           "top_p" Hcfg Hret Hk).
Defined.

(** X2.  A supported parameter of the caller comes back with the
    caller's value, whatever the table: the only name that is not copied
    is a [max_tokens] that the model wants renamed. *)
Theorem supported_parameters_pass_through configs model config kwargs
    params k x :
  configs !! model = Some config →
  outcome (validate_model_parameters configs model kwargs) = Return params →
  kwargs !! k = Some x →
  k ∈ supported_parameters config →
  ¬ (k = "max_tokens"
     ∧ "max_completion_tokens" ∈ supported_parameters config) →
  params !! k = Some x.
Proof.
  intros Hcfg Hret Hk Hsup Hren.
  destruct (decide (k = "temperature")) as [->|Hne].
  - destruct (validate_temperature_lookup _ _ _ _ _ Hcfg Hret) as [Ht _].
    rewrite Ht, Hk. apply elem_of_true in Hsup. by rewrite Hsup.
  - rewrite (validate_lookup _ _ _ _ _ k Hcfg Hret Hne), Hk.
    assert (Hcopied : copied (supported_parameters config) k = true);
      [|by rewrite Hcopied].
    unfold copied. apply andb_true_iff. split; [|by apply elem_of_true].
    apply negb_true_iff, andb_false_iff.
    destruct (decide (k = "max_tokens")) as [->|Hk'].
    + right. apply bool_decide_eq_false. intros Hin. by apply Hren.
    + left. by apply bool_decide_eq_false.
Qed.

Lemma supported_parameters_pass_through_witness :
  let config := {| max_temperature := 1.0; default_temperature := 0.0;
                   supported_parameters :=
                     ["max_completion_tokens"; "top_p"; "frequency_penalty";
                      "presence_penalty"];
                   tokenizer := "gpt-4"; provider := Some "openrouter" |} in
  let kwargs : gmap string value :=
    {["top_p" := VNum 0.5; "max_tokens" := VNum 256]} in
  Registry.MODEL_CONFIGS !! "o3" = Some config
  ∧ kwargs !! "top_p" = Some (VNum 0.5)
  ∧ ∃ params,
      outcome (validate_model_parameters Registry.MODEL_CONFIGS "o3" kwargs)
      = Return params
      ∧ params !! "top_p" = Some (VNum 0.5).
Proof.
  intros config kwargs.
  assert (Hcfg : Registry.MODEL_CONFIGS !! "o3" = Some config)
    by (vm_compute; reflexivity).
  assert (Hk : kwargs !! "top_p" = Some (VNum 0.5))
    by (vm_compute; reflexivity).
  split; [exact Hcfg|]. split; [exact Hk|].
  destruct (validate_returns Registry.MODEL_CONFIGS "o3" config kwargs Hcfg)
    as [params Hret]; [right; reflexivity|].
  exists params. split; [exact Hret|].
  apply (supported_parameters_pass_through Registry.MODEL_CONFIGS "o3" config
           kwargs params "top_p" (VNum 0.5) Hcfg Hret Hk).
  - apply elem_of_true. vm_compute. reflexivity.
  - intros [Habs _]. discriminate Habs.
Defined.

(** The loop prints nothing but its warning, and only for a parameter of
    the caller that it reports. *)
Lemma parameter_loop_printed model sp v0 kwargs :
  Forall (λ msg, ∃ param,
            msg = WarnUnsupportedParameter param model sp
            ∧ is_Some (kwargs !! param) ∧ reported sp param = true)
    (printed (parameter_loop model sp v0 kwargs)).
Proof.
  unfold parameter_loop.
  apply (map_fold_weak_ind (λ r m,
    (∃ v, outcome r = Return v)
    ∧ Forall (λ msg, ∃ param,
                msg = WarnUnsupportedParameter param model sp
                ∧ is_Some (m !! param) ∧ reported sp param = true)
        (printed r))).
  - split; [by eexists|]. constructor.
  - intros i x m r Hi [[v Hv] Hw]. destruct r as [o w]. cbn in Hv, Hw.
    subst o.
    assert (Hmono : Forall (λ msg, ∃ param,
                msg = WarnUnsupportedParameter param model sp
                ∧ is_Some (<[i:=x]> m !! param) ∧ reported sp param = true)
              w).
    { eapply Forall_impl; [exact Hw|]. intros msg (param & -> & Hp & Hr).
      exists param. split; [done|]. split; [|done].
      destruct (decide (i = param)) as [->|Hne].
      - rewrite lookup_insert_eq. by eexists.
      - by rewrite lookup_insert_ne. }
    unfold mbind, py_bind. cbn [outcome printed].
    unfold reported.
    destruct (bool_decide (i = "max_tokens")
              && bool_decide ("max_completion_tokens" ∈ sp)) eqn:Hskip;
      cbn [outcome printed mret py_ret].
    { split; [by eexists|]. by rewrite app_nil_r. }
    destruct (bool_decide (i ∈ sp)) eqn:Hin; cbn [outcome printed mret py_ret].
    { split; [by eexists|]. by rewrite app_nil_r. }
    split; [by eexists|]. cbn. apply Forall_app. split; [done|].
    repeat constructor. exists i. split; [done|].
    rewrite lookup_insert_eq. split; [by eexists|].
    unfold reported. by rewrite Hskip, Hin.
Qed.

(** X3.  What [validate_model_parameters] prints when it returns: one kind
    of line only, the warning about an unsupported parameter, and it
    prints it for a parameter exactly when the caller passed it, the
    model does not list it, and it is not a [max_tokens] that was
    renamed. *)
Theorem unsupported_parameters_are_reported configs model config kwargs
    params :
  configs !! model = Some config →
  outcome (validate_model_parameters configs model kwargs) = Return params →
  let sp := supported_parameters config in
  let out := printed (validate_model_parameters configs model kwargs) in
  Forall (λ msg, ∃ param, msg = WarnUnsupportedParameter param model sp) out
  ∧ ∀ param,
      WarnUnsupportedParameter param model sp ∈ out
      ↔ is_Some (kwargs !! param) ∧ (param ∉ sp)
        ∧ ¬ (param = "max_tokens" ∧ "max_completion_tokens" ∈ sp).
Proof.
  intros Hcfg Hret sp out.
  pose proof (validate_after_temperature configs model config kwargs Hcfg)
    as Hv. cbn zeta in Hv. fold sp in Hv.
  assert (Hloop : ∃ v0,
    validate_model_parameters configs model kwargs
    = parameter_loop model sp v0 kwargs).
  { destruct (bool_decide ("temperature" ∈ sp)).
    - destruct (kwargs !! "temperature") as [[t| |]|].
      + destruct ((0 <=? t)%float && (t <=? max_temperature config)%float).
        * eexists. exact Hv.
        * rewrite Hv in Hret. discriminate Hret.
      + rewrite Hv in Hret. discriminate Hret.
      + rewrite Hv in Hret. discriminate Hret.
      + eexists. exact Hv.
    - eexists. exact Hv. }
  destruct Hloop as [v0 Heq]. subst out. rewrite Heq. split.
  - eapply Forall_impl; [apply parameter_loop_printed|].
    intros msg (param & -> & _). by exists param.
  - intros param.
    destruct (parameter_loop_spec model sp v0 kwargs)
      as (v & w & -> & _ & Hw). cbn [printed]. rewrite Hw.
    unfold reported. split.
    + intros [Hp [Hskip Hin]%andb_true_iff]. split; [done|].
      apply negb_true_iff, bool_decide_eq_false in Hin.
      apply negb_true_iff, andb_false_iff in Hskip. split; [done|].
      intros [-> Hmct%elem_of_true].
      destruct Hskip as [Hskip|Hskip]; [done|congruence].
    + intros (Hp & Hin & Hskip). split; [done|].
      apply andb_true_iff. split.
      * apply negb_true_iff, andb_false_iff.
        destruct (decide (param = "max_tokens")) as [->|Hne].
        -- right. apply bool_decide_eq_false. intros Hmct. by apply Hskip.
        -- left. by apply bool_decide_eq_false.
      * by apply negb_true_iff, bool_decide_eq_false.
Qed.

Lemma unsupported_parameters_are_reported_witness :
  let config := {| max_temperature := 2.0; default_temperature := 0.0;
                   supported_parameters :=
                     ["temperature"; "max_tokens"; "top_p";
                      "frequency_penalty"; "presence_penalty"];
                   tokenizer := "gpt-4"; provider := Some "openai" |} in
  let kwargs : gmap string value := {["seed" := VNum 7]} in
  Registry.MODEL_CONFIGS !! "gpt-4" = Some config
  ∧ WarnUnsupportedParameter "seed" "gpt-4" (supported_parameters config)
    ∈ printed (validate_model_parameters Registry.MODEL_CONFIGS "gpt-4"
                 kwargs).
Proof.
  intros config kwargs.
  assert (Hcfg : Registry.MODEL_CONFIGS !! "gpt-4" = Some config)
    by (vm_compute; reflexivity).
  split; [exact Hcfg|].
  destruct (validate_returns Registry.MODEL_CONFIGS "gpt-4" config kwargs Hcfg)
    as [params Hret]; [right; reflexivity|].
  destruct (unsupported_parameters_are_reported Registry.MODEL_CONFIGS "gpt-4"
              config kwargs params Hcfg Hret) as [_ Hiff].
  apply Hiff. split; [vm_compute; eexists; reflexivity|]. split.
  - intros Hin%elem_of_true. vm_compute in Hin. discriminate Hin.
  - intros [Habs _]. discriminate Habs.
Defined.

(** Where a model of the source's table lists [temperature], its default
    temperature passes the range check. *)
Lemma registry_default_temperature :
  map_Forall (λ _ config,
    bool_decide ("temperature" ∈ supported_parameters config) = true →
    ((0 <=? default_temperature config)
     && (default_temperature config <=? max_temperature config))%float
    = true)
    Registry.MODEL_CONFIGS.
Proof.
  eapply (bool_decide_unpack (map_Forall _ Registry.MODEL_CONFIGS)).
  vm_compute. exact I.
Qed.

Lemma validate_unregistered configs model kwargs :
  configs !! model = None →
  validate_model_parameters configs model kwargs = raise (UnknownModel model).
Proof.
  intros Hcfg. unfold validate_model_parameters, get_model_config.
  by rewrite Hcfg.
Qed.

(** For any table: validating the validated parameters again returns
    them unchanged and prints nothing, when the model lists a name for
    [max_tokens] and its default temperature is in range. *)
Lemma validation_fixed_point configs model config kwargs params :
  configs !! model = Some config →
  let sp := supported_parameters config in
  ("max_completion_tokens" ∈ sp ∨ "max_tokens" ∈ sp) →
  ("temperature" ∈ sp →
     ((0 <=? default_temperature config)
      && (default_temperature config <=? max_temperature config))%float
     = true) →
  outcome (validate_model_parameters configs model kwargs) = Return params →
  validate_model_parameters configs model params = mret params.
Proof.
  intros Hcfg sp Hlisted Hdefault Hret.
  assert (Hsupported : ∀ k, is_Some (params !! k) → k ∈ sp).
  { intros k Hk.
    destruct (validated_parameters_general _ _ _ _ _ _ Hcfg Hret Hk)
      as [Hin|(-> & Hmct & _)]; [done|].
    destruct Hlisted as [H|H]; [destruct (Hmct H)|exact H]. }
  destruct (validate_temperature_lookup _ _ _ _ _ Hcfg Hret) as [Htemp Hrange].
  fold sp in Htemp, Hrange.
  destruct (max_tokens_general _ _ _ _ _ Hcfg Hret) as (_ & Hmax & _).
  fold sp in Hmax.
  pose proof (validate_after_temperature configs model config params Hcfg)
    as Hv. cbn zeta in Hv. fold sp in Hv.
  (* the temperature stage of the second run *)
  assert (Hstage : ∃ v1 : gmap string value,
    (∀ k, v1 !! k = if bool_decide (k = "temperature")
                    then params !! "temperature" else None)
    ∧ validate_model_parameters configs model params
      = parameter_loop model sp
          match params !! "max_tokens" with
          | Some max_tokens =>
              if bool_decide ("max_completion_tokens" ∈ sp)
              then <["max_completion_tokens" := max_tokens]> v1
              else <["max_tokens" := max_tokens]> v1
          | None => v1
          end params).
  { rewrite Htemp in Hv |- *.
    destruct (bool_decide ("temperature" ∈ sp)) eqn:Hsup.
    - apply elem_of_true in Hsup.
      assert (∃ t, default (VNum (default_temperature config))
                     (kwargs !! "temperature") = VNum t
                   ∧ ((0 <=? t) && (t <=? max_temperature config))%float
                     = true) as (t & Ht & Hin).
      { destruct (kwargs !! "temperature") as [x|] eqn:Hx.
        - destruct (Hrange Hsup x eq_refl) as (t & -> & Hin). by exists t.
        - eexists. split; [done|]. by apply Hdefault. }
      rewrite Ht in Hv |- *. rewrite Hin in Hv.
      eexists. split; [|exact Hv]. intros k.
      destruct (bool_decide_reflect (k = "temperature")) as [->|Hk].
      + apply lookup_insert_eq.
      + by rewrite lookup_insert_ne.
    - exists ∅. split; [|exact Hv]. intros k. rewrite lookup_empty.
      by destruct (bool_decide (k = "temperature")). }
  destruct Hstage as (v1 & Hv1 & ->).
  destruct (parameter_loop_spec model sp
              match params !! "max_tokens" with
              | Some max_tokens =>
                  if bool_decide ("max_completion_tokens" ∈ sp)
                  then <["max_completion_tokens" := max_tokens]> v1
                  else <["max_tokens" := max_tokens]> v1
              | None => v1
              end params) as (v & w & Hloop & Hlook & _).
  pose proof (parameter_loop_printed model sp
              match params !! "max_tokens" with
              | Some max_tokens =>
                  if bool_decide ("max_completion_tokens" ∈ sp)
                  then <["max_completion_tokens" := max_tokens]> v1
                  else <["max_tokens" := max_tokens]> v1
              | None => v1
              end params) as Hw.
  rewrite Hloop in Hw |- *. cbn [printed] in Hw.
  assert (w = []) as ->.
  { destruct w as [|msg w]; [done|]. exfalso.
    apply Forall_cons_1 in Hw as [(param & _ & Hp & Hr) _].
    apply Hsupported, elem_of_true in Hp. unfold reported in Hr.
    rewrite Hp in Hr. cbn in Hr. by rewrite andb_false_r in Hr. }
  unfold mret, py_ret. f_equal. f_equal. apply map_eq. intros k.
  rewrite Hlook.
  destruct (params !! k) as [x|] eqn:Hk.
  - assert (Hcopied : copied sp k = true); [|by rewrite Hcopied].
    unfold copied. apply andb_true_iff. split.
    + apply negb_true_iff, andb_false_iff.
      destruct (decide (k = "max_tokens")) as [->|Hne].
      * right. apply bool_decide_eq_false. apply Hmax. by eexists.
      * left. by apply bool_decide_eq_false.
    + apply elem_of_true, Hsupported. by eexists.
  - assert (Hv1k : v1 !! k = None).
    { rewrite Hv1.
      by destruct (bool_decide_reflect (k = "temperature")) as [->|Hkt]. }
    destruct (params !! "max_tokens") as [mt|] eqn:Hmt; [|done].
    assert (bool_decide ("max_completion_tokens" ∈ sp) = false) as Hmct
      by (apply bool_decide_eq_false, Hmax; by eexists).
    rewrite Hmct.
    rewrite lookup_insert_ne; [done|]. intros <-. congruence.
Qed.

(** X4.  Over the source's table the validated parameters are a fixed
    point: validating them again returns them unchanged and prints
    nothing. *)
Theorem validation_is_idempotent model kwargs params :
  outcome (validate_model_parameters Registry.MODEL_CONFIGS model kwargs)
  = Return params →
  validate_model_parameters Registry.MODEL_CONFIGS model params
  = mret params.
Proof.
  intros Hret.
  destruct (Registry.MODEL_CONFIGS !! model) as [config|] eqn:Hcfg.
  - pose proof registry_shape as Hshape.
    apply (map_Forall_lookup_1 _ _ _ _ Hshape) in Hcfg as Hlisted.
    destruct Hlisted as [Hlisted _].
    pose proof (map_Forall_lookup_1 _ _ _ _ registry_default_temperature
                  Hcfg) as Hdefault. cbn beta in Hdefault.
    apply (validation_fixed_point _ _ config kwargs _ Hcfg); [| |exact Hret].
    + apply orb_true_iff in Hlisted as [H|H]; apply elem_of_true in H;
        [left; exact H|right; exact H].
    + intros Hin%elem_of_true. exact (Hdefault Hin).
  - rewrite (validate_unregistered _ _ _ Hcfg) in Hret. discriminate Hret.
Qed.

Lemma validation_is_idempotent_witness :
  let kwargs : gmap string value :=
    {["max_tokens" := VNum 256; "seed" := VNum 7]} in
  ∃ params,
    outcome (validate_model_parameters Registry.MODEL_CONFIGS "o3" kwargs)
    = Return params
    ∧ validate_model_parameters Registry.MODEL_CONFIGS "o3" params
      = mret params.
Proof.
  intros kwargs.
  destruct (Registry.MODEL_CONFIGS !! "o3") as [config|] eqn:Hcfg;
    [|vm_compute in Hcfg; discriminate Hcfg].
  destruct (validate_returns Registry.MODEL_CONFIGS "o3" config kwargs Hcfg)
    as [params Hret]; [right; reflexivity|].
  exists params. split; [exact Hret|].
  exact (validation_is_idempotent "o3" kwargs params Hret).
Defined.

(** ** Routing *)

(** X5.  Over the source's table [send_to_llm] hands a model other than
    [o3-pro] to [send_to_openai] when the provider of its entry is
    [openai] and to [send_to_openrouter] otherwise; for an identifier
    that has no entry it raises the unknown-model [ValueError], whatever
    the senders would do. *)
Theorem send_to_llm_routes_by_provider (send_to_o3_pro send_to_openai
    send_to_openrouter : sender) prompt model temperature
    enable_token_counting kwargs :
  model ≠ "o3-pro" →
  send_to_llm Registry.MODEL_CONFIGS send_to_o3_pro send_to_openai
    send_to_openrouter prompt model temperature enable_token_counting kwargs
  = match Registry.MODEL_CONFIGS !! model with
    | None => raise (UnknownModel model)
    | Some config =>
        if bool_decide (provider config = Some "openai")
        then send_to_openai prompt model temperature enable_token_counting
               kwargs
        else send_to_openrouter prompt model temperature
               enable_token_counting kwargs
    end.
Proof.
  intros Hmodel. unfold send_to_llm, is_openai_model, get_model_config.
  rewrite (bool_decide_eq_false_2 _ Hmodel).
  destruct (Registry.MODEL_CONFIGS !! model) as [config|] eqn:Hcfg;
    [|reflexivity].
  destruct (map_Forall_lookup_1 _ _ _ _ registry_shape Hcfg) as [_ [p Hp]].
  rewrite !mret_bind, Hp. change (default "openai" (Some p)) with p.
  destruct (bool_decide_reflect (p = "openai")) as [->|Hne].
  - reflexivity.
  - rewrite (bool_decide_eq_false_2 (Some p = Some "openai"))
      by (intros [= ?]; by apply Hne).
    reflexivity.
Qed.

Lemma send_to_llm_routes_by_provider_witness :
  let o3_pro : sender := λ _ _ _ _ _, mret (str "o3-pro") in
  let openai : sender := λ _ _ _ _ _, mret (str "openai") in
  let openrouter : sender := λ _ _ _ _ _, mret (str "openrouter") in
  "openai/gpt-5" ≠ "o3-pro"
  ∧ send_to_llm Registry.MODEL_CONFIGS o3_pro openai openrouter
      (str "prompt") "openai/gpt-5" None true ∅
    = mret (str "openrouter").
Proof.
  intros o3_pro openai openrouter.
  assert (Hmodel : "openai/gpt-5" ≠ "o3-pro") by discriminate.
  split; [exact Hmodel|].
  rewrite (send_to_llm_routes_by_provider o3_pro openai openrouter
             (str "prompt") "openai/gpt-5" None true ∅ Hmodel).
  vm_compute. reflexivity.
Defined.

(** ** Model information *)

(** Every model of the source's table has a pricing entry, and every
    price is positive or zero. *)
Lemma registry_priced :
  map_Forall (λ model _, is_Some (Registry.MODEL_PRICING !! model))
    Registry.MODEL_CONFIGS.
Proof.
  eapply (bool_decide_unpack (map_Forall _ Registry.MODEL_CONFIGS)).
  vm_compute. exact I.
Qed.

Lemma registry_prices_not_negative :
  map_Forall (λ _ p, Qle_bool 0 (input p) && Qle_bool 0 (output p) = true)
    Registry.MODEL_PRICING.
Proof.
  eapply (bool_decide_unpack (map_Forall _ Registry.MODEL_PRICING)).
  vm_compute. exact I.
Qed.

(** X6.  Over the source's tables [get_model_info] raises the
    unknown-model [ValueError] for an identifier without an entry, and
    for every other identifier it returns: the entry has a provider, so
    no subscript fails, and the model has a pricing entry, so the
    pricing is never the empty [dict].  The information repeats the
    entry that [get_model_config] returns. *)
Theorem get_model_info_total model :
  match Registry.MODEL_CONFIGS !! model with
  | None =>
      get_model_info Registry.MODEL_PRICING Registry.MODEL_CONFIGS model
      = raise (UnknownModel model)
  | Some config =>
      ∃ info pricing,
        get_model_info Registry.MODEL_PRICING Registry.MODEL_CONFIGS model
        = mret info
        ∧ get_model_config Registry.MODEL_CONFIGS model
          = mret (info_config info)
        ∧ info_model info = model
        ∧ info_config info = config
        ∧ Registry.MODEL_PRICING !! model = Some pricing
        ∧ info_pricing info = Some pricing
        ∧ info_supported_parameters info = supported_parameters config
        ∧ info_max_temperature info = max_temperature config
        ∧ info_default_temperature info = default_temperature config
        ∧ provider config = Some (info_provider info)
  end.
Proof.
  unfold get_model_info, get_model_config.
  destruct (Registry.MODEL_CONFIGS !! model) as [config|] eqn:Hcfg;
    [|reflexivity].
  destruct (map_Forall_lookup_1 _ _ _ _ registry_shape Hcfg) as [_ [p Hp]].
  destruct (map_Forall_lookup_1 _ _ _ _ registry_priced Hcfg)
    as [pricing Hpricing].
  rewrite Hp, Hpricing. eexists _, pricing. split; [reflexivity|].
  cbn. repeat split; reflexivity.
Qed.

(** ** Cost *)

Lemma Qc_of_Z_le (a b : Z) :
  (a ≤ b)%Z → (Q2Qc (inject_Z a) <= Q2Qc (inject_Z b))%Qc.
Proof.
  intros Hab. unfold Qcle, Q2Qc, this. rewrite !Qred_correct.
  by rewrite <- Zle_Qle.
Qed.

Lemma Qc_of_Q_not_negative (q : Q) :
  Qle_bool 0 q = true → (Q2Qc 0 <= Q2Qc q)%Qc.
Proof.
  intros Hq%Qle_bool_iff. unfold Qcle, Q2Qc, this. by rewrite !Qred_correct.
Qed.

Lemma per_thousand_le (a b : Z) (price : Q) :
  (a ≤ b)%Z → Qle_bool 0 price = true →
  (Q2Qc (inject_Z a) / Q2Qc (inject_Z 1000) * Q2Qc price
   <= Q2Qc (inject_Z b) / Q2Qc (inject_Z 1000) * Q2Qc price)%Qc.
Proof.
  intros Hab Hprice.
  apply Qcmult_le_compat_r; [|by apply Qc_of_Q_not_negative].
  unfold Qcdiv. apply Qcmult_le_compat_r; [by apply Qc_of_Z_le|].
  unfold Qcle. vm_compute. discriminate.
Qed.

Lemma per_thousand_zero (price : Q) :
  (Q2Qc (inject_Z 0) / Q2Qc (inject_Z 1000) * Q2Qc price)%Qc = Q2Qc 0.
Proof.
  assert (Q2Qc (inject_Z 0) / Q2Qc (inject_Z 1000) = Q2Qc 0)%Qc as ->
    by (apply Qc_is_canon; vm_compute; reflexivity).
  change (Q2Qc 0) with 0%Qc. ring.
Qed.

(** X7.  Over exact arithmetic and the source's pricing table the cost is
    zero for no tokens and does not decrease when a token count grows,
    for every model identifier; so it is never negative. *)
Theorem calculate_cost_monotone_exact model (a a' b b' : Z) :
  (0 ≤ a ≤ a')%Z → (0 ≤ b ≤ b')%Z →
  ∃ zero x y : Qc,
    outcome (calculate_cost Registry.MODEL_PRICING exact 0 0 model)
    = Return zero
    ∧ outcome (calculate_cost Registry.MODEL_PRICING exact a b model)
      = Return x
    ∧ outcome (calculate_cost Registry.MODEL_PRICING exact a' b' model)
      = Return y
    ∧ zero = Q2Qc 0 ∧ (zero <= x)%Qc ∧ (x <= y)%Qc.
Proof.
  intros [Ha Ha'] [Hb Hb'].
  destruct (pricing_applies model) as [p Hp].
  pose proof (map_Forall_lookup_1 _ _ _ _ registry_prices_not_negative Hp)
    as [Hin Hout]%andb_true_iff.
  eexists _, _, _.
  split; [exact (calculate_cost_value _ exact 0 0 model p Hp)|].
  split; [exact (calculate_cost_value _ exact a b model p Hp)|].
  split; [exact (calculate_cost_value _ exact a' b' model p Hp)|].
  cbn [exact add mul div of_int of_literal].
  assert (Hzero : (Q2Qc (inject_Z 0) / Q2Qc (inject_Z 1000) * Q2Qc (input p)
                   + Q2Qc (inject_Z 0) / Q2Qc (inject_Z 1000)
                     * Q2Qc (output p))%Qc = Q2Qc 0).
  { rewrite !per_thousand_zero. apply Qc_is_canon. vm_compute. reflexivity. }
  split; [exact Hzero|]. rewrite Hzero.
  split.
  - rewrite <- Hzero. apply Qcplus_le_compat; by apply per_thousand_le.
  - apply Qcplus_le_compat; by apply per_thousand_le.
Qed.

Lemma calculate_cost_monotone_exact_witness :
  (0 ≤ 1 ≤ 3)%Z ∧ (0 ≤ 0 ≤ 2)%Z
  ∧ ∃ x y : Qc,
      outcome (calculate_cost Registry.MODEL_PRICING exact 1 0 "gpt-4")
      = Return x
      ∧ outcome (calculate_cost Registry.MODEL_PRICING exact 3 2 "gpt-4")
        = Return y
      ∧ (x <= y)%Qc.
Proof.
  assert (Ha : (0 ≤ 1 ≤ 3)%Z) by lia. assert (Hb : (0 ≤ 0 ≤ 2)%Z) by lia.
  split; [exact Ha|]. split; [exact Hb|].
  destruct (calculate_cost_monotone_exact "gpt-4" 1 3 0 2 Ha Hb)
    as (zero & x & y & _ & Hx & Hy & _ & _ & Hxy).
  exists x, y. split; [exact Hx|]. split; [exact Hy|exact Hxy].
Defined.

(** X8.  For a model of the source's table [calculate_cost] finds the
    model's own prices: it prints no warning and does not fall back to
    the prices of gpt-4. *)
Theorem registered_model_has_own_prices (A : arithmetic) model config
    input_tokens output_tokens :
  Registry.MODEL_CONFIGS !! model = Some config →
  ∃ p, Registry.MODEL_PRICING !! model = Some p
    ∧ calculate_cost Registry.MODEL_PRICING A input_tokens output_tokens model
      = mret (add A
                (mul A (div A (of_int A input_tokens) (of_int A 1000))
                   (of_literal A (input p)))
                (mul A (div A (of_int A output_tokens) (of_int A 1000))
                   (of_literal A (output p)))).
Proof.
  intros Hcfg.
  destruct (map_Forall_lookup_1 _ _ _ _ registry_priced Hcfg) as [p Hp].
  exists p. split; [exact Hp|].
  unfold calculate_cost, price.
  rewrite bool_decide_eq_false_2; last first.
  { intros Hdom. apply Hdom, elem_of_dom. by eexists. }
  rewrite mret_bind, Hp, !mret_bind. reflexivity.
Qed.

Lemma registered_model_has_own_prices_witness :
  ∃ config p,
    Registry.MODEL_CONFIGS !! "o3-pro" = Some config
    ∧ Registry.MODEL_PRICING !! "o3-pro" = Some p
    ∧ printed (calculate_cost Registry.MODEL_PRICING binary64 10 20 "o3-pro")
      = [].
Proof.
  destruct (Registry.MODEL_CONFIGS !! "o3-pro") as [config|] eqn:Hcfg;
    [|vm_compute in Hcfg; discriminate Hcfg].
  destruct (registered_model_has_own_prices binary64 "o3-pro" config 10 20
              Hcfg) as (p & Hp & Hcost).
  exists config, p. split; [reflexivity|]. split; [exact Hp|].
  rewrite Hcost. reflexivity.
Defined.

(** ** Token counts *)

(** X9.  [count_tokens] announces every fallback.  When the tokenizer of
    the model works, the call is that count and prints nothing of its
    own.  When it fails with [e], the warning that names the model and
    [e] is printed; and when the gpt-4 tokenizer fails too, with [e'],
    the error about [e'] and the estimate that is returned are printed
    as well. *)
Theorem count_tokens_announces_fallback configs (encoding : Type)
    (encoding_for_model : string → py encoding)
    (encode : encoding → pystr → py (list Z)) text model :
  let tokenize name :=
    enc ← encoding_for_model name;
    tokens ← encode enc text;
    mret (Z.of_nat (length tokens)) in
  let tier1 := config ← get_model_config configs model;
               tokenize (tokenizer config) in
  let r := count_tokens configs encoding encoding_for_model encode text
             model in
  (∀ k, outcome tier1 = Return k → r = tier1)
  ∧ (∀ e, outcome tier1 = Raise e →
       WarnTokenizerFallback model e ∈ printed r
       ∧ (∀ k, outcome (tokenize "gpt-4") = Return k →
            ∀ msg, msg ∈ printed r →
              msg ∈ printed tier1 ∨ msg = WarnTokenizerFallback model e
              ∨ msg ∈ printed (tokenize "gpt-4"))
       ∧ (∀ e', outcome (tokenize "gpt-4") = Raise e' →
            ErrorGpt4Tokenizer e' ∈ printed r
            ∧ RoughEstimation (Z.of_nat (length text) `div` 4) ∈ printed r
            ∧ outcome r = Return (Z.of_nat (length text) `div` 4)%Z)).
Proof.
  intros tokenize tier1 r. split.
  - intros k Hk. exact (try_except_return _ _ k Hk).
  - intros e He. subst r. unfold count_tokens.
    rewrite (try_except_raise _ _ e He).
    fold (tokenize "gpt-4"). cbn [outcome printed].
    destruct (tokenize "gpt-4") as [[k|e'] w2] eqn:Hgpt4.
    + split; [|split; [|done]].
      * cbn. set_solver.
      * intros ? _ msg. cbn. set_solver.
    + split; [|split; [done|]].
      * cbn. set_solver.
      * intros ? [= <-]. cbn. split; [|split; [|done]]; set_solver.
Qed.

End HandlerInvariants.

(** ** The prompt generator *)

Module OpenRouterSpec.
Import Json OpenRouter PyLemmas.

Lemma getitem_single key v :
  getitem (JObject [(str key, v)]) key = mret v.
Proof.
  unfold getitem, dict_literal. cbn [foldl fst snd].
  by rewrite lookup_insert_eq.
Qed.

(** With an API key and an answer whose first choice has text content,
    the call returns what the cascade returns, and the fallback verdict
    when the cascade raises. *)
Lemma call_with_content `{!Interpreter} self prompt model content :
  truthy (api_key self) = true →
  outcome (_call_openrouter_api (answers (mret (chat_completion content)))
             self prompt model)
  = match outcome (parse_content content (or_ model (OpenRouter.model self)))
    with
    | Return d => Return d
    | Raise _ => Return (_generate_fallback_response self)
    end.
Proof.
  intros Hkey. unfold _call_openrouter_api. rewrite Hkey. cbn [negb].
  rewrite outcome_try_except. unfold answers, chat_completion.
  rewrite outcome_bind. cbn [outcome mret py_ret ok negb json_].
  rewrite outcome_bind. cbn [outcome mret py_ret].
  rewrite outcome_bind, getitem_single. cbn [outcome mret py_ret].
  rewrite outcome_bind. cbn [outcome mret py_ret getitem0].
  rewrite outcome_bind, getitem_single. cbn [outcome mret py_ret].
  rewrite outcome_bind, getitem_single. cbn [outcome mret py_ret].
  by destruct (outcome (parse_content _ _)).
Qed.

Lemma error_verdict_lookup model :
  error_verdict model !! str "False Positive" = Some (JString (str "ERROR"))
  ∧ error_verdict model !! str "Sanitization Found?"
    = Some (JString (str "ERROR"))
  ∧ error_verdict model !! str "Attack Feasible?"
    = Some (JString (str "ERROR"))
  ∧ error_verdict model !! str "Confidence" = Some (JString (str "ERROR"))
  ∧ error_verdict model !! str "model_used" = Some (JString model).
Proof. repeat split; vm_compute; reflexivity. Qed.

(** X11.  The first stage returns any JSON object as it is, with [model_used]
    set to the model of the call: when [json.loads] returns an object
    for the content (which it does not when the content runs into a
    limit of the interpreter), the four required fields are not looked
    for, so a field is in the verdict exactly when the object has it,
    and a [model_used] of the object is overwritten. *)
Theorem json_object_returned_unvalidated `{!Interpreter} self prompt model content members :
  truthy (api_key self) = true →
  loads content = Return (JObject members) →
  let m := or_ model (OpenRouter.model self) in
  let r := _call_openrouter_api (answers (mret (chat_completion content)))
             self prompt model in
  outcome r = Return (<[str "model_used" := JString m]> (dict_literal members))
  ∧ field_of r "model_used" = Some (JString m)
  ∧ ∀ name, str name ≠ str "model_used" →
      field_of r name = dict_literal members !! str name.
Proof.
  intros Hkey Hloads m r.
  assert (Hr : outcome r
               = Return (<[str "model_used" := JString m]> (dict_literal members))).
  { subst r. rewrite call_with_content by done.
    unfold parse_content. rewrite outcome_try_except_on.
    unfold direct_parse, json_loads. by rewrite Hloads. }
  split; [done|]. unfold field_of. rewrite Hr. split.
  - by rewrite lookup_insert_eq.
  - intros name Hname. by rewrite lookup_insert_ne.
Qed.

Lemma json_object_returned_unvalidated_witness :
  let interpreter : Interpreter := cpython in
  let self := {| api_key := Some (str "key"); model := str "default";
                 base_url := str "https://openrouter.ai/api/v1" |} in
  let r := _call_openrouter_api (answers (mret (chat_completion (str "{}"))))
             self (str "prompt") (Some (str "m")) in
  truthy (api_key self) = true
  ∧ loads (str "{}") = Return (JObject [])
  ∧ outcome r = Return {[ str "model_used" := JString (str "m") ]}
  ∧ field_of r "False Positive" = None.
Proof.
  intros interpreter self r.
  assert (Hkey : truthy (api_key self) = true) by reflexivity.
  assert (Hloads : loads (str "{}") = Return (JObject []))
    by (vm_compute; reflexivity).
  destruct (json_object_returned_unvalidated self (str "prompt")
              (Some (str "m")) (str "{}") [] Hkey Hloads) as (Hr & _ & Hf).
  split; [exact Hkey|]. split; [exact Hloads|]. split; [exact Hr|].
  subst r. rewrite (Hf "False Positive") by discriminate. reflexivity.
Defined.

(** X13.  When the whole cascade fails on the content ([json.loads] raises
    [JSONDecodeError] on it, no fenced block parses, no brace-delimited candidate has the four
    fields, and the four field patterns are not all found), the call
    returns the verdict whose four required fields are [ERROR] and whose
    [model_used] is the model passed to the call. *)
Theorem total_failure_gives_sentinel `{!Interpreter} self prompt model content :
  truthy (api_key self) = true →
  model ≠ [] →
  loads content = Raise JSONDecodeError →
  outcome (fenced_block_parse content model) = Return None →
  outcome (loose_object_scan content model) = Return None →
  outcome (field_recovery content model) = Return None →
  let r := _call_openrouter_api (answers (mret (chat_completion content)))
             self prompt (Some model) in
  outcome r = Return (error_verdict model)
  ∧ field_of r "False Positive" = Some (JString (str "ERROR"))
  ∧ field_of r "Sanitization Found?" = Some (JString (str "ERROR"))
  ∧ field_of r "Attack Feasible?" = Some (JString (str "ERROR"))
  ∧ field_of r "Confidence" = Some (JString (str "ERROR"))
  ∧ field_of r "model_used" = Some (JString model).
Proof.
  intros Hkey Hmodel H1 H2 H3 H4 r.
  assert (Hr : outcome r = Return (error_verdict model)).
  { subst r. rewrite call_with_content by done.
    destruct model as [|c model]; [done|]. cbn [or_].
    unfold parse_content. rewrite outcome_try_except_on.
    unfold direct_parse, json_loads. rewrite H1. cbn.
    rewrite !outcome_bind, H2, outcome_bind, H3, outcome_bind, H4. done. }
  split; [done|]. unfold field_of. rewrite Hr.
  destruct (error_verdict_lookup model) as (? & ? & ? & ? & ?). done.
Qed.

Lemma total_failure_gives_sentinel_witness :
  let interpreter : Interpreter := cpython in
  let self := {| api_key := Some (str "key"); model := str "default";
                 base_url := str "https://openrouter.ai/api/v1" |} in
  let content := str "not json at all" in
  let model := str "anthropic/claude-3-5-sonnet" in
  truthy (api_key self) = true
  ∧ model ≠ []
  ∧ loads content = Raise JSONDecodeError
  ∧ outcome (_call_openrouter_api (answers (mret (chat_completion content)))
               self (str "prompt") (Some model))
    = Return (error_verdict model).
Proof.
  intros interpreter self content model.
  assert (Hkey : truthy (api_key self) = true) by reflexivity.
  assert (Hmodel : model ≠ []) by discriminate.
  assert (H1 : loads content = Raise JSONDecodeError)
    by (vm_compute; reflexivity).
  split; [exact Hkey|]. split; [exact Hmodel|]. split; [exact H1|].
  apply (total_failure_gives_sentinel self (str "prompt") model content
           Hkey Hmodel H1); vm_compute; reflexivity.
Defined.

(** X14.  On the error exits outside the cascade the call returns the
    fallback verdict, whose [model_used] is the generator's own model and
    not the model passed to the call: when there is no API key; when the
    request raises; when the answer is not ok; when the body of the
    answer cannot be read; when the content parses as JSON that is not
    an object; and when [json.loads] raises on the content anything
    but [JSONDecodeError], as it does at a limit of the interpreter. *)
Theorem error_exits_use_default_model `{!Interpreter} self prompt model :
  let fallback := _generate_fallback_response self in
  fallback !! str "model_used" = Some (JString (OpenRouter.model self))
  ∧ (truthy (api_key self) = false →
       ∀ requests_post,
         _call_openrouter_api requests_post self prompt model = mret fallback)
  ∧ (truthy (api_key self) = true →
       (∀ e, outcome (_call_openrouter_api (λ _, raise e) self prompt model)
             = Return fallback)
       ∧ (∀ body,
            outcome (_call_openrouter_api
                       (λ _, mret {| ok := false; json_ := body |})
                       self prompt model) = Return fallback)
       ∧ (∀ e, outcome (_call_openrouter_api (answers (raise e))
                          self prompt model) = Return fallback)
       ∧ (∀ content v,
            loads content = Return v →
            (∀ members, v ≠ JObject members) →
            outcome (_call_openrouter_api
                       (answers (mret (chat_completion content)))
                       self prompt model) = Return fallback)
       ∧ (∀ content e,
            loads content = Raise e →
            e ≠ JSONDecodeError →
            outcome (_call_openrouter_api
                       (answers (mret (chat_completion content)))
                       self prompt model) = Return fallback)).
Proof.
  intros fallback. split.
  { subst fallback. unfold _generate_fallback_response.
    by destruct (error_verdict_lookup (OpenRouter.model self))
      as (_ & _ & _ & _ & ?). }
  split.
  { intros Hkey post. unfold _call_openrouter_api. by rewrite Hkey. }
  intros Hkey. split; [|split; [|split; [|split]]].
  - intros e. unfold _call_openrouter_api. by rewrite Hkey.
  - intros body. unfold _call_openrouter_api. by rewrite Hkey.
  - intros e. unfold _call_openrouter_api. by rewrite Hkey.
  - intros content v Hv Hobj. rewrite call_with_content by done.
    unfold parse_content. rewrite outcome_try_except_on.
    unfold direct_parse, json_loads. rewrite Hv.
    destruct v as [| | | | |ms]; try done. by destruct (Hobj ms).
  - intros content e He Hne. rewrite call_with_content by done.
    unfold parse_content. rewrite outcome_try_except_on.
    unfold direct_parse, json_loads. rewrite He.
    by destruct e.
Qed.

Lemma error_exits_use_default_model_witness :
  let interpreter : Interpreter := cpython in
  let self := {| api_key := Some (str "key"); model := str "default";
                 base_url := str "https://openrouter.ai/api/v1" |} in
  truthy (api_key self) = true
  ∧ loads (str "[1, 2]")
    = Return (JArray [JNumber (str "1"); JNumber (str "2")])
  ∧ field_of (_call_openrouter_api
                (answers (mret (chat_completion (str "[1, 2]"))))
                self (str "prompt") (Some (str "other")))
             "model_used"
    = Some (JString (str "default")).
Proof.
  intros interpreter self.
  assert (Hkey : truthy (api_key self) = true) by reflexivity.
  assert (Hv : loads (str "[1, 2]")
               = Return (JArray [JNumber (str "1"); JNumber (str "2")]))
    by (vm_compute; reflexivity).
  split; [exact Hkey|]. split; [exact Hv|].
  destruct (error_exits_use_default_model self (str "prompt")
              (Some (str "other"))) as (Hused & _ & Hexits).
  destruct (Hexits Hkey) as (_ & _ & _ & Hcontent & _).
  unfold field_of. rewrite (Hcontent _ _ Hv) by discriminate. exact Hused.
Defined.

(** ** What every verdict holds *)

Lemma update_model_used_spec parsed_response model d :
  outcome (update_model_used parsed_response model) = Return d →
  ∃ members,
    parsed_response = JObject members
    ∧ d = <[str "model_used" := JString model]> (dict_literal members).
Proof.
  destruct parsed_response as [| | | | |members]; cbn; try done.
  intros [= <-]. by exists members.
Qed.

Lemma direct_parse_spec `{!Interpreter} content model d :
  outcome (direct_parse content model) = Return d →
  ∃ members,
    loads content = Return (JObject members)
    ∧ d = <[str "model_used" := JString model]> (dict_literal members).
Proof.
  unfold direct_parse, json_loads. rewrite outcome_bind.
  destruct (loads content) as [v|e]; cbn; [|done].
  intros (members & -> & ->)%update_model_used_spec. by exists members.
Qed.

Lemma fenced_block_parse_spec `{!Interpreter} content model d :
  outcome (fenced_block_parse content model) = Return (Some d) →
  ∃ json_content members,
    group_1 (Re.search fenced_block content) = Some json_content
    ∧ loads json_content = Return (JObject members)
    ∧ d = <[str "model_used" := JString model]> (dict_literal members).
Proof.
  unfold fenced_block_parse. rewrite outcome_try_except_on.
  destruct (group_1 _) as [json_content|] eqn:Hgroup; [|done].
  unfold json_loads. rewrite outcome_bind.
  destruct (loads json_content) as [v|e] eqn:Hloads; cbn;
    [|by destruct e].
  rewrite outcome_bind.
  destruct (outcome (update_model_used v model)) as [d'|e] eqn:Hupd.
  - cbn. intros [= <-].
    apply update_model_used_spec in Hupd as (members & -> & ->).
    by exists json_content, members.
  - by destruct e.
Qed.

(** A verdict of the third stage is a candidate of the scan that parses
    to an object holding the four required fields. *)
Lemma loose_object_loop_spec `{!Interpreter} json_matches model d :
  outcome (loose_object_loop json_matches model) = Return (Some d) →
  ∃ json_str members,
    json_str ∈ json_matches
    ∧ loads (strip json_str) = Return (JObject members)
    ∧ Forall (λ field, is_Some (dict_literal members !! field))
        required_fields
    ∧ d = <[str "model_used" := JString model]> (dict_literal members).
Proof.
  induction json_matches as [|json_str json_matches IH]; [done|].
  cbn [loose_object_loop]. rewrite outcome_bind, outcome_try_except_on.
  unfold json_loads. rewrite outcome_bind.
  destruct (loads (strip json_str)) as [v|e] eqn:Hloads;
    cbn [outcome mret py_ret raise].
  - rewrite outcome_bind.
    destruct v as [| | | | |members]; try done.
    unfold has_required_fields. cbn [outcome mret py_ret].
    destruct (forallb _ required_fields) eqn:Hall;
      cbn [outcome mret py_ret update_model_used].
    + rewrite outcome_bind. cbn [outcome mret py_ret].
      intros [= <-]. exists json_str, members.
      split; [by left|]. split; [done|]. split; [|done].
      apply Forall_forall. intros field Hfield.
      rewrite forallb_forall in Hall.
      apply list_elem_of_In, Hall in Hfield.
      by apply bool_decide_eq_true in Hfield.
    + intros (j & ms & ? & ? & ? & ?)%IH. exists j, ms.
      split; [by right|done].
  - destruct (is_JSONDecodeError e); [|done].
    cbn [outcome mret py_ret].
    intros (j & ms & ? & ? & ? & ?)%IH. exists j, ms.
    split; [by right|done].
Qed.

Lemma loose_object_scan_spec `{!Interpreter} content model d :
  outcome (loose_object_scan content model) = Return (Some d) →
  Forall (λ field, is_Some (d !! field)) required_fields
  ∧ d !! str "model_used" = Some (JString model).
Proof.
  unfold loose_object_scan. rewrite outcome_try_except.
  destruct (outcome (loose_object_loop _ model)) as [r|e] eqn:Hloop; [|done].
  intros [= ->].
  apply loose_object_loop_spec in Hloop as (j & ms & _ & _ & Hall & ->).
  split; [|by rewrite lookup_insert_eq].
  eapply Forall_impl; [exact Hall|]. intros field [v Hv].
  destruct (decide (str "model_used" = field)) as [<-|Hne].
  - rewrite lookup_insert_eq. by eexists.
  - rewrite lookup_insert_ne by done. by eexists.
Qed.

Lemma loose_object_scan_returns `{!Interpreter} content model :
  ∃ r, outcome (loose_object_scan content model) = Return r.
Proof.
  unfold loose_object_scan. rewrite outcome_try_except.
  destruct (outcome (loose_object_loop _ model)); by eexists.
Qed.

Lemma field_recovery_spec content model d :
  outcome (field_recovery content model) = Return (Some d) →
  ∃ fp sf af cf,
    group_1 (Re.search (field_pattern "False Positive") content) = Some fp
    ∧ group_1 (Re.search (field_pattern "Sanitization Found?") content)
      = Some sf
    ∧ group_1 (Re.search (field_pattern "Attack Feasible?") content)
      = Some af
    ∧ group_1 (Re.search (field_pattern "Confidence") content) = Some cf
    ∧ d = dict_literal
            [(str "False Positive", JString fp);
             (str "Sanitization Found?", JString sf);
             (str "Attack Feasible?", JString af);
             (str "Confidence", JString cf);
             (str "model_used", JString model)].
Proof.
  unfold field_recovery. rewrite outcome_try_except.
  destruct (group_1 (Re.search (field_pattern "False Positive") content))
    as [fp|] eqn:Hfp; [|done].
  destruct (group_1 (Re.search (field_pattern "Sanitization Found?") content))
    as [sf|] eqn:Hsf; [|done].
  destruct (group_1 (Re.search (field_pattern "Attack Feasible?") content))
    as [af|] eqn:Haf; [|done].
  destruct (group_1 (Re.search (field_pattern "Confidence") content))
    as [cf|] eqn:Hcf; [|done].
  cbn. intros [= <-]. by exists fp, sf, af, cf.
Qed.

Lemma field_recovery_returns content model :
  ∃ r, outcome (field_recovery content model) = Return r.
Proof.
  unfold field_recovery. rewrite outcome_try_except.
  destruct (outcome _); by eexists.
Qed.

Lemma recovered_fields_lookup (fp sf af cf model : pystr) :
  let d := dict_literal
             [(str "False Positive", JString fp);
              (str "Sanitization Found?", JString sf);
              (str "Attack Feasible?", JString af);
              (str "Confidence", JString cf);
              (str "model_used", JString model)] in
  d !! str "False Positive" = Some (JString fp)
  ∧ d !! str "Sanitization Found?" = Some (JString sf)
  ∧ d !! str "Attack Feasible?" = Some (JString af)
  ∧ d !! str "Confidence" = Some (JString cf)
  ∧ d !! str "model_used" = Some (JString model).
Proof. repeat split; vm_compute; reflexivity. Qed.

Lemma recovered_fields_complete (fp sf af cf model : pystr) :
  Forall (λ field,
            is_Some (dict_literal
                       [(str "False Positive", JString fp);
                        (str "Sanitization Found?", JString sf);
                        (str "Attack Feasible?", JString af);
                        (str "Confidence", JString cf);
                        (str "model_used", JString model)] !! field))
    required_fields.
Proof.
  destruct (recovered_fields_lookup fp sf af cf model)
    as (H1 & H2 & H3 & H4 & _).
  unfold required_fields. repeat constructor; by eexists.
Qed.

(** The cascade after its first two stages: the verdict comes from the
    third stage, from the fourth, or is the sentinel. *)
Lemma parse_content_past_fenced `{!Interpreter} content model :
  loads content = Raise JSONDecodeError →
  outcome (fenced_block_parse content model) = Return None →
  outcome (parse_content content model)
  = match outcome (loose_object_scan content model) with
    | Return (Some d) => Return d
    | _ =>
        match outcome (field_recovery content model) with
        | Return (Some d) => Return d
        | _ => Return (error_verdict model)
        end
    end.
Proof.
  intros Hloads Hfenced. unfold parse_content.
  rewrite outcome_try_except_on. unfold direct_parse, json_loads.
  rewrite Hloads. cbn. rewrite outcome_bind, Hfenced, outcome_bind.
  destruct (loose_object_scan_returns content model) as [[d|] ->]; [done|].
  rewrite outcome_bind.
  by destruct (field_recovery_returns content model) as [[d|] ->].
Qed.

(** X12.  Once [json.loads] raises [JSONDecodeError] on the content and the
    second stage finds no fenced block that parses, the verdict of the
    cascade has the four required fields, and its [model_used] is the
    model of the call. *)
Theorem verdict_complete_past_fenced_stage `{!Interpreter} content model :
  loads content = Raise JSONDecodeError →
  outcome (fenced_block_parse content model) = Return None →
  ∃ d, outcome (parse_content content model) = Return d
       ∧ Forall (λ field, is_Some (d !! field)) required_fields
       ∧ d !! str "model_used" = Some (JString model).
Proof.
  intros Hloads Hfenced.
  rewrite (parse_content_past_fenced _ _ Hloads Hfenced).
  destruct (outcome (loose_object_scan content model)) as [[d|]|e] eqn:H3.
  - exists d. split; [done|]. exact (loose_object_scan_spec _ _ _ H3).
  - destruct (outcome (field_recovery content model)) as [[d|]|e] eqn:H4.
    + exists d. split; [done|].
      apply field_recovery_spec in H4 as (fp & sf & af & cf & _ & _ & _ & _ & ->).
      split; [apply recovered_fields_complete|].
      apply recovered_fields_lookup.
    + exists (error_verdict model). split; [done|].
      split; [apply recovered_fields_complete|].
      apply error_verdict_lookup.
    + destruct (field_recovery_returns content model) as [? ?]. congruence.
  - destruct (loose_object_scan_returns content model) as [? ?]. congruence.
Qed.

Lemma verdict_complete_past_fenced_stage_witness :
  let interpreter : Interpreter := cpython in
  let content := text "The finding {'False Positive': 'no'} is real." in
  loads content = Raise JSONDecodeError
  ∧ outcome (fenced_block_parse content (str "m")) = Return None
  ∧ ∃ d, outcome (parse_content content (str "m")) = Return d
         ∧ Forall (λ field, is_Some (d !! field)) required_fields.
Proof.
  intros interpreter content.
  assert (H1 : loads content = Raise JSONDecodeError)
    by (vm_compute; reflexivity).
  assert (H2 : outcome (fenced_block_parse content (str "m")) = Return None)
    by (vm_compute; reflexivity).
  split; [exact H1|]. split; [exact H2|].
  destruct (verdict_complete_past_fenced_stage content (str "m") H1 H2)
    as (d & Hd & Hall & _).
  exists d. split; [exact Hd|exact Hall].
Defined.

(** A verdict of the cascade names the model of the call. *)
Lemma parse_content_model_used `{!Interpreter} content m d :
  outcome (parse_content content m) = Return d →
  d !! str "model_used" = Some (JString m).
Proof.
  unfold parse_content. rewrite outcome_try_except_on.
  destruct (outcome (direct_parse content m)) as [d1|e] eqn:H1.
  { intros [= ->]. apply direct_parse_spec in H1 as (ms & _ & ->).
    by rewrite lookup_insert_eq. }
  destruct (is_JSONDecodeError e); [|done].
  rewrite outcome_bind.
  destruct (outcome (fenced_block_parse content m)) as [[d2|]|e2] eqn:H2;
    [| |done].
  { cbn. intros [= ->]. apply fenced_block_parse_spec in H2 as (? & ms & _ & _ & ->).
    by rewrite lookup_insert_eq. }
  rewrite outcome_bind.
  destruct (outcome (loose_object_scan content m)) as [[d3|]|e3] eqn:H3;
    [| |done].
  { cbn. intros [= ->]. by apply loose_object_scan_spec in H3 as [_ ?]. }
  rewrite outcome_bind.
  destruct (outcome (field_recovery content m)) as [[d4|]|e4] eqn:H4;
    [| |done].
  { cbn. intros [= ->].
    apply field_recovery_spec in H4 as (fp & sf & af & cf & _ & _ & _ & _ & ->).
    apply recovered_fields_lookup. }
  cbn. intros [= <-]. apply error_verdict_lookup.
Qed.

(** The call returns the fallback verdict or a verdict of the cascade. *)
Lemma call_outcome `{!Interpreter} requests_post self prompt model :
  ∃ d,
    outcome (_call_openrouter_api requests_post self prompt model) = Return d
    ∧ (d = _generate_fallback_response self
       ∨ ∃ content,
           outcome (parse_content content (or_ model (OpenRouter.model self)))
           = Return d).
Proof.
  unfold _call_openrouter_api.
  destruct (truthy (api_key self)); cbn [negb];
    [|exists (_generate_fallback_response self); split; [done|by left]].
  rewrite outcome_try_except.
  set (m := or_ model (OpenRouter.model self)).
  match goal with
  | |- context [outcome (?body)] =>
      destruct (outcome body) as [d|e] eqn:Hbody
  end; cbn;
    [|exists (_generate_fallback_response self); split; [done|by left]].
  exists d. split; [done|].
  revert Hbody. rewrite outcome_bind.
  destruct (outcome (requests_post _)) as [response|e]; [|done].
  destruct (ok response); cbn [negb]; [|intros [= <-]; by left].
  rewrite outcome_bind. destruct (outcome (json_ response)) as [result|]; [|done].
  rewrite outcome_bind. destruct (outcome (getitem result _)) as [choices|]; [|done].
  rewrite outcome_bind. destruct (outcome (getitem0 choices)) as [choice|]; [|done].
  rewrite outcome_bind. destruct (outcome (getitem choice _)) as [message|]; [|done].
  rewrite outcome_bind. destruct (outcome (getitem message _)) as [content|]; [|done].
  destruct content as [| | |content| |]; try done.
  intros Hparse. right. by exists content.
Qed.

(** X10.  Whatever the endpoint does, the call returns a verdict and does not
    raise; the verdict names a model under [model_used]: the model of the
    call, or on the error exits the model of the generator. *)
Theorem call_always_returns_verdict `{!Interpreter} requests_post self prompt model :
  ∃ d,
    outcome (_call_openrouter_api requests_post self prompt model) = Return d
    ∧ (d !! str "model_used"
         = Some (JString (or_ model (OpenRouter.model self)))
       ∨ d !! str "model_used" = Some (JString (OpenRouter.model self))).
Proof.
  destruct (call_outcome requests_post self prompt model)
    as (d & Hd & [->|[content Hparse]]);
    exists d || exists (_generate_fallback_response self);
    (split; [exact Hd|]).
  - right. unfold _generate_fallback_response.
    by destruct (error_verdict_lookup (OpenRouter.model self))
      as (_ & _ & _ & _ & ?).
  - left. by apply (parse_content_model_used content).
Qed.

End OpenRouterSpec.

(** ** The model list, the prompts and the run over the projects *)

Module PromptGeneratorSpec.
Import Json OpenRouter PyLemmas OpenRouterSpec.

(** *** The model list *)

(** X15.  [_get_available_models] returns the [data] member of a good
    answer and the default list otherwise, and does not raise, whatever
    the endpoint does.  Without an API key it returns the default list
    and asks nothing.  With a key, when the request returns an answer
    whose status is not an error and whose body is an object, it
    returns the [data] member of the body, or the empty list when the
    body has no such member; when the request raises, the status is an
    error, the body cannot be read or the body is not an object, it
    returns the default list. *)
Theorem available_models_never_raises requests_get self :
  let asked :=
    requests_get {| get_url := base_url self ++ str "/models";
                    get_authorization :=
                      str "Bearer " ++ default [] (api_key self);
                    get_timeout := 10 |} in
  let models := _get_available_models requests_get self in
  (truthy (api_key self) = false → models = mret _get_default_models)
  ∧ (truthy (api_key self) = true →
       (∀ response members,
          outcome asked = Return response →
          ok response = true →
          outcome (json_ response) = Return (JObject members) →
          outcome models
          = Return (default (JArray []) (dict_literal members !! str "data")))
       ∧ (∀ e, outcome asked = Raise e →
               outcome models = Return _get_default_models)
       ∧ (∀ response,
            outcome asked = Return response →
            ok response = false →
            outcome models = Return _get_default_models)
       ∧ (∀ response e,
            outcome asked = Return response →
            outcome (json_ response) = Raise e →
            outcome models = Return _get_default_models)
       ∧ (∀ response v,
            outcome asked = Return response →
            outcome (json_ response) = Return v →
            (∀ members, v ≠ JObject members) →
            outcome models = Return _get_default_models))
  ∧ ∃ result, outcome models = Return result.
Proof.
  intros asked models. subst models. unfold _get_available_models.
  fold asked. split; [by intros ->|].
  split.
  - intros ->. cbn [negb]. rewrite outcome_try_except, outcome_bind.
    split; [|split; [|split; [|split]]].
    + intros response members -> Hok Hjson. rewrite outcome_bind.
      unfold raise_for_status. rewrite Hok. cbn [outcome mret py_ret].
      by rewrite outcome_bind, Hjson.
    + by intros e ->.
    + intros response -> Hok. rewrite outcome_bind.
      unfold raise_for_status. by rewrite Hok.
    + intros response e -> Hjson. rewrite outcome_bind.
      unfold raise_for_status.
      destruct (ok response); cbn [outcome mret py_ret raise]; [|done].
      by rewrite outcome_bind, Hjson.
    + intros response v -> Hjson Hv. rewrite outcome_bind.
      unfold raise_for_status.
      destruct (ok response); cbn [outcome mret py_ret raise]; [|done].
      rewrite outcome_bind, Hjson.
      destruct v as [| | | | |members]; try done. by destruct (Hv members).
  - destruct (truthy (api_key self)); cbn [negb]; [|by eexists].
    rewrite outcome_try_except.
    match goal with
    | |- context [outcome (?body)] => destruct (outcome body)
    end; by eexists.
Qed.

(** *** Prompts *)

Lemma starts_with_app l s : Re.starts_with l (l ++ s) = Some s.
Proof. induction l as [|c l IH]; [done|]. cbn. by rewrite N.eqb_refl. Qed.

Lemma replace_from_skip l rest old new :
  replace_from (length l) (l ++ rest) old new = replace_from 0 rest old new.
Proof. induction l as [|c l IH]; [done|]. exact IH. Qed.

Lemma replace_from_occurrence c old rest new :
  replace_from 0 ((c :: old) ++ rest) (c :: old) new
  = new ++ replace_from 0 rest (c :: old) new.
Proof.
  cbn [app replace_from].
  change (c :: old ++ rest) with ((c :: old) ++ rest).
  rewrite starts_with_app.
  replace (length (c :: old) - 1) with (length old) by (cbn [length]; lia).
  by rewrite replace_from_skip.
Qed.

Lemma replace_from_other c old a s new :
  Forall (λ x, x ≠ c) a →
  replace_from 0 (a ++ s) (c :: old) new
  = a ++ replace_from 0 s (c :: old) new.
Proof.
  induction 1 as [|x a Hx _ IH]; [done|].
  cbn [app replace_from Re.starts_with].
  rewrite (proj2 (N.eqb_neq c x)) by done. by rewrite IH.
Qed.

(** X16.  [_generate_prompt] puts the code context where the template has
    the placeholder, and nowhere else: text without a brace is copied,
    the placeholder that follows it is replaced, and the inserted
    context is not scanned again, so a placeholder inside the code
    context stays as it is. *)
Theorem generate_prompt_fills_placeholder before after code_context :
  free_of "{" before →
  _generate_prompt before code_context = before
  ∧ _generate_prompt (before ++ str "{code_context}" ++ after) code_context
    = before ++ code_context ++ _generate_prompt after code_context.
Proof.
  intros Hfree.
  assert (Hother : Forall (λ x, x ≠ ord "{") before).
  { eapply Forall_impl; [exact Hfree|]. intros x Hx ->. apply Hx. by left. }
  unfold _generate_prompt, replace.
  change (str "{code_context}") with (ord "{" :: str "code_context}").
  split.
  - rewrite <- (app_nil_r before) at 1.
    rewrite replace_from_other by done. apply app_nil_r.
  - rewrite replace_from_other by done. by rewrite replace_from_occurrence.
Qed.

Lemma generate_prompt_fills_placeholder_witness :
  free_of "{" (str "Review: ")
  ∧ _generate_prompt (str "Review: {code_context} Answer in JSON.")
      (str "x = {code_context}")
    = str "Review: x = {code_context} Answer in JSON.".
Proof.
  assert (Hfree : free_of "{" (str "Review: ")).
  { unfold free_of. apply (bool_decide_unpack _). vm_compute. exact I. }
  split; [exact Hfree|].
  destruct (generate_prompt_fills_placeholder (str "Review: ")
              (str " Answer in JSON.") (str "x = {code_context}") Hfree)
    as [_ Hfill].
  etransitivity; [exact Hfill|]. vm_compute. reflexivity.
Defined.

(** *** The run over the projects *)

Lemma or_idempotent model default_ :
  or_ (Some (or_ model default_)) default_ = or_ model default_.
Proof. destruct model as [[|c s]|]; cbn; by destruct default_. Qed.

Lemma update_metadata_lookup (d : dict) (v1 v2 v3 v4 v5 v6 v7 : json) :
  let r := update d [(str "project_slug", v1); (str "CVE", v2);
                     (str "CWE", v3); (str "alert_name", v4);
                     (str "context_file", v5); (str "ai_provider", v6);
                     (str "timestamp", v7)] in
  r !! str "project_slug" = Some v1
  ∧ r !! str "CVE" = Some v2
  ∧ r !! str "CWE" = Some v3
  ∧ r !! str "alert_name" = Some v4
  ∧ r !! str "context_file" = Some v5
  ∧ r !! str "ai_provider" = Some v6
  ∧ r !! str "timestamp" = Some v7
  ∧ r !! str "model_used" = d !! str "model_used".
Proof.
  cbv zeta. unfold update. cbn [foldl fst snd].
  repeat split;
    repeat first
      [ apply lookup_insert_eq
      | rewrite lookup_insert_ne
          by (let H := fresh in intros H; vm_compute in H; discriminate H) ];
    reflexivity.
Qed.

Section Run.

Context `{!Interpreter} (requests_post : request → py response) (Path : Type)
  (path_str stem : Path → pystr) (os_path_exists : pystr → bool)
  (open_read : pystr → py pystr) (path_exists : Path → bool)
  (glob_txt : Path → py (list Path)) (mkdir : Path → py unit)
  (timestamp : nat → pystr) (sleep : float → py unit)
  (projects_df : list ProjectRow) (available_cwe_templates : gmap pystr pystr)
  (code_contexts_path : pystr → Path) (output_path : Path)
  (output_path_of : pystr → Path).

Abbreviation context_loop :=
  (context_loop requests_post Path path_str stem open_read timestamp sleep).
Abbreviation project_loop :=
  (project_loop requests_post Path path_str stem os_path_exists open_read
     path_exists glob_txt mkdir timestamp sleep available_cwe_templates
     code_contexts_path output_path_of).
Abbreviation process_projects_with_openrouter :=
  (process_projects_with_openrouter requests_post Path path_str stem
     os_path_exists open_read path_exists glob_txt mkdir timestamp sleep
     projects_df available_cwe_templates code_contexts_path output_path
     output_path_of).

Abbreviation result_of := (result_of stem path_str).

Lemma context_loop_spec self context_files template row model delay
    all_results results :
  outcome (context_loop self context_files template row
             (or_ model (OpenRouter.model self)) delay all_results)
  = Return results →
  ∃ new, results = all_results ++ new
         ∧ Forall (result_of self (or_ model (OpenRouter.model self)) row) new.
Proof.
  revert all_results.
  induction context_files as [|context_file context_files IH];
    intros all_results.
  { cbn. intros [= <-]. exists []. by rewrite app_nil_r. }
  cbn [OpenRouter.context_loop]. rewrite outcome_bind.
  destruct (outcome (_read_code_context _ _ open_read context_file))
    as [[|c code_context]|e]; [apply IH| |done].
  rewrite outcome_bind.
  destruct (call_outcome requests_post self
              (_generate_prompt template (c :: code_context))
              (Some (or_ model (OpenRouter.model self)))) as (d & -> & Hd).
  rewrite or_idempotent in Hd.
  assert (Hused : d !! str "model_used"
                    = Some (JString (or_ model (OpenRouter.model self)))
                  ∨ d !! str "model_used"
                    = Some (JString (OpenRouter.model self))).
  { destruct Hd as [->|[content Hparse]].
    - right. unfold _generate_fallback_response.
      by destruct (error_verdict_lookup (OpenRouter.model self))
        as (_ & _ & _ & _ & ?).
    - left. by apply (parse_content_model_used content). }
  rewrite outcome_bind.
  destruct (outcome (if (0 <? delay)%float then sleep delay else mret ()));
    [|done].
  intros (new & -> & Hnew)%IH. eexists (_ :: new).
  split; [by rewrite <- app_assoc|]. constructor; [|done].
  match goal with
  | |- result_of _ _ _ (update d [(_, ?v1); (_, ?v2); (_, ?v3); (_, ?v4);
                                  (_, ?v5); (_, ?v6); (_, ?v7)]) =>
      destruct (update_metadata_lookup d v1 v2 v3 v4 v5 v6 v7)
        as (H1 & H2 & H3 & H4 & H5 & H6 & H7 & H8)
  end.
  split.
  - exists context_file. unfold labelled. rewrite H7. eauto 10.
  - rewrite H8. exact Hused.
Qed.

Lemma project_loop_spec self rows model delay all_results results :
  outcome (project_loop self rows (or_ model (OpenRouter.model self)) delay
             all_results) = Return results →
  ∃ new, results = all_results ++ new
         ∧ Forall (λ r, ∃ row, row ∈ rows
                     ∧ result_of self (or_ model (OpenRouter.model self))
                         row r) new.
Proof.
  revert all_results. induction rows as [|row rows IH]; intros all_results.
  { cbn. intros [= <-]. exists []. by rewrite app_nil_r. }
  assert (Hskip :
    outcome (project_loop self rows (or_ model (OpenRouter.model self)) delay
               all_results) = Return results →
    ∃ new, results = all_results ++ new
           ∧ Forall (λ r, ∃ row0, row0 ∈ row :: rows
                       ∧ result_of self (or_ model (OpenRouter.model self))
                           row0 r) new).
  { intros (new & -> & Hnew)%IH. exists new. split; [done|].
    eapply Forall_impl; [exact Hnew|]. intros r (row0 & ? & ?).
    exists row0. split; [by right|done]. }
  cbn [OpenRouter.project_loop]. rewrite outcome_bind.
  destruct (outcome (_get_cwe_template _ _ _ (cwe_id row)))
    as [[[|c template]|]|e]; [exact Hskip| |exact Hskip|done].
  rewrite outcome_bind.
  destruct (outcome (_get_code_context_files _ _ _ _ (project_slug row)))
    as [[|context_file context_files]|e]; [exact Hskip| |done].
  rewrite outcome_bind.
  destruct (outcome (_create_project_directory _ _ _ (project_slug row)))
    as [project_dir|e]; [|done].
  rewrite outcome_bind.
  destruct (outcome (context_loop self (context_file :: context_files)
                       (c :: template) row (or_ model (OpenRouter.model self))
                       delay all_results)) as [results1|e] eqn:Hctx; [|done].
  apply context_loop_spec in Hctx as (new1 & -> & Hnew1).
  intros (new2 & -> & Hnew2)%IH. exists (new1 ++ new2).
  split; [by rewrite app_assoc|]. apply Forall_app. split.
  - eapply Forall_impl; [exact Hnew1|]. intros r Hr. exists row.
    split; [by left|done].
  - eapply Forall_impl; [exact Hnew2|]. intros r (row0 & ? & ?).
    exists row0. split; [by right|done].
Qed.

Lemma elem_of_head (row : ProjectRow) df n :
  row ∈ head df n →
  ∃ i, df !! i = Some row ∧ ((0 < n)%Z → (Z.of_nat i < n)%Z).
Proof.
  unfold head. destruct (0 <=? n)%Z eqn:Hn.
  - intros (i & Hi)%list_elem_of_lookup_1.
    apply lookup_take_Some in Hi as [Hi Hlt]. exists i. split; [done|]. lia.
  - intros (i & Hi)%list_elem_of_lookup_1.
    apply lookup_take_Some in Hi as [Hi Hlt]. exists i. split; [done|]. lia.
Qed.

(** X17.  Every result of a run is the verdict of a call, labelled for one
    project row and one context file: it holds the slug, the CVE and the
    CWE of the row, the stem and the path of the file, the provider
    [openrouter] and a timestamp; these labels replace what the model
    may have answered under the same names, and the [model_used] of the
    verdict stays.  With a positive [max_projects] the row is among the
    first [max_projects] rows. *)
Theorem every_result_is_labelled self max_projects delay model results :
  outcome (process_projects_with_openrouter self max_projects delay model)
  = Return results →
  Forall (λ r, ∃ (i : nat) (row : ProjectRow) (context_file : Path),
            projects_df !! i = Some row
            ∧ (∀ n, max_projects = Some n → (0 < n)%Z → (Z.of_nat i < n)%Z)
            ∧ labelled row (stem context_file) (path_str context_file) r
            ∧ (r !! str "model_used"
                 = Some (JString (or_ model (OpenRouter.model self)))
               ∨ r !! str "model_used"
                 = Some (JString (OpenRouter.model self))))
    results.
Proof.
  unfold OpenRouter.process_projects_with_openrouter. rewrite outcome_bind.
  destruct (outcome (mkdir output_path)); [|done].
  intros (new & -> & Hnew)%project_loop_spec. cbn [app].
  eapply Forall_impl; [exact Hnew|].
  intros r (row & Hrow & [file Hlabelled] & Hmodel).
  assert (∃ i, projects_df !! i = Some row
               ∧ ∀ n, max_projects = Some n → (0 < n)%Z → (Z.of_nat i < n)%Z)
    as (i & Hi & Hn).
  { destruct max_projects as [n|].
    - destruct (n =? 0)%Z eqn:Hn0.
      + apply list_elem_of_lookup_1 in Hrow as [i Hi]. exists i.
        split; [done|]. intros ? [= <-]. lia.
      + apply elem_of_head in Hrow as (i & Hi & Hlt). exists i.
        split; [done|]. by intros ? [= <-].
    - apply list_elem_of_lookup_1 in Hrow as [i Hi]. exists i.
      split; [done|]. by intros ?. }
  by exists i, row, file.
Qed.


End Run.

Lemma every_result_is_labelled_witness :
  let interpreter : Interpreter := cpython in
  let self := {| api_key := Some (str "key"); model := str "default";
                 base_url := str "https://openrouter.ai/api/v1" |} in
  let row := {| project_slug := str "demo"; cve_id := str "CVE-2020-1";
                cwe_id := str "CWE-022" |} in
  let run :=
    process_projects_with_openrouter (λ _, raise RequestException)
      pystr id id (λ _, true) (λ p, mret p) (λ _, true) (λ d, mret [d])
      (λ _, mret tt) (λ _, str "2025-01-01T00:00:00") (λ _, mret tt)
      [row] {[ str "CWE-022" := str "template.txt" ]} id (str "out") id
      self (Some 1%Z) 0%float None in
  ∃ results,
    outcome run = Return results
    ∧ length results = 1
    ∧ Forall (λ r, r !! str "project_slug" = Some (JString (str "demo"))
                   ∧ r !! str "CVE" = Some (JString (str "CVE-2020-1")))
        results.
Proof.
  intros interpreter self row run.
  assert (Hlen : match outcome run with
                 | Return results => length results = 1
                 | Raise _ => False
                 end) by (vm_compute; reflexivity).
  destruct (outcome run) as [results|e] eqn:Hrun; [|destruct Hlen].
  exists results. split; [reflexivity|]. split; [exact Hlen|].
  pose proof (every_result_is_labelled (λ _, raise RequestException)
      pystr id id (λ _, true) (λ p, mret p) (λ _, true) (λ d, mret [d])
      (λ _, mret tt) (λ _, str "2025-01-01T00:00:00") (λ _, mret tt)
      [row] {[ str "CWE-022" := str "template.txt" ]} id (str "out") id
      self (Some 1%Z) 0%float None results Hrun) as Hall.
  eapply Forall_impl; [exact Hall|].
  intros r (i & row' & file & Hi & _ & Hlabelled & _).
  destruct i as [|i]; [|discriminate Hi]. injection Hi as <-.
  destruct Hlabelled as (Hslug & Hcve & _). split; [exact Hslug|exact Hcve].
Defined.


End PromptGeneratorSpec.

(** ** The [json] library: writing and reading back *)

Module JsonSpec.
Import Json.

Lemma hex_value_hex_digit d : (d < 16)%N → hex_value (hex_digit d) = Some d.
Proof.
  intros Hd.
  assert (d = 0 ∨ d = 1 ∨ d = 2 ∨ d = 3 ∨ d = 4 ∨ d = 5 ∨ d = 6 ∨ d = 7
          ∨ d = 8 ∨ d = 9 ∨ d = 10 ∨ d = 11 ∨ d = 12 ∨ d = 13 ∨ d = 14
          ∨ d = 15)%N as H by lia.
  repeat destruct H as [->|H]; try subst d; reflexivity.
Qed.

Lemma hex_digits_value n :
  (n < 0x10000)%N →
  ((((n / 4096) `mod` 16 * 16 + (n / 256) `mod` 16) * 16
    + (n / 16) `mod` 16) * 16 + n `mod` 16)%N = n.
Proof.
  intros Hn.
  pose proof (N.div_mod n 16 ltac:(done)).
  pose proof (N.div_mod (n / 16) 16 ltac:(done)).
  pose proof (N.div_mod (n / 16 / 16) 16 ltac:(done)).
  pose proof (N.mod_lt n 16 ltac:(done)).
  pose proof (N.mod_lt (n / 16) 16 ltac:(done)).
  pose proof (N.mod_lt (n / 16 / 16) 16 ltac:(done)).
  assert (n / 256 = n / 16 / 16)%N as -> by (by rewrite N.Div0.div_div).
  assert (n / 4096 = n / 16 / 16 / 16)%N as ->
    by (by rewrite !N.Div0.div_div).
  assert (n / 16 / 16 / 16 < 16)%N.
  { rewrite !N.Div0.div_div. apply N.Div0.div_lt_upper_bound. lia. }
  rewrite (N.mod_small (n / 16 / 16 / 16)) by done.
  pose proof (N.div_mod (n / 16 / 16) 16 ltac:(done)). lia.
Qed.

Lemma scan_uXXXX n rest :
  (n < 0x10000)%N →
  ∃ h1 h2 h3 h4,
    uXXXX n ++ rest = ord "\" :: ord "u" :: h1 :: h2 :: h3 :: h4 :: rest
    ∧ decode_uXXXX h1 h2 h3 h4 = Some n.
Proof.
  intros Hn. eexists _, _, _, _. split; [reflexivity|].
  unfold decode_uXXXX.
  rewrite !hex_value_hex_digit by (apply N.mod_lt; done). cbn.
  by rewrite hex_digits_value.
Qed.

Lemma lor_shiftl_small a b k :
  (b < 2 ^ k)%N → N.lor (N.shiftl a k) b = (a * 2 ^ k + b)%N.
Proof.
  intros Hb.
  assert (Hland : N.land (N.shiftl a k) b = 0%N).
  { apply N.bits_inj. intros i. rewrite N.land_spec, N.bits_0.
    destruct (N.lt_ge_cases i k) as [Hi|Hi].
    - by rewrite N.shiftl_spec_low.
    - rewrite <- (N.mod_small b (2 ^ k)) by done.
      rewrite N.mod_pow2_bits_high by done. apply andb_false_r. }
  rewrite <- N.lxor_lor, <- N.add_nocarry_lxor by done.
  by rewrite N.shiftl_mul_pow2.
Qed.

(** The two halves of a surrogate pair. *)
Lemma high_surrogate n :
  (n < 0x100000)%N →
  N.lor 0xd800 (N.land (N.shiftr n 10) 0x3ff) = (0xd800 + n / 1024)%N.
Proof.
  intros Hn. change 0xd800%N with (N.shiftl 54 10).
  change 0x3ff%N with (N.ones 10).
  rewrite N.land_ones, N.shiftr_div_pow2.
  change (2 ^ 10)%N with 1024%N.
  assert (n / 1024 < 1024)%N by (apply N.Div0.div_lt_upper_bound; lia).
  rewrite N.mod_small by done.
  rewrite lor_shiftl_small by done.
  change (2 ^ 10)%N with 1024%N. change (N.shiftl 54 10) with (54 * 1024)%N.
  lia.
Qed.

Lemma low_surrogate n :
  N.lor 0xdc00 (N.land n 0x3ff) = (0xdc00 + n `mod` 1024)%N.
Proof.
  change 0xdc00%N with (N.shiftl 55 10). change 0x3ff%N with (N.ones 10).
  rewrite N.land_ones. change (2 ^ 10)%N with 1024%N.
  rewrite lor_shiftl_small by (by apply N.mod_lt).
  change (2 ^ 10)%N with 1024%N. change (N.shiftl 55 10) with (55 * 1024)%N.
  lia.
Qed.

Lemma surrogates_value n :
  (n < 0x100000)%N →
  (0x10000 + N.lor (N.shiftl (0xd800 + n / 1024 - 0xd800) 10)
                   (0xdc00 + n `mod` 1024 - 0xdc00))%N
  = (0x10000 + n)%N.
Proof.
  intros Hn.
  rewrite (N.add_comm 0xd800), (N.add_comm 0xdc00), !N.add_sub.
  rewrite lor_shiftl_small by (by apply N.mod_lt).
  change (2 ^ 10)%N with 1024%N.
  rewrite (N.div_mod n 1024) at 3 by done. lia.
Qed.

(** Reading back one escaped character. *)
Lemma scanstring_escape c tail :
  scalar c = true →
  scanstring (escape c ++ tail)
  = '(chunks, rest) ← scanstring tail; Some (c :: chunks, rest).
Proof.
  intros Hscalar. unfold escape.
  destruct (c =? ord "\")%N eqn:H1; [apply N.eqb_eq in H1 as ->; done|].
  destruct (c =? QUOTE)%N eqn:H2; [apply N.eqb_eq in H2 as ->; done|].
  destruct (c =? 8)%N eqn:H3; [apply N.eqb_eq in H3 as ->; done|].
  destruct (c =? 12)%N eqn:H4; [apply N.eqb_eq in H4 as ->; done|].
  destruct (c =? 10)%N eqn:H5; [apply N.eqb_eq in H5 as ->; done|].
  destruct (c =? 13)%N eqn:H6; [apply N.eqb_eq in H6 as ->; done|].
  destruct (c =? 9)%N eqn:H7; [apply N.eqb_eq in H7 as ->; done|].
  destruct (in_range (ord " ") (ord "~") c) eqn:Hplain.
  { cbn [app scanstring]. rewrite H2, H1.
    apply andb_true_iff in Hplain as [Hlo%N.leb_le _].
    rewrite (proj2 (N.ltb_ge c 32)) by exact Hlo. done. }
  unfold scalar in Hscalar.
  destruct (c <? 0x10000)%N eqn:Hbmp.
  - apply N.ltb_lt in Hbmp.
    destruct (scan_uXXXX c tail Hbmp) as (h1 & h2 & h3 & h4 & -> & Hdec).
    cbn [scanstring]. change (ord "\" =? QUOTE)%N with false.
    change (ord "\" =? ord "\")%N with true.
    change (ord "u" =? ord "u")%N with true. cbv iota.
    rewrite Hdec. cbn [mbind option_bind].
    assert (in_range 0xd800 0xdbff c = false) as ->; [|done].
    unfold in_range. apply andb_false_iff.
    apply orb_true_iff in Hscalar as [H|H].
    + left. apply N.leb_gt. by apply N.ltb_lt.
    + apply andb_true_iff in H as [H _]. apply N.ltb_lt in H.
      right. apply N.leb_gt. lia.
  - apply N.ltb_ge in Hbmp.
    apply orb_true_iff in Hscalar as [H|H]; [apply N.ltb_lt in H; lia|].
    apply andb_true_iff in H as [_ Hmax]. apply N.ltb_lt in Hmax.
    cbv zeta.
    assert (Hn : (c - 0x10000 < 0x100000)%N) by lia.
    rewrite high_surrogate by exact Hn. rewrite low_surrogate.
    assert (Hq : ((c - 0x10000) / 1024 < 1024)%N)
      by (apply N.Div0.div_lt_upper_bound; lia).
    assert (Hr : ((c - 0x10000) `mod` 1024 < 1024)%N) by (by apply N.mod_lt).
    rewrite <- app_assoc.
    destruct (scan_uXXXX (0xd800 + (c - 0x10000) / 1024)
                (uXXXX (0xdc00 + (c - 0x10000) `mod` 1024) ++ tail)
                ltac:(lia)) as (h1 & h2 & h3 & h4 & -> & Hdec1).
    destruct (scan_uXXXX (0xdc00 + (c - 0x10000) `mod` 1024) tail
                ltac:(lia)) as (g1 & g2 & g3 & g4 & -> & Hdec2).
    cbn [scanstring]. change (ord "\" =? QUOTE)%N with false.
    change (ord "\" =? ord "\")%N with true.
    change (ord "u" =? ord "u")%N with true. cbv iota.
    rewrite Hdec1. cbn [mbind option_bind].
    assert (in_range 0xd800 0xdbff (0xd800 + (c - 0x10000) / 1024) = true)
      as ->.
    { unfold in_range. apply andb_true_iff.
      split; apply N.leb_le; [apply N.le_add_r|lia]. }
    cbn [andb]. rewrite Hdec2. cbn [mbind option_bind].
    assert (in_range 0xdc00 0xdfff (0xdc00 + (c - 0x10000) `mod` 1024) = true)
      as ->.
    { unfold in_range. apply andb_true_iff.
      split; apply N.leb_le; [apply N.le_add_r|lia]. }
    rewrite surrogates_value by exact Hn.
    replace (0x10000 + (c - 0x10000))%N with c by lia. done.
Qed.

(** Reading back an escaped text, up to the closing quote. *)
Lemma scanstring_escaped s rest :
  Forall (λ c, scalar c = true) s →
  scanstring ((s ≫= escape) ++ QUOTE :: rest) = Some (s, rest).
Proof.
  induction 1 as [|c s Hc _ IH]; [done|].
  cbn [mbind list_bind]. change ((c :: s) ≫= escape) with (escape c ++ (s ≫= escape)).
  rewrite <- app_assoc, scanstring_escape by done. by rewrite IH.
Qed.

(** *** Objects *)

Ltac flatten_text :=
  repeat first [rewrite <- app_comm_cons | rewrite <- app_assoc].

Lemma join_cons sep p q ps :
  join sep (p :: q :: ps) = p ++ sep ++ join sep (q :: ps).
Proof. done. Qed.

Lemma dumps_member_text k v :
  dumps_member (k, v)
  = QUOTE :: (k ≫= escape) ++ QUOTE :: ord ":" :: ord " " :: QUOTE
    :: (v ≫= escape) ++ [QUOTE].
Proof.
  unfold dumps_member, encode_basestring_ascii. cbn [fst snd].
  change (str ": ") with [ord ":"; ord " "].
  flatten_text. reflexivity.
Qed.

Lemma join_members_text k v members :
  join (str ", ") (dumps_member <$> (k, v) :: members) ++ [ord "}"]
  = QUOTE :: members_text k v members.
Proof.
  revert k v. induction members as [|[k' v'] members IH]; intros k v.
  - cbn [fmap list_fmap join members_text]. rewrite dumps_member_text.
    flatten_text. reflexivity.
  - cbn [fmap list_fmap] in *. rewrite join_cons, <- !app_assoc, IH.
    rewrite dumps_member_text. cbn [members_text].
    change (str ", ") with [ord ","; ord " "].
    flatten_text. reflexivity.
Qed.

Lemma members_text_length k v members :
  length members < length (members_text k v members).
Proof.
  revert k v. induction members as [|[k' v'] members IH]; intros k v.
  - cbn [members_text]. rewrite !length_app. cbn [length]. lia.
  - cbn [members_text]. rewrite !length_app. cbn [length].
    rewrite !length_app. cbn [length]. specialize (IH k' v'). lia.
Qed.

Lemma skip_ws_head c s : is_ws c = false → skip_ws (c :: s) = c :: s.
Proof. intros H. cbn [skip_ws]. by rewrite H. Qed.

Lemma skip_ws_space s : skip_ws (ord " " :: s) = skip_ws s.
Proof. reflexivity. Qed.

Lemma scan_once_string `{!Interpreter} depth s :
  scan_once depth (QUOTE :: s)
  = '(text, rest) ← decoded (scanstring s); Return (JString text, rest).
Proof. by destruct depth. Qed.

(** Reading one member. *)
Lemma JSONObject_loop_member `{!Interpreter} depth fuel k v c tail :
  Forall (λ c, scalar c = true) k →
  Forall (λ c, scalar c = true) v →
  is_ws c = false →
  JSONObject_loop (scan_once depth) (S fuel)
    ((k ≫= escape) ++ QUOTE :: ord ":" :: ord " " :: QUOTE :: (v ≫= escape)
     ++ QUOTE :: c :: tail)
  = if (c =? ord "}")%N then Return ([(k, JString v)], tail)
    else if (c =? ord ",")%N then
      match skip_ws tail with
      | c1 :: s3 =>
          if (c1 =? QUOTE)%N then
            '(pairs, s4) ← JSONObject_loop (scan_once depth) fuel s3;
            Return ((k, JString v) :: pairs, s4)
          else Raise JSONDecodeError
      | [] => Raise JSONDecodeError
      end
    else Raise JSONDecodeError.
Proof.
  intros Hk Hv Hc. cbn [JSONObject_loop].
  rewrite scanstring_escaped by done. cbn [decoded mbind result_bind].
  rewrite (skip_ws_head (ord ":")) by reflexivity. cbv beta iota.
  rewrite N.eqb_refl, skip_ws_space, (skip_ws_head QUOTE) by reflexivity.
  rewrite scan_once_string, scanstring_escaped by done.
  cbn [decoded mbind result_bind]. by rewrite (skip_ws_head c) by done.
Qed.

(** Reading back the members of a written object. *)
Lemma JSONObject_loop_members `{!Interpreter} depth members k v fuel rest :
  Forall (λ kv, Forall (λ c, scalar c = true) kv.1
                ∧ Forall (λ c, scalar c = true) kv.2) ((k, v) :: members) →
  length members < fuel →
  JSONObject_loop (scan_once depth) fuel (members_text k v members ++ rest)
  = Return (prod_map id JString <$> (k, v) :: members, rest).
Proof.
  revert k v fuel.
  induction members as [|[k' v'] members IH]; intros k v fuel Hscalar Hfuel;
    apply Forall_cons_1 in Hscalar as [[Hk Hv] Hscalar]; cbn in Hk, Hv;
    (destruct fuel as [|fuel]; [cbn in Hfuel; lia|]);
    cbn [members_text]; flatten_text.
  - cbn [app]. rewrite JSONObject_loop_member by done.
    by rewrite N.eqb_refl.
  - rewrite JSONObject_loop_member by done.
    change (ord "," =? ord "}")%N with false. cbv iota.
    rewrite N.eqb_refl, skip_ws_space, (skip_ws_head QUOTE) by reflexivity.
    rewrite N.eqb_refl, IH; [done|done|]. cbn [length] in Hfuel. lia.
Qed.

(** What is written is read back: [loads (dumps members)] is the object
    with these members, whatever the limits of the interpreter. *)
Lemma loads_dumps `{!Interpreter} members :
  Forall (λ kv, Forall (λ c, scalar c = true) kv.1
                ∧ Forall (λ c, scalar c = true) kv.2) members →
  loads (dumps members) = Return (JObject (prod_map id JString <$> members)).
Proof.
  intros Hscalar. destruct members as [|[k v] members]; [done|].
  unfold loads, dumps. change (str "}") with [ord "}"].
  rewrite join_members_text. change (str "{") with [ord "{"]. cbn [app].
  rewrite (skip_ws_head (ord "{")) by reflexivity.
  change (scan_once (S nesting_limit)
            (ord "{" :: QUOTE :: members_text k v members))
    with (JSONObject (scan_once nesting_limit)
            (QUOTE :: members_text k v members)).
  unfold JSONObject. rewrite (skip_ws_head QUOTE) by reflexivity.
  change (QUOTE =? ord "}")%N with false. cbv iota.
  rewrite N.eqb_refl.
  pose proof (JSONObject_loop_members nesting_limit members k v
                (length (members_text k v members)) [] Hscalar
                (members_text_length k v members)) as Hloop.
  rewrite app_nil_r in Hloop. by rewrite Hloop.
Qed.

End JsonSpec.

(** ** Verdicts that come back as they were written *)

Module RoundTripSpec.
Import Json OpenRouter PyLemmas OpenRouterSpec JsonSpec.

Lemma names_scalar :
  Forall (Forall (λ c, scalar c = true))
    [str "False Positive"; str "Sanitization Found?"; str "Attack Feasible?";
     str "Confidence"; str "model_used"].
Proof. apply (bool_decide_unpack _). vm_compute. exact I. Qed.

Lemma members_scalar v :
  fields (Forall (λ c, scalar c = true)) v →
  Forall (λ kv, Forall (λ c, scalar c = true) kv.1
                ∧ Forall (λ c, scalar c = true) kv.2) (members v).
Proof.
  intros (H1 & H2 & H3 & H4 & H5).
  pose proof names_scalar as Hnames.
  apply Forall_cons_1 in Hnames as [N1 Hnames].
  apply Forall_cons_1 in Hnames as [N2 Hnames].
  apply Forall_cons_1 in Hnames as [N3 Hnames].
  apply Forall_cons_1 in Hnames as [N4 Hnames].
  apply Forall_cons_1 in Hnames as [N5 _].
  unfold members, required_members. cbn [app].
  repeat (constructor; [by split|]). constructor.
Qed.

Lemma overlay_as_dict v model :
  <[str "model_used" := JString model]>
    (dict_literal (prod_map id JString <$> members v))
  = as_dict (overlay v model).
Proof.
  unfold as_dict, dict_literal, members, required_members, overlay.
  cbn [fmap list_fmap app foldl prod_map fst snd id false_positive
       sanitization_found attack_feasible confidence model_used].
  apply insert_insert_eq.
Qed.

(** X19.  A verdict written as clean JSON comes back as it was written.
    When the content of the answer is [json.dumps] of a verdict whose
    fields are texts of Unicode scalar values, the call returns that
    verdict, field for field, with [model_used] set to the model of the
    call, whatever the limits of the interpreter. *)
Theorem clean_json_round_trip `{!Interpreter} self prompt model v :
  truthy (api_key self) = true →
  fields (Forall (λ c, scalar c = true)) v →
  outcome (_call_openrouter_api
             (answers (mret (chat_completion (clean_json v))))
             self prompt model)
  = Return (as_dict (overlay v (or_ model (OpenRouter.model self)))).
Proof.
  intros Hkey Hfields. rewrite call_with_content by done.
  unfold parse_content. rewrite outcome_try_except_on.
  unfold direct_parse, json_loads, clean_json.
  rewrite loads_dumps by (by apply members_scalar).
  cbn [mbind py_bind outcome mret py_ret update_model_used].
  by rewrite overlay_as_dict.
Qed.

Lemma clean_json_round_trip_witness :
  let interpreter : Interpreter := cpython in
  let self := {| api_key := Some (str "key"); model := str "default";
                 base_url := str "https://openrouter.ai/api/v1" |} in
  let v := {| false_positive := text "not 'false', rather: true";
              sanitization_found := str "no\path";
              attack_feasible := [0x79; 0x65; 0x73; 0x0a; 0x1f600]%N;
              confidence := [0xe9; 0x4e2d]%N;
              model_used := str "written by the model" |} in
  truthy (api_key self) = true
  ∧ fields (Forall (λ c, scalar c = true)) v
  ∧ field_of (_call_openrouter_api
                (answers (mret (chat_completion (clean_json v))))
                self (str "prompt") (Some (str "m")))
             "Attack Feasible?"
    = Some (JString [0x79; 0x65; 0x73; 0x0a; 0x1f600]%N).
Proof.
  intros interpreter self v.
  assert (Hkey : truthy (api_key self) = true) by reflexivity.
  assert (Hfields : fields (Forall (λ c, scalar c = true)) v).
  { unfold fields. repeat split; apply (bool_decide_unpack _); vm_compute;
      exact I. }
  split; [exact Hkey|]. split; [exact Hfields|].
  unfold field_of.
  rewrite (clean_json_round_trip self (str "prompt") (Some (str "m")) v
             Hkey Hfields).
  vm_compute. reflexivity.
Defined.

End RoundTripSpec.

(** ** The [re] library: what a match is made of *)

Module ReSpec.
Import Re.

Lemma starts_with_Some l s s' : starts_with l s = Some s' ↔ s = l ++ s'.
Proof.
  revert s. induction l as [|a l IH]; intros s; cbn.
  - split; [by intros [= ->]|by intros ->].
  - destruct s as [|b s]; [done|].
    destruct (N.eqb_spec a b) as [->|Hne].
    + rewrite IH. split; [by intros ->|by intros [= ->]].
    + split; [done|]. intros [= ? _]. by destruct Hne.
Qed.

Lemma starts_with_prefix l s : starts_with l (l ++ s) = Some s.
Proof. by apply starts_with_Some. Qed.

Lemma starts_with_other a l b s : a ≠ b → starts_with (a :: l) (b :: s) = None.
Proof. intros Hne. cbn. by rewrite (proj2 (N.eqb_neq a b)). Qed.

Section Runs.
Context {R : Type}.
Implicit Types (p : N → bool) (k : pystr → option R).

(** A greedy run that succeeds stopped somewhere the continuation
    accepts, after characters of the class. *)
Lemma star_sound p s k r :
  star p s k = Some r →
  ∃ a b, s = a ++ b ∧ Forall (λ c, p c = true) a ∧ k b = Some r.
Proof.
  revert r. induction s as [|c s IH]; intros r; cbn.
  - intros Hk. by exists [], [].
  - destruct (p c) eqn:Hc.
    + destruct (star p s k) as [r'|] eqn:Hstar.
      * intros [= <-]. destruct (IH r' eq_refl) as (a & b & -> & Ha & Hk).
        exists (c :: a), b. split; [done|]. split; [by constructor|done].
      * intros Hk. by exists [], (c :: s).
    + intros Hk. by exists [], (c :: s).
Qed.

(** A greedy run succeeds as soon as the continuation accepts one of
    its stops. *)
Lemma star_complete p a b k :
  Forall (λ c, p c = true) a → is_Some (k b) → is_Some (star p (a ++ b) k).
Proof.
  intros Ha Hk. induction Ha as [|c a Hc _ IH]; cbn.
  - destruct b as [|c b]; [done|]. cbn [star]. destruct (p c); [|done].
    by destruct (star p b k).
  - rewrite Hc. by destruct IH as [r ->].
Qed.

(** A greedy run over the whole class stops at its end when the
    continuation accepts there. *)
Lemma star_all p a b k r :
  Forall (λ c, p c = true) a →
  match b with c :: _ => p c = false | [] => True end →
  k b = Some r →
  star p (a ++ b) k = Some r.
Proof.
  intros Ha Hb Hk. induction Ha as [|c a Hc _ IH]; cbn.
  - destruct b as [|c b]; [done|]. cbn [star]. by rewrite Hb.
  - by rewrite Hc, IH.
Qed.

(** A greedy run fails when the continuation refuses every stop. *)
Lemma star_none p s k :
  (∀ a b, s = a ++ b → Forall (λ c, p c = true) a → k b = None) →
  star p s k = None.
Proof.
  intros Hk. destruct (star p s k) as [r|] eqn:Hstar; [|done].
  apply star_sound in Hstar as (a & b & -> & Ha & Hb).
  by rewrite (Hk a b eq_refl Ha) in Hb.
Qed.

(** A lazy run stops at the first place the continuation accepts. *)
Lemma lazy_star_first p a b k r :
  Forall (λ c, p c = true) a →
  (∀ a1 a2, a = a1 ++ a2 → a2 ≠ [] → k (a2 ++ b) = None) →
  k b = Some r →
  lazy_star p (a ++ b) k = Some r.
Proof.
  intros Ha. revert k. induction Ha as [|c a Hc _ IH]; intros k Hnone Hk.
  - cbn [app]. destruct b; cbn; by rewrite Hk.
  - cbn [app lazy_star].
    pose proof (Hnone [] (c :: a) eq_refl ltac:(done)) as H0.
    cbn [app] in H0. rewrite H0, Hc.
    apply IH; [|done]. intros a1 a2 -> Ha2.
    by apply (Hnone (c :: a1) a2).
Qed.

(** A greedy run does not start where the class does not. *)
Lemma star_stop p b k :
  match b with c :: _ => p c = false | [] => True end → star p b k = k b.
Proof. destruct b as [|c b]; [done|]. cbn. by intros ->. Qed.

Lemma star_one p c b k r :
  p c = true →
  match b with x :: _ => p x = false | [] => True end →
  k b = Some r →
  star p (c :: b) k = Some r.
Proof. intros Hc Hb Hk. cbn. by rewrite Hc, star_stop, Hk. Qed.

End Runs.

(** A search that succeeds matched at some position of the text. *)
Lemma search_sound r s m :
  search r s = Some m → ∃ a b, s = a ++ b ∧ match_ r b = Some m.
Proof.
  induction s as [|c s IH]; cbn.
  - destruct (match_ r []) eqn:Hm; [|done]. intros [= <-]. by exists [], [].
  - destruct (match_ r (c :: s)) eqn:Hm.
    + intros [= <-]. by exists [], (c :: s).
    + intros (a & b & -> & Hb)%IH. by exists (c :: a), b.
Qed.

(** A search passes over the positions where there is no match. *)
Lemma search_skip r a s :
  (∀ a1 a2, a = a1 ++ a2 → a2 ≠ [] → match_ r (a2 ++ s) = None) →
  search r (a ++ s) = search r s.
Proof.
  induction a as [|c a IH]; intros Hnone; [done|].
  cbn [app search].
  pose proof (Hnone [] (c :: a) eq_refl ltac:(done)) as H0.
  cbn [app] in H0. rewrite H0.
  apply IH. intros a1 a2 -> Ha2. by apply (Hnone (c :: a1) a2).
Qed.

Lemma search_here r s m : match_ r s = Some m → search r s = Some m.
Proof. intros Hm. destruct s; cbn; by rewrite Hm. Qed.

(** A pattern that opens with a literal does not match where the text
    does not have the first character of the literal. *)
Lemma match_literal_other c l r x s :
  x ≠ c → match_ (Seq (Lit (c :: l)) r) (x :: s) = None.
Proof.
  intros Hx. unfold match_. cbn [exec].
  by rewrite starts_with_other.
Qed.

Lemma match_literal_nil c l r : match_ (Seq (Lit (c :: l)) r) [] = None.
Proof. done. Qed.

(** So a search for it in a text without that character finds
    nothing. *)
Lemma search_literal_absent c l r s :
  c ∉ s → search (Seq (Lit (c :: l)) r) s = None.
Proof.
  induction s as [|x s IH]; intros Hc; [done|].
  cbn [search]. rewrite match_literal_other.
  - apply IH. intros Hin. apply Hc. by right.
  - intros ->. apply Hc. by left.
Qed.

(** Two ways to cut a text, one of them before a character that the
    first piece of the other cannot hold. *)
Lemma split_before {A} (P : A → Prop) (u w a b : list A) y :
  u ++ y :: w = a ++ b → Forall P a → ¬ P y →
  ∃ u', u = a ++ u' ∧ b = u' ++ y :: w.
Proof.
  revert u. induction a as [|x a IH]; intros u Heq Ha Hy.
  - exists u. by split.
  - apply Forall_cons_1 in Ha as [Hx Ha].
    destruct u as [|x' u]; cbn in Heq.
    + injection Heq as -> _. done.
    + injection Heq as -> Heq.
      destruct (IH u Heq Ha Hy) as (u' & -> & ->). by exists u'.
Qed.

Lemma take_consumed {A} (a b : list A) :
  take (length (a ++ b) - length b) (a ++ b) = a.
Proof.
  rewrite length_app.
  replace (length a + length b - length b) with (length a) by lia.
  by rewrite take_app_length.
Qed.

End ReSpec.

(** ** The fourth stage: fields found one by one *)

Module FieldRecoverySpec.
Import Json OpenRouter PyLemmas OpenRouterSpec ReSpec.

Lemma take_prefix {A} (a b : list A) :
  take (length (a ++ b) - length b) (a ++ b) = a.
Proof.
  rewrite length_app. replace (length a + length b - length b) with (length a)
    by lia.
  by rewrite take_app_length.
Qed.

(** What a match of a field pattern is made of. *)
Lemma field_pattern_match name s m :
  Re.match_ (field_pattern name) s = Some m →
  ∃ ws1 ws2 value rest,
    s = quoted (str name) ++ ws1 ++ ord ":" :: ws2 ++ quoted value ++ rest
    ∧ Forall (λ c, isspace c = true) ws1
    ∧ Forall (λ c, isspace c = true) ws2
    ∧ value ≠ [] ∧ (QUOTE ∉ value)
    ∧ Re.group1 m = Some value.
Proof.
  unfold Re.match_, field_pattern. cbn [Re.exec].
  destruct (Re.starts_with (quoted (str name)) s) as [s1|] eqn:H1; [|done].
  apply starts_with_Some in H1 as ->.
  intros (ws1 & s2 & -> & Hws1 & H2)%star_sound.
  destruct (Re.starts_with (str ":") s2) as [s3|] eqn:H3; [|done].
  apply starts_with_Some in H3 as ->.
  apply star_sound in H2 as (ws2 & s4 & -> & Hws2 & H4).
  destruct (Re.starts_with [QUOTE] s4) as [s5|] eqn:H5; [|done].
  apply starts_with_Some in H5 as ->.
  destruct s5 as [|c s6]; [done|].
  destruct (Re.none_of [QUOTE] c) eqn:Hc; [|done].
  apply star_sound in H4 as (a & b & -> & Ha & H6).
  destruct (Re.starts_with [QUOTE] b) as [rest|] eqn:H7; [|done].
  apply starts_with_Some in H7 as ->.
  injection H6 as <-. cbn [Re.group1].
  exists ws1, ws2, (c :: a), rest. split.
  { unfold quoted.
    repeat first [rewrite <- app_comm_cons | rewrite <- app_assoc].
    reflexivity. }
  split; [done|]. split; [done|]. split; [done|]. split.
  - intros Hin. apply elem_of_cons in Hin as [<-|Hin].
    + unfold Re.none_of in Hc. apply bool_decide_eq_true in Hc.
      apply Hc. by left.
    + rewrite Forall_forall in Ha. specialize (Ha _ Hin).
      unfold Re.none_of in Ha. apply bool_decide_eq_true in Ha.
      apply Ha. by left.
  - f_equal. rewrite length_app. cbn [length].
    replace (length a + S (length rest) - length rest) with (S (length a))
      by lia.
    cbn [take]. f_equal. apply take_app_length.
Qed.

Lemma field_pattern_search name content value :
  group_1 (Re.search (field_pattern name) content) = Some value →
  value ≠ [] ∧ (QUOTE ∉ value) ∧ written_after content name value.
Proof.
  unfold group_1.
  destruct (Re.search (field_pattern name) content) as [m|] eqn:Hsearch;
    [|done].
  cbn. intros Hgroup.
  apply search_sound in Hsearch as (before & s & -> & Hmatch).
  apply field_pattern_match in Hmatch
    as (ws1 & ws2 & value' & rest & -> & Hws1 & Hws2 & Hne & Hq & Hg).
  rewrite Hgroup in Hg. injection Hg as <-.
  split; [done|]. split; [done|].
  by exists before, ws1, ws2, rest.
Qed.

(** X20.  A verdict of the fourth stage is made of pieces of the content
    as they stand.  Each of its four fields is a text that is not empty
    and holds no double quote, and the content has it between quotes
    after the quoted name of the field, a colon and optional white
    space; nothing is unescaped, so a value with an escaped quote comes
    back cut before the quote, with the backslash. *)
Theorem recovered_fields_are_raw_text content model d :
  outcome (field_recovery content model) = Return (Some d) →
  raw_value content d "False Positive"
  ∧ raw_value content d "Sanitization Found?"
  ∧ raw_value content d "Attack Feasible?"
  ∧ raw_value content d "Confidence"
  ∧ d !! str "model_used" = Some (JString model).
Proof.
  intros (fp & sf & af & cf & Hfp & Hsf & Haf & Hcf & ->)%field_recovery_spec.
  destruct (recovered_fields_lookup fp sf af cf model)
    as (L1 & L2 & L3 & L4 & L5).
  apply field_pattern_search in Hfp as (? & ? & ?).
  apply field_pattern_search in Hsf as (? & ? & ?).
  apply field_pattern_search in Haf as (? & ? & ?).
  apply field_pattern_search in Hcf as (? & ? & ?).
  split; [by exists fp|]. split; [by exists sf|]. split; [by exists af|].
  split; [by exists cf|done].
Qed.

Lemma recovered_fields_are_raw_text_witness :
  let content :=
    text "Verdict: 'False Positive': 'yes'; 'Sanitization Found?': 'no'; 'Attack Feasible?': 'say \'no\''; 'Confidence': 'high'" in
  ∃ d, outcome (field_recovery content (str "m")) = Return (Some d)
       ∧ d !! str "Attack Feasible?" = Some (JString (str "say \"))
       ∧ raw_value content d "Attack Feasible?".
Proof.
  intros content.
  assert (Hvalue :
    match outcome (field_recovery content (str "m")) with
    | Return (Some d) =>
        d !! str "Attack Feasible?" = Some (JString (str "say \"))
    | _ => False
    end) by (vm_compute; reflexivity).
  destruct (outcome (field_recovery content (str "m"))) as [[d|]|e] eqn:Hd;
    [|destruct Hvalue|destruct Hvalue].
  exists d. split; [reflexivity|]. split; [exact Hvalue|].
  destruct (recovered_fields_are_raw_text content (str "m") d Hd)
    as (_ & _ & Hraw & _).
  exact Hraw.
Defined.

End FieldRecoverySpec.

(** ** Verdicts inside prose: the second, third and fourth stage *)

Module StagesSpec.
Import Json OpenRouter PyLemmas OpenRouterSpec JsonSpec RoundTripSpec ReSpec
  FieldRecoverySpec.

(** *** What an escaped text is made of *)

Lemma hex_digit_alphabet d :
  (d < 16)%N → hex_digit d ∈ str "0123456789abcdef".
Proof.
  intros Hd.
  assert (d = 0 ∨ d = 1 ∨ d = 2 ∨ d = 3 ∨ d = 4 ∨ d = 5 ∨ d = 6 ∨ d = 7
          ∨ d = 8 ∨ d = 9 ∨ d = 10 ∨ d = 11 ∨ d = 12 ∨ d = 13 ∨ d = 14
          ∨ d = 15)%N as H by lia.
  repeat destruct H as [->|H]; try subst d;
    apply (bool_decide_unpack _); vm_compute; exact I.
Qed.

Lemma uXXXX_alphabet n x :
  x ∈ uXXXX n → x ∈ (str "\u" ++ str "0123456789abcdef").
Proof.
  unfold uXXXX.
  rewrite !elem_of_app, !elem_of_cons, elem_of_nil.
  intros [Hx|[->|[->|[->|[->|[]]]]]]; [by left|right..];
    apply hex_digit_alphabet, N.mod_lt; done.
Qed.

(** An escaped character is written with the character itself, or with
    the quote, the backslash, digits and lower-case letters. *)
Lemma escape_alphabet c x : x ∈ escape c → x = c ∨ x ∈ written_with.
Proof.
  assert (Hu : ∀ n, x ∈ uXXXX n → x ∈ written_with).
  { intros n Hx%uXXXX_alphabet. revert Hx.
    change written_with
      with (QUOTE :: str "\u" ++ str "bfnrt" ++ str "0123456789abcdef"
            ++ str ":, ").
    rewrite elem_of_cons, !elem_of_app. tauto. }
  unfold escape.
  repeat match goal with
  | |- x ∈ (if ?b then _ else _) → _ =>
      destruct b;
        [intros Hx; right; clear Hu; revert x Hx; apply Forall_forall;
         apply (bool_decide_unpack _); vm_compute; exact I|]
  end.
  destruct (in_range (ord " ") (ord "~") c).
  { intros Hx%list_elem_of_singleton. by left. }
  destruct (c <? 0x10000)%N.
  - intros Hx. right. by apply (Hu c).
  - cbv zeta. rewrite elem_of_app. intros [Hx|Hx]; right; by eapply Hu.
Qed.

(** So escaping brings in no backtick and no brace. *)
Lemma escape_free chars s :
  never_written chars → free_of chars s → free_of chars (s ≫= escape).
Proof.
  intros Hchars Hs. unfold free_of, never_written in *. apply Forall_forall.
  intros x (c & Hx & Hc)%list_elem_of_bind Hin.
  apply escape_alphabet in Hx as [->|Hx].
  - rewrite Forall_forall in Hs. by apply (Hs c).
  - rewrite Forall_forall in Hchars. by apply (Hchars x).
Qed.

Lemma free_of_app chars a b :
  free_of chars (a ++ b) ↔ free_of chars a ∧ free_of chars b.
Proof. apply Forall_app. Qed.

Lemma free_of_written chars s :
  never_written chars → Forall (λ x, x ∈ written_with) s → free_of chars s.
Proof.
  intros Hchars Hs. unfold free_of, never_written in *.
  eapply Forall_impl; [exact Hs|]. intros x Hx Hin.
  rewrite Forall_forall in Hchars. by apply (Hchars x).
Qed.

Lemma dumps_member_free chars k v :
  never_written chars → free_of chars k → free_of chars v →
  free_of chars (dumps_member (k, v)).
Proof.
  intros Hchars Hk Hv. rewrite dumps_member_text.
  change (QUOTE :: (k ≫= escape) ++ QUOTE :: ord ":" :: ord " " :: QUOTE
          :: (v ≫= escape) ++ [QUOTE])
    with ([QUOTE] ++ (k ≫= escape) ++ [QUOTE; ord ":"; ord " "; QUOTE]
          ++ (v ≫= escape) ++ [QUOTE]).
  rewrite !free_of_app.
  repeat split; try (by apply escape_free);
    apply free_of_written; try done;
    apply (bool_decide_unpack _); vm_compute; exact I.
Qed.

(** The text of an object between its two braces holds none of the
    characters that its names and values are free of. *)
Lemma members_free chars members :
  never_written chars →
  Forall (λ kv, free_of chars kv.1 ∧ free_of chars kv.2) members →
  free_of chars (join (str ", ") (dumps_member <$> members)).
Proof.
  intros Hchars. induction 1 as [|[k v] members [Hk Hv] _ IH]; [constructor|].
  destruct members as [|kv members].
  - cbn. by apply dumps_member_free.
  - cbn [fmap list_fmap] in *. rewrite join_cons, !free_of_app.
    split; [by apply dumps_member_free|]. split; [|done].
    apply free_of_written; [done|].
    apply (bool_decide_unpack _); vm_compute; exact I.
Qed.

(** *** The second stage *)

(** A text that does not start with a backtick does not start with
    three. *)
Lemma no_fence_here (s : pystr) :
  match s with x :: _ => x ≠ ord "`" | [] => True end →
  Re.starts_with (str "```") s = None.
Proof.
  destruct s as [|x s]; [done|]. intros Hx.
  by apply (starts_with_other (ord "`")).
Qed.

(** The pattern of the second stage, at a fence that holds an object
    without backticks: the group is the object. *)
Lemma fenced_block_match body post :
  free_of "`" body →
  ∃ m, Re.match_ fenced_block
         (str "```" ++ str "json" ++ 10%N :: ord "{" :: body ++ ord "}"
          :: 10%N :: str "```" ++ post) = Some m
       ∧ Re.group1 m = Some (ord "{" :: body ++ [ord "}"]).
Proof.
  intros Hbody. unfold Re.match_, fenced_block. cbn [Re.exec].
  rewrite !starts_with_prefix.
  match goal with
  | |- context [Re.star isspace (10%N :: ?b) ?k] => set (K := k); set (B := b)
  end.
  assert (∃ m, K B = Some m
               ∧ Re.group1 m = Some (ord "{" :: body ++ [ord "}"]))
    as (m & HK & Hm); last first.
  { exists m. by rewrite (star_one isspace 10%N B K m). }
  subst K B. cbv beta.
  rewrite (proj2 (starts_with_Some (str "{")
                    (ord "{" :: body ++ ord "}" :: 10%N :: str "```" ++ post)
                    (body ++ ord "}" :: 10%N :: str "```" ++ post)) eq_refl).
  eexists. split.
  - apply lazy_star_first.
    + by apply Forall_forall.
    + intros a1 [|x a2] -> Ha2; [done|]. cbn [app].
      destruct (decide (x = ord "}")) as [->|Hx].
      2:{ assert (Re.starts_with (str "}")
                    (x :: a2 ++ ord "}" :: 10%N :: str "```" ++ post) = None)
            as ->; [|done].
          apply (starts_with_other (ord "}")). by intros <-. }
      rewrite (proj2 (starts_with_Some (str "}") (ord "}" :: _) _) eq_refl).
      apply star_none. intros a b Heq Ha.
      apply (split_before (λ c, isspace c = true)) in Heq
        as (u' & -> & ->); [|done|done].
      rewrite no_fence_here; [done|].
      apply free_of_app in Hbody as [_ Hbody].
      apply Forall_cons_1 in Hbody as [_ Hbody].
      apply free_of_app in Hbody as [_ Hbody].
      destruct u' as [|y u']; cbn; [done|].
      apply Forall_cons_1 in Hbody as [Hy _]. intros ->. apply Hy. by left.
    + rewrite (proj2 (starts_with_Some (str "}") (ord "}" :: _) _) eq_refl).
      apply star_one; [reflexivity|done|].
      by rewrite starts_with_prefix.
  - cbn [Re.group1]. f_equal.
    assert (ord "{" :: body ++ ord "}" :: 10%N :: str "```" ++ post
            = (ord "{" :: body ++ [ord "}"]) ++ 10%N :: str "```" ++ post)
      as -> by (cbn [app]; by rewrite <- app_assoc).
    apply take_consumed.
Qed.

Lemma names_free chars :
  never_written chars →
  Forall (λ x, x ∉ text chars)
    (str "False Positive" ++ str "Sanitization Found?"
     ++ str "Attack Feasible?" ++ str "Confidence" ++ str "model_used") →
  ∀ v, fields (free_of chars) v →
  free_of chars (join (str ", ") (dumps_member <$> members v)).
Proof.
  intros Hchars Hnames v (H1 & H2 & H3 & H4 & H5).
  apply members_free; [done|].
  apply Forall_app in Hnames as [N1 Hnames].
  apply Forall_app in Hnames as [N2 Hnames].
  apply Forall_app in Hnames as [N3 Hnames].
  apply Forall_app in Hnames as [N4 N5].
  unfold members, required_members. cbn [app].
  repeat (constructor; [by split|]). constructor.
Qed.

Lemma search_fenced_block pre post body :
  free_of "`" pre → free_of "`" body →
  group_1 (Re.search fenced_block
             (pre ++ str "```json" ++ [10%N] ++ (str "{" ++ body ++ str "}")
              ++ [10%N] ++ str "```" ++ post))
  = Some (str "{" ++ body ++ str "}").
Proof.
  intros Hpre Hbody.
  destruct (fenced_block_match body post Hbody) as (m & Hm & Hgroup).
  assert (str "```json" ++ [10%N] ++ (str "{" ++ body ++ str "}")
          ++ [10%N] ++ str "```" ++ post
          = str "```" ++ str "json" ++ 10%N :: ord "{" :: body ++ ord "}"
            :: 10%N :: str "```" ++ post) as ->.
  { change (str "```json") with (str "```" ++ str "json").
    change (str "{") with [ord "{"]. change (str "}") with [ord "}"].
    repeat first [rewrite <- app_comm_cons | rewrite <- app_assoc].
    reflexivity. }
  rewrite search_skip.
  - rewrite (search_here _ _ _ Hm). exact Hgroup.
  - intros a1 [|x a2] -> Ha2; [done|]. cbn [app].
    apply (match_literal_other (ord "`")).
    apply free_of_app in Hpre as [_ Hpre].
    apply Forall_cons_1 in Hpre as [Hx _]. intros ->. apply Hx. by left.
Qed.

(** X21.  A verdict inside a fenced block comes back as it was written.
    When [json.loads] raises [JSONDecodeError] on the content as a whole
    (the content is not JSON and runs into no limit of the interpreter
    before that is seen) and the content holds, after prose without a
    backtick, a fence that opens with three backticks and
    [json], a line with [json.dumps] of a verdict, and a line with three
    backticks, and no field of the verdict holds a backtick, the call
    returns that verdict with [model_used] set to the model of the
    call. *)
Theorem fenced_round_trip `{!Interpreter} self prompt model pre post v :
  truthy (api_key self) = true →
  loads (fenced pre post v) = Raise JSONDecodeError →
  free_of "`" pre →
  fields (Forall (λ c, scalar c = true)) v →
  fields (free_of "`") v →
  outcome (_call_openrouter_api
             (answers (mret (chat_completion (fenced pre post v))))
             self prompt model)
  = Return (as_dict (overlay v (or_ model (OpenRouter.model self)))).
Proof.
  intros Hkey Hloads Hpre Hscalar Hfree. rewrite call_with_content by done.
  unfold parse_content. rewrite outcome_try_except_on.
  unfold direct_parse at 1, json_loads. rewrite Hloads.
  cbn [mbind py_bind outcome raise is_JSONDecodeError printed].
  rewrite outcome_bind.
  unfold fenced_block_parse. rewrite outcome_try_except_on.
  unfold fenced, clean_json, dumps.
  rewrite search_fenced_block; [|done|].
  2:{ apply names_free; [| |done];
        apply (bool_decide_unpack _); vm_compute; exact I. }
  unfold json_loads.
  change (str "{" ++ join (str ", ") (dumps_member <$> members v) ++ str "}")
    with (dumps (members v)).
  rewrite loads_dumps by (by apply members_scalar).
  cbn [mbind py_bind outcome mret py_ret update_model_used printed].
  by rewrite overlay_as_dict.
Qed.

Lemma fenced_round_trip_witness :
  let interpreter : Interpreter := cpython in
  let self := {| api_key := Some (str "key"); model := str "default";
                 base_url := str "https://openrouter.ai/api/v1" |} in
  let v := {| false_positive := str "no";
              sanitization_found := text "none: 'x' is passed {as is}";
              attack_feasible := str "yes";
              confidence := str "high";
              model_used := str "written by the model" |} in
  let pre := str "Here is my analysis." ++ [10%N] in
  let post := [10%N] ++ str "Let me know if you need more." in
  truthy (api_key self) = true
  ∧ loads (fenced pre post v) = Raise JSONDecodeError
  ∧ field_of (_call_openrouter_api
                (answers (mret (chat_completion (fenced pre post v))))
                self (str "prompt") (Some (str "m")))
             "Sanitization Found?"
    = Some (JString (text "none: 'x' is passed {as is}")).
Proof.
  intros interpreter self v pre post.
  assert (Hkey : truthy (api_key self) = true) by reflexivity.
  assert (Hloads : loads (fenced pre post v) = Raise JSONDecodeError)
    by (vm_compute; reflexivity).
  split; [exact Hkey|]. split; [exact Hloads|].
  unfold field_of.
  rewrite (fenced_round_trip self (str "prompt") (Some (str "m")) pre post v
             Hkey Hloads).
  - vm_compute. reflexivity.
  - apply (bool_decide_unpack _). vm_compute. exact I.
  - unfold fields. repeat split; apply (bool_decide_unpack _); vm_compute;
      exact I.
  - unfold fields, free_of. repeat split; apply (bool_decide_unpack _);
      vm_compute; exact I.
Defined.

(** *** The third stage *)

(** The first place where a character stands is the same however the
    text is cut. *)
Lemma first_occurrence {A} (y : A) (u u' w w' : list A) :
  u ++ y :: w = u' ++ y :: w' → y ∉ u → y ∉ u' → u = u' ∧ w = w'.
Proof.
  revert u'. induction u as [|x u IH]; intros [|x' u'] Heq Hu Hu';
    cbn in Heq.
  - by injection Heq as ->.
  - injection Heq as <- _. exfalso. apply Hu'. by left.
  - injection Heq as -> _. exfalso. apply Hu. by left.
  - injection Heq as <- Heq.
    destruct (IH u' Heq) as [-> ->]; [| |done].
    + intros Hin. apply Hu. by right.
    + intros Hin. apply Hu'. by right.
Qed.

Lemma none_of_braces_free a :
  Forall (λ c, Re.none_of (str "{}") c = true) a ↔ free_of "{}" a.
Proof.
  unfold free_of. apply Forall_iff. intros c. unfold Re.none_of.
  by rewrite bool_decide_eq_true.
Qed.

(** The pattern of the third stage, at an object without a brace inside
    that has the quoted name [False Positive]: the match is the object. *)
Lemma json_pattern_match before tail post body :
  free_of "{}" before → free_of "{}" tail →
  body = before ++ quoted (str "False Positive") ++ tail →
  ∃ m, Re.match_ json_pattern (ord "{" :: body ++ ord "}" :: post) = Some m
       ∧ Re.group0 m = ord "{" :: body ++ [ord "}"]
       ∧ Re.after m = post.
Proof.
  intros Hbefore Htail Hshape.
  assert (Hname : free_of "{}" (quoted (str "False Positive")))
    by (apply (bool_decide_unpack _); vm_compute; exact I).
  assert (Hbody : ord "}" ∉ body).
  { assert (free_of "{}" body) as Hfree
      by (subst body; apply free_of_app; split;
          [done|apply free_of_app; by split]).
    intros Hin. unfold free_of in Hfree. rewrite Forall_forall in Hfree.
    apply (Hfree _ Hin). right. by left. }
  unfold Re.match_, json_pattern. cbn [Re.exec].
  rewrite (proj2 (starts_with_Some (str "{") (ord "{" :: _) _) eq_refl).
  match goal with
  | |- context [Re.star ?p ?s ?k] => set (K := k); set (T := s)
  end.
  assert (is_Some (Re.star (Re.none_of (str "{}")) T K)) as [m Hm].
  { subst T. rewrite Hshape, <- !app_assoc.
    apply star_complete; [by apply none_of_braces_free|].
    subst K. cbv beta. rewrite starts_with_prefix.
    apply (star_complete _ tail (ord "}" :: post));
      [by apply none_of_braces_free|].
    by rewrite (proj2 (starts_with_Some (str "}") (ord "}" :: _) _) eq_refl). }
  exists m. split; [exact Hm|].
  apply star_sound in Hm as (a & b & Heq & Ha & Hb). subst K. cbv beta in Hb.
  destruct (Re.starts_with (quoted (str "False Positive")) b) as [s2|] eqn:H2;
    [|done].
  apply starts_with_Some in H2 as ->.
  apply star_sound in Hb as (a' & b' & -> & Ha' & Hb').
  destruct (Re.starts_with (str "}") b') as [s4|] eqn:H4; [|done].
  apply starts_with_Some in H4 as ->. injection Hb' as <-.
  cbn [Re.group0 Re.after].
  assert (body = a ++ quoted (str "False Positive") ++ a' ∧ post = s4)
    as [Hbody' ->].
  { apply (first_occurrence (ord "}")); [|done|].
    - subst T. rewrite Heq. change (str "}" ++ s4) with (ord "}" :: s4).
      by rewrite <- !app_assoc.
    - apply none_of_braces_free in Ha, Ha'.
      assert (free_of "{}" (a ++ quoted (str "False Positive") ++ a'))
        as Hfree
        by (apply free_of_app; split; [done|apply free_of_app; by split]).
      intros Hin. unfold free_of in Hfree. rewrite Forall_forall in Hfree.
      apply (Hfree _ Hin). right. by left. }
  split; [|done].
  transitivity
    (take (length ((ord "{" :: body ++ [ord "}"]) ++ s4) - length s4)
       ((ord "{" :: body ++ [ord "}"]) ++ s4)); [|apply take_consumed].
  cbn [app]. rewrite <- app_assoc. reflexivity.
Qed.

Lemma body_shape v :
  ∃ tail,
    join (str ", ") (dumps_member <$> members v)
    = quoted (str "False Positive") ++ tail.
Proof.
  unfold members, required_members. cbn [app fmap list_fmap].
  rewrite join_cons, dumps_member_text.
  change (str "False Positive" ≫= escape) with (str "False Positive").
  eexists. unfold quoted.
  repeat first [rewrite <- app_comm_cons | rewrite <- app_assoc].
  reflexivity.
Qed.

Lemma lstrip_head c s : isspace c = false → lstrip (c :: s) = c :: s.
Proof. intros H. cbn [lstrip]. by rewrite H. Qed.

Lemma strip_braced body :
  strip (ord "{" :: body ++ [ord "}"]) = ord "{" :: body ++ [ord "}"].
Proof.
  unfold strip. rewrite lstrip_head by reflexivity.
  assert (reverse (ord "{" :: body ++ [ord "}"])
          = ord "}" :: reverse body ++ [ord "{"]) as ->.
  { rewrite reverse_cons, reverse_app. reflexivity. }
  rewrite lstrip_head by reflexivity.
  rewrite reverse_cons, reverse_app, reverse_involutive. reflexivity.
Qed.

Lemma has_all_required_fields v :
  has_required_fields (JObject (prod_map id JString <$> members v))
  = mret true.
Proof. destruct v. reflexivity. Qed.

(** The third stage on an object between two pieces of prose. *)
Lemma loose_object_scan_embedded `{!Interpreter} pre post v model :
  free_of "{" pre →
  fields (Forall (λ c, scalar c = true)) v →
  fields (free_of "{}") v →
  outcome (loose_object_scan (embedded pre post v) model)
  = Return (Some (as_dict (overlay v model))).
Proof.
  intros Hpre Hscalar Hfree.
  destruct (body_shape v) as [tail Hshape].
  assert (Hbody : free_of "{}"
                    (join (str ", ") (dumps_member <$> members v))).
  { apply names_free; [| |done];
      apply (bool_decide_unpack _); vm_compute; exact I. }
  assert (Htail : free_of "{}" tail).
  { rewrite Hshape in Hbody. by apply free_of_app in Hbody as [_ ?]. }
  destruct (json_pattern_match [] tail post _ ltac:(constructor) Htail Hshape)
    as (m & Hm & Hgroup & Hafter).
  assert (Hsearch : Re.search json_pattern (embedded pre post v) = Some m).
  { unfold embedded, clean_json, dumps.
    assert (str "{" ++ join (str ", ") (dumps_member <$> members v) ++ str "}"
            = [ord "{"] ++ join (str ", ") (dumps_member <$> members v)
              ++ [ord "}"]) as -> by reflexivity.
    rewrite <- !app_assoc. rewrite search_skip.
    - apply search_here. exact Hm.
    - intros a1 [|x a2] -> Ha2; [done|]. cbn [app].
      apply (match_literal_other (ord "{")).
      apply free_of_app in Hpre as [_ Hpre].
      apply Forall_cons_1 in Hpre as [Hx _]. intros ->. apply Hx. by left. }
  unfold loose_object_scan. rewrite outcome_try_except.
  unfold Re.findall. cbn [Re.findall_from]. rewrite Hsearch, Hgroup.
  cbv iota. cbn [loose_object_loop].
  rewrite outcome_bind, outcome_try_except_on, strip_braced.
  unfold json_loads.
  change (ord "{" :: join (str ", ") (dumps_member <$> members v)
          ++ [ord "}"]) with (dumps (members v)).
  rewrite loads_dumps by (by apply members_scalar).
  cbn [mbind py_bind outcome mret py_ret printed].
  rewrite has_all_required_fields.
  cbn [mbind py_bind outcome mret py_ret printed update_model_used].
  by rewrite overlay_as_dict.
Qed.

Lemma fenced_block_absent `{!Interpreter} content model :
  free_of "`" content →
  outcome (fenced_block_parse content model) = Return None.
Proof.
  intros Hfree. unfold fenced_block_parse. rewrite outcome_try_except_on.
  assert (Re.search fenced_block content = None) as ->; [|done].
  apply (search_literal_absent (ord "`")).
  intros Hin. unfold free_of in Hfree. rewrite Forall_forall in Hfree.
  apply (Hfree _ Hin). by left.
Qed.

(** X22.  A verdict between two pieces of prose comes back as it was
    written.  When [json.loads] raises [JSONDecodeError] on the content
    as a whole (the content is not JSON and runs into no limit of the
    interpreter before that is seen) and the content is [json.dumps] of
    a verdict with prose before and after, no backtick
    anywhere, no opening brace in the prose before, and no brace in the
    fields of the verdict, the call returns that verdict with
    [model_used] set to the model of the call. *)
Theorem embedded_round_trip `{!Interpreter} self prompt model pre post v :
  truthy (api_key self) = true →
  loads (embedded pre post v) = Raise JSONDecodeError →
  free_of "`" pre → free_of "{" pre → free_of "`" post →
  fields (Forall (λ c, scalar c = true)) v →
  fields (free_of "`") v →
  fields (free_of "{}") v →
  outcome (_call_openrouter_api
             (answers (mret (chat_completion (embedded pre post v))))
             self prompt model)
  = Return (as_dict (overlay v (or_ model (OpenRouter.model self)))).
Proof.
  intros Hkey Hloads Hpre1 Hpre2 Hpost Hscalar Hfree1 Hfree2.
  rewrite call_with_content by done.
  unfold parse_content. rewrite outcome_try_except_on.
  unfold direct_parse at 1, json_loads. rewrite Hloads.
  cbn [mbind py_bind outcome raise is_JSONDecodeError printed].
  rewrite outcome_bind, fenced_block_absent.
  - rewrite outcome_bind. by rewrite loose_object_scan_embedded.
  - unfold embedded, clean_json, dumps. rewrite !free_of_app.
    split; [done|]. split; [|done].
    split; [apply (bool_decide_unpack _); vm_compute; exact I|].
    split; [|apply (bool_decide_unpack _); vm_compute; exact I].
    apply names_free; [| |done];
      apply (bool_decide_unpack _); vm_compute; exact I.
Qed.

Lemma embedded_round_trip_witness :
  let interpreter : Interpreter := cpython in
  let self := {| api_key := Some (str "key"); model := str "default";
                 base_url := str "https://openrouter.ai/api/v1" |} in
  let v := {| false_positive := str "no";
              sanitization_found := text "none: 'x' is passed as is";
              attack_feasible := str "yes";
              confidence := str "high";
              model_used := str "written by the model" |} in
  let pre := str "My verdict is " in
  let post := str " and I stand by it }." in
  truthy (api_key self) = true
  ∧ loads (embedded pre post v) = Raise JSONDecodeError
  ∧ field_of (_call_openrouter_api
                (answers (mret (chat_completion (embedded pre post v))))
                self (str "prompt") (Some (str "m")))
             "Sanitization Found?"
    = Some (JString (text "none: 'x' is passed as is")).
Proof.
  intros interpreter self v pre post.
  assert (Hkey : truthy (api_key self) = true) by reflexivity.
  assert (Hloads : loads (embedded pre post v) = Raise JSONDecodeError)
    by (vm_compute; reflexivity).
  split; [exact Hkey|]. split; [exact Hloads|].
  unfold field_of.
  rewrite (embedded_round_trip self (str "prompt") (Some (str "m")) pre post v
             Hkey Hloads).
  - vm_compute. reflexivity.
  - apply (bool_decide_unpack _). vm_compute. exact I.
  - apply (bool_decide_unpack _). vm_compute. exact I.
  - apply (bool_decide_unpack _). vm_compute. exact I.
  - unfold fields. repeat split; apply (bool_decide_unpack _); vm_compute;
      exact I.
  - unfold fields, free_of. repeat split; apply (bool_decide_unpack _);
      vm_compute; exact I.
  - unfold fields, free_of. repeat split; apply (bool_decide_unpack _);
      vm_compute; exact I.
Defined.

(** *** The fourth stage *)

Lemma escape_plain c : plain c = true → escape c = [c].
Proof.
  unfold plain, escape.
  intros [[Hrange Hquote%negb_true_iff]%andb_true_iff
            Hback%negb_true_iff]%andb_true_iff.
  rewrite Hback, Hquote.
  apply andb_true_iff in Hrange as Hlo. destruct Hlo as [Hlo%N.leb_le _].
  rewrite !(proj2 (N.eqb_neq c _)) by lia.
  change (in_range (ord " ") (ord "~") c) with (in_range 0x20 0x7e c).
  by rewrite Hrange.
Qed.

Lemma escape_plain_text s : Forall (λ c, plain c = true) s → s ≫= escape = s.
Proof.
  induction 1 as [|c s Hc _ IH]; [done|].
  change ((c :: s) ≫= escape) with (escape c ++ (s ≫= escape)).
  by rewrite escape_plain, IH.
Qed.

Lemma plain_no_quote s : Forall (λ c, plain c = true) s → QUOTE ∉ s.
Proof.
  intros Hs Hin. rewrite Forall_forall in Hs. specialize (Hs _ Hin).
  done.
Qed.

(** The pattern of a field finds the value at the line of the field. *)
Lemma field_pattern_found name value rest :
  value ≠ [] → QUOTE ∉ value →
  ∃ m, Re.match_ (field_pattern name) (line (str name) value ++ rest) = Some m
       ∧ Re.group1 m = Some value.
Proof.
  intros Hne Hquote. destruct value as [|c value]; [done|].
  assert (Hclass : Forall (λ x, Re.none_of [QUOTE] x = true) (c :: value)).
  { apply Forall_forall. intros x Hx. unfold Re.none_of.
    apply bool_decide_eq_true. intros ->%list_elem_of_singleton. done. }
  apply Forall_cons_1 in Hclass as [Hc Hvalue].
  unfold Re.match_, field_pattern, line. cbn [Re.exec].
  rewrite <- ?app_assoc, starts_with_prefix.
  cbn [app]. rewrite star_stop by reflexivity.
  rewrite (proj2 (starts_with_Some (str ":") (ord ":" :: _) _) eq_refl).
  unfold quoted. cbn [app].
  eexists. split.
  - apply star_one; [reflexivity|reflexivity|].
    rewrite (proj2 (starts_with_Some [QUOTE] (QUOTE :: _) _) eq_refl).
    rewrite Hc. rewrite <- app_assoc.
    apply star_all; [done|reflexivity|].
    cbn [app].
    by rewrite (proj2 (starts_with_Some [QUOTE] (QUOTE :: _) _) eq_refl).
  - cbn [Re.group1]. f_equal.
    transitivity
      (take (length ((c :: value) ++ QUOTE :: rest) - length (QUOTE :: rest))
         ((c :: value) ++ QUOTE :: rest)); [|apply take_consumed].
    reflexivity.
Qed.

(** A search for a field passes over text without a quote, *)
Lemma search_field_free name seg s :
  QUOTE ∉ seg →
  Re.search (field_pattern name) (seg ++ s) = Re.search (field_pattern name) s.
Proof.
  intros Hseg. apply search_skip. intros a1 [|x a2] -> Ha2; [done|].
  cbn [app]. apply (match_literal_other QUOTE).
  intros ->. apply Hseg. apply elem_of_app. right. by left.
Qed.

(** and over a quote where the pattern does not match. *)
Lemma search_field_step name x s :
  Re.match_ (field_pattern name) (x :: s) = None →
  Re.search (field_pattern name) (x :: s) = Re.search (field_pattern name) s.
Proof. intros Hm. cbn [Re.search]. by rewrite Hm. Qed.

Lemma search_field_other name x s :
  x ≠ QUOTE →
  Re.search (field_pattern name) (x :: s) = Re.search (field_pattern name) s.
Proof.
  intros Hx. apply search_field_step. by apply (match_literal_other QUOTE).
Qed.

Lemma field_pattern_no_match name t :
  (∀ ws1 ws2 value rest,
     t = quoted (str name) ++ ws1 ++ ord ":" :: ws2 ++ quoted value ++ rest →
     Forall (λ c, isspace c = true) ws1 → False) →
  Re.match_ (field_pattern name) t = None.
Proof.
  intros Hno. destruct (Re.match_ (field_pattern name) t) as [m|] eqn:Hm;
    [|done].
  apply field_pattern_match in Hm
    as (ws1 & ws2 & value & rest & Heq & Hws1 & _).
  destruct (Hno ws1 ws2 value rest Heq Hws1).
Qed.

(** A search for a field passes over the line of another field. *)
Lemma search_field_skip_line name other value more :
  QUOTE ∉ str name → QUOTE ∉ other → QUOTE ∉ value →
  str name ≠ other → str name ≠ [ord ":"; ord " "] → str name ≠ [10%N] →
  Re.search (field_pattern name)
    (line other value ++ 10%N :: QUOTE :: more)
  = Re.search (field_pattern name) (QUOTE :: more).
Proof.
  intros Hname Hother Hvalue Hne1 Hne2 Hne3.
  unfold line, quoted.
  repeat first [rewrite <- app_comm_cons | rewrite <- app_assoc].
  cbn [app].
  (* the quote that opens the other name *)
  rewrite search_field_step; last first.
  { apply field_pattern_no_match. intros ws1 ws2 v rest Heq _.
    unfold quoted in Heq. injection Heq as Heq.
    rewrite <- ?app_assoc in Heq. cbn [app] in Heq.
    apply first_occurrence in Heq as [Heq _]; done. }
  rewrite search_field_free by done.
  (* the quote that closes it *)
  rewrite search_field_step; last first.
  { apply field_pattern_no_match. intros ws1 ws2 v rest Heq _.
    unfold quoted in Heq. injection Heq as Heq.
    rewrite <- ?app_assoc in Heq. cbn [app] in Heq.
    apply (first_occurrence QUOTE [ord ":"; ord " "]) in Heq as [Heq _];
      [done| |done].
    intros Hin. by apply (bool_decide_pack _) in Hin. }
  rewrite !search_field_other by done.
  (* the quote that opens the value *)
  rewrite search_field_step; last first.
  { apply field_pattern_no_match. intros ws1 ws2 v rest Heq Hws1.
    unfold quoted in Heq. injection Heq as Heq.
    rewrite <- ?app_assoc in Heq. cbn [app] in Heq.
    apply first_occurrence in Heq as [_ Heq]; [|done|done].
    destruct ws1 as [|w1 [|w2 ws1]]; cbn in Heq; try discriminate Heq.
    injection Heq as _ <- _.
    apply Forall_cons_1 in Hws1 as [_ Hws1].
    by apply Forall_cons_1 in Hws1 as [? _]. }
  rewrite search_field_free by done.
  (* the quote that closes it *)
  rewrite search_field_step; last first.
  { apply field_pattern_no_match. intros ws1 ws2 v rest Heq _.
    unfold quoted in Heq. injection Heq as Heq.
    rewrite <- ?app_assoc in Heq. cbn [app] in Heq.
    apply (first_occurrence QUOTE [10%N]) in Heq as [Heq _]; [done| |done].
    intros Hin. by apply (bool_decide_pack _) in Hin. }
  by apply search_field_other.
Qed.

Lemma search_field_next name other value next value' rest :
  QUOTE ∉ str name → QUOTE ∉ other → QUOTE ∉ value →
  str name ≠ other → str name ≠ [ord ":"; ord " "] → str name ≠ [10%N] →
  Re.search (field_pattern name)
    (line other value ++ 10%N :: line next value' ++ rest)
  = Re.search (field_pattern name) (line next value' ++ rest).
Proof.
  intros. unfold line at 2 3, quoted at 1 3. cbn [app].
  by apply search_field_skip_line.
Qed.

Lemma plain_scalar s :
  Forall (λ c, plain c = true) s → Forall (λ c, scalar c = true) s.
Proof.
  intros Hs. eapply Forall_impl; [exact Hs|]. intros c. unfold plain, scalar.
  intros [[[_ Hhi%N.leb_le]%andb_true_iff _]%andb_true_iff _]%andb_true_iff.
  apply orb_true_iff. left. apply N.ltb_lt. lia.
Qed.

(** The four lines, one after the other. *)
Lemma lines_shape v :
  required (Forall (λ c, plain c = true)) v →
  key_value_lines v
  = line (str "False Positive") (false_positive v) ++ 10%N
    :: line (str "Sanitization Found?") (sanitization_found v) ++ 10%N
    :: line (str "Attack Feasible?") (attack_feasible v) ++ 10%N
    :: line (str "Confidence") (confidence v) ++ [].
Proof.
  intros (H1 & H2 & H3 & H4).
  unfold key_value_lines, required_members.
  cbn [fmap list_fmap join]. rewrite !dumps_member_text.
  rewrite !(escape_plain_text _ H1), !(escape_plain_text _ H2),
    !(escape_plain_text _ H3), !(escape_plain_text _ H4).
  rewrite !escape_plain_text
    by (apply Forall_forall; intros c Hc;
        revert c Hc; apply Forall_forall;
        apply (bool_decide_unpack _); vm_compute; exact I).
  unfold line, quoted. rewrite app_nil_r.
  repeat first [rewrite <- app_comm_cons | rewrite <- app_assoc].
  reflexivity.
Qed.

(** A line is not JSON: after the quoted name comes a colon. *)
Lemma loads_line `{!Interpreter} name value rest :
  Forall (λ c, plain c = true) name →
  loads (line name value ++ rest) = Raise JSONDecodeError.
Proof.
  intros Hname. unfold loads, line, quoted.
  repeat first [rewrite <- app_comm_cons | rewrite <- app_assoc].
  cbn [app]. rewrite skip_ws_head by reflexivity.
  rewrite scan_once_string.
  rewrite <- (escape_plain_text name Hname) at 1.
  rewrite scanstring_escaped by (by apply plain_scalar).
  reflexivity.
Qed.

Lemma free_of_cons chars x s :
  free_of chars (x :: s) ↔ (x ∉ text chars) ∧ free_of chars s.
Proof.
  unfold free_of. split.
  - intros H. by inversion H.
  - intros [? ?]. by constructor.
Qed.

Lemma lines_free chars v :
  Forall (λ x, x ∉ text chars)
    (QUOTE :: ord ":" :: ord " " :: 10%N
     :: str "False Positive" ++ str "Sanitization Found?"
     ++ str "Attack Feasible?" ++ str "Confidence") →
  required (Forall (λ c, plain c = true)) v →
  required (free_of chars) v →
  free_of chars (key_value_lines v).
Proof.
  intros Hchars Hplain (H1 & H2 & H3 & H4). rewrite lines_shape by done.
  apply Forall_cons_1 in Hchars as [C1 Hchars].
  apply Forall_cons_1 in Hchars as [C2 Hchars].
  apply Forall_cons_1 in Hchars as [C3 Hchars].
  apply Forall_cons_1 in Hchars as [C4 Hchars].
  apply Forall_app in Hchars as [N1 Hchars].
  apply Forall_app in Hchars as [N2 Hchars].
  apply Forall_app in Hchars as [N3 N4].
  unfold line, quoted.
  repeat first [rewrite free_of_app | rewrite free_of_cons].
  repeat split; first [done | constructor].
Qed.

(** Without an opening brace there is no candidate for the third
    stage. *)
Lemma loose_object_scan_absent `{!Interpreter} content model :
  free_of "{" content →
  outcome (loose_object_scan content model) = Return None.
Proof.
  intros Hfree. unfold loose_object_scan. rewrite outcome_try_except.
  unfold Re.findall. cbn [Re.findall_from].
  assert (Re.search json_pattern content = None) as ->; [|done].
  apply (search_literal_absent (ord "{")).
  intros Hin. unfold free_of in Hfree. rewrite Forall_forall in Hfree.
  apply (Hfree _ Hin). by left.
Qed.

Lemma free_of_subset chars chars' s :
  (∀ x, x ∈ text chars' → x ∈ text chars) →
  free_of chars s → free_of chars' s.
Proof.
  intros Hsub Hs. eapply Forall_impl; [exact Hs|].
  intros x Hx Hin. by apply Hx, Hsub.
Qed.

Ltac closed_condition :=
  first [assumption | apply (bool_decide_unpack _); vm_compute; exact I].

(** The fourth stage on the four lines. *)
Lemma field_recovery_lines v model :
  required (λ s, s ≠ []) v →
  required (Forall (λ c, plain c = true)) v →
  outcome (field_recovery (key_value_lines v) model)
  = Return (Some (as_dict (overlay v model))).
Proof.
  intros (E1 & E2 & E3 & E4) Hplain. rewrite lines_shape by done.
  destruct Hplain as (P1%plain_no_quote & P2%plain_no_quote
                      & P3%plain_no_quote & P4%plain_no_quote).
  unfold field_recovery. rewrite outcome_try_except.
  (* the first field *)
  destruct (field_pattern_found "False Positive" (false_positive v)
              (10%N :: line (str "Sanitization Found?") (sanitization_found v)
               ++ 10%N :: line (str "Attack Feasible?") (attack_feasible v)
               ++ 10%N :: line (str "Confidence") (confidence v) ++ [])
              E1 P1) as (m1 & Hm1 & G1).
  rewrite (search_here _ _ _ Hm1).
  (* the second *)
  rewrite (search_field_next "Sanitization Found?") by closed_condition.
  destruct (field_pattern_found "Sanitization Found?" (sanitization_found v)
              (10%N :: line (str "Attack Feasible?") (attack_feasible v)
               ++ 10%N :: line (str "Confidence") (confidence v) ++ [])
              E2 P2) as (m2 & Hm2 & G2).
  rewrite (search_here _ _ _ Hm2).
  (* the third *)
  rewrite !(search_field_next "Attack Feasible?") by closed_condition.
  destruct (field_pattern_found "Attack Feasible?" (attack_feasible v)
              (10%N :: line (str "Confidence") (confidence v) ++ [])
              E3 P3) as (m3 & Hm3 & G3).
  rewrite (search_here _ _ _ Hm3).
  (* the fourth *)
  rewrite !(search_field_next "Confidence") by closed_condition.
  destruct (field_pattern_found "Confidence" (confidence v) [] E4 P4)
    as (m4 & Hm4 & G4).
  rewrite (search_here _ _ _ Hm4).
  unfold group_1. cbn [mbind option_bind]. rewrite G1, G2, G3, G4.
  reflexivity.
Qed.

(** X23.  A verdict written as four lines comes back as it was written.
    When the content is four lines, one for each required field, each
    with the quoted name, a colon, a space and the quoted value, and
    every value is a non-empty text of printable ASCII characters
    without a double quote, a backslash, a backtick or an opening
    brace, the call returns the verdict with these four values and
    with [model_used] set to the model of the call. *)
Theorem lines_round_trip `{!Interpreter} self prompt model v :
  truthy (api_key self) = true →
  required (λ s, s ≠ []) v →
  required (Forall (λ c, plain c = true)) v →
  required (free_of "`{") v →
  outcome (_call_openrouter_api
             (answers (mret (chat_completion (key_value_lines v))))
             self prompt model)
  = Return (as_dict (overlay v (or_ model (OpenRouter.model self)))).
Proof.
  intros Hkey Hne Hplain Hfree. rewrite call_with_content by done.
  assert (Hcontent : free_of "`{" (key_value_lines v)).
  { apply lines_free; [|done|done].
    apply (bool_decide_unpack _); vm_compute; exact I. }
  unfold parse_content. rewrite outcome_try_except_on.
  unfold direct_parse at 1, json_loads.
  assert (loads (key_value_lines v) = Raise JSONDecodeError) as ->.
  { rewrite lines_shape by done. apply loads_line.
    apply (bool_decide_unpack _); vm_compute; exact I. }
  cbn [mbind py_bind outcome raise is_JSONDecodeError printed].
  rewrite outcome_bind, fenced_block_absent.
  2:{ eapply free_of_subset; [|exact Hcontent].
      intros x ->%list_elem_of_singleton. by left. }
  rewrite outcome_bind, loose_object_scan_absent.
  2:{ eapply free_of_subset; [|exact Hcontent].
      intros x ->%list_elem_of_singleton. right. by left. }
  rewrite outcome_bind. by rewrite field_recovery_lines.
Qed.

Lemma lines_round_trip_witness :
  let interpreter : Interpreter := cpython in
  let self := {| api_key := Some (str "key"); model := str "default";
                 base_url := str "https://openrouter.ai/api/v1" |} in
  let v := {| false_positive := str "no";
              sanitization_found := str "none: x is passed as is";
              attack_feasible := str "yes";
              confidence := str "high";
              model_used := str "not written" |} in
  truthy (api_key self) = true
  ∧ required (λ s, s ≠ []) v
  ∧ required (Forall (λ c, plain c = true)) v
  ∧ required (free_of "`{") v
  ∧ field_of (_call_openrouter_api
                (answers (mret (chat_completion (key_value_lines v))))
                self (str "prompt") None)
             "model_used"
    = Some (JString (str "default")).
Proof.
  intros interpreter self v.
  assert (Hkey : truthy (api_key self) = true) by reflexivity.
  assert (Hne : required (λ s, s ≠ []) v) by (repeat split; discriminate).
  assert (Hplain : required (Forall (λ c, plain c = true)) v).
  { unfold required. repeat split; apply (bool_decide_unpack _); vm_compute;
      exact I. }
  assert (Hfree : required (free_of "`{") v).
  { unfold required, free_of. repeat split; apply (bool_decide_unpack _);
      vm_compute; exact I. }
  split; [exact Hkey|]. split; [exact Hne|]. split; [exact Hplain|].
  split; [exact Hfree|].
  unfold field_of.
  rewrite (lines_round_trip self (str "prompt") None v Hkey Hne Hplain Hfree).
  vm_compute. reflexivity.
Defined.

End StagesSpec.
